(** * kfactory: ports, netlist extraction, connectivity check and all-angle routing

    A shallow embedding of
      - [src/kfactory/port.py]            (BasePort, ProtoPort, Port, DPort),
      - [src/kfactory/kcell.py]           (ProtoTKCell.circuit, connectivity_check),
      - [src/kfactory/routing/aa/optical.py] (route).

    Numbers.  Database units are integers ([Z]).  Micrometre quantities are
    Python floats in the source; they are idealised here as exact rationals
    ([Q]), compared with [Qeq_bool]/[Qle_bool].  The floating-point
    primitives of numpy and klayout that have no rational counterpart
    (arctan2, vector length, rotation of a vector, complex composition) are
    Section variables of the development. *)

From Stdlib Require Import ZArith QArith Qround Qabs Bool List Lia Lqa.
From stdpp Require Import base option strings pretty gmap.
Import ListNotations.

Local Open Scope Z_scope.

(** ** Rational helpers standing for float arithmetic *)

Definition Qltb (x y : Q) : bool := negb (Qle_bool y x).

(** Python's [x % m] on floats, for [m > 0]: the result lies in [[0, m)]. *)
Definition Qpymod (x m : Q) : Q := (x - m * inject_Z (Qfloor (x / m)))%Q.

(** Rounding to the nearest integer, ties away from zero (klayout's
    coordinate rounding). *)
Definition Qround_coord (x : Q) : Z :=
  if Qle_bool 0 x then Qfloor (x + (1 # 2))%Q else - Qfloor (- x + (1 # 2))%Q.

(** ** The klayout transformations used by the ports *)

Module Kdb.

(** [kdb.Vector] / [kdb.Point]: integer pairs. *)
Record Vector := mkVector { vx : Z; vy : Z }.

(** [kdb.DVector] / [kdb.DPoint]: micrometre pairs. *)
Record DVector := mkDVector { dvx : Q; dvy : Q }.

Definition Vector_eqb (a b : Vector) : bool :=
  (vx a =? vx b) && (vy a =? vy b).

Definition DVector_eqb (a b : DVector) : bool :=
  Qeq_bool (dvx a) (dvx b) && Qeq_bool (dvy a) (dvy b).

Definition dv_sub (a b : DVector) : DVector :=
  mkDVector (dvx a - dvx b)%Q (dvy a - dvy b)%Q.

Definition dv_add (a b : DVector) : DVector :=
  mkDVector (dvx a + dvx b)%Q (dvy a + dvy b)%Q.

(** [kdb.Trans]: rotation in units of 90 degrees (0..3), mirror flag
    (mirror about the x axis, applied before the rotation), integer
    displacement. *)
Record Trans := mkTrans { angle : Z; mirror : bool; disp : Vector }.

Definition R0 : Trans := mkTrans 0 false (mkVector 0 0).
Definition R180 : Trans := mkTrans 2 false (mkVector 0 0).
Definition M0 : Trans := mkTrans 0 true (mkVector 0 0).
Definition M90 : Trans := mkTrans 2 true (mkVector 0 0).

Definition Trans_eqb (a b : Trans) : bool :=
  (angle a =? angle b) && Bool.eqb (mirror a) (mirror b)
  && Vector_eqb (disp a) (disp b).

(** The fix-point part of a [Trans] applied to a vector. *)
Definition rot_vec (a : Z) (v : Vector) : Vector :=
  match a mod 4 with
  | 0 => v
  | 1 => mkVector (- vy v) (vx v)
  | 2 => mkVector (- vx v) (- vy v)
  | _ => mkVector (vy v) (- vx v)
  end.

Definition fp_apply (t : Trans) (v : Vector) : Vector :=
  rot_vec (angle t) (if mirror t then mkVector (vx v) (- vy v) else v).

(** [a * b]: first [b], then [a]. *)
Definition tmul (a b : Trans) : Trans :=
  let w := fp_apply a (disp b) in
  mkTrans
    ((if mirror a then angle a - angle b else angle a + angle b) mod 4)
    (xorb (mirror a) (mirror b))
    (mkVector (vx (disp a) + vx w) (vy (disp a) + vy w)).

(** [kdb.DCplxTrans]: magnification, angle in degrees, mirror flag,
    micrometre displacement. *)
Record DCplxTrans := mkDCplxTrans {
  mag : Q; dangle : Q; dmirror : bool; ddisp : DVector }.

Definition DCplxTrans_eqb (a b : DCplxTrans) : bool :=
  Qeq_bool (mag a) (mag b) && Qeq_bool (dangle a) (dangle b)
  && Bool.eqb (dmirror a) (dmirror b) && DVector_eqb (ddisp a) (ddisp b).

(** [DCplxTrans.is_complex()]: magnification differs from one or the angle
    is not a multiple of 90 degrees. *)
Definition is_complex (t : DCplxTrans) : bool :=
  negb (Qeq_bool (mag t) 1) || negb (Qeq_bool (Qpymod (dangle t) 90) 0).

(** [Vector.to_dtype(dbu)] and [DVector.to_itype(dbu)]. *)
Definition v_to_dtype (dbu : Q) (v : Vector) : DVector :=
  mkDVector (inject_Z (vx v) * dbu)%Q (inject_Z (vy v) * dbu)%Q.

Definition dv_to_itype (dbu : Q) (v : DVector) : Vector :=
  mkVector (Qround_coord (dvx v / dbu)) (Qround_coord (dvy v / dbu)).

(** [kdb.DCplxTrans(t.to_dtype(dbu))] *)
Definition of_trans (dbu : Q) (t : Trans) : DCplxTrans :=
  mkDCplxTrans 1 (inject_Z (90 * (angle t mod 4))) (mirror t)
               (v_to_dtype dbu (disp t)).

(** [kdb.ICplxTrans(t, dbu).s_trans()]: the simple part of a complex
    transformation brought to database units. *)
Definition s_trans (dbu : Q) (t : DCplxTrans) : Trans :=
  mkTrans (Qfloor (Qpymod (dangle t) 360 / 90) mod 4) (dmirror t)
          (dv_to_itype dbu (ddisp t)).

End Kdb.

(** ** Ports ([port.py]) *)

Module PortModel.
Import Kdb.

(** The part of [KCLayout] the ports read: the database unit. *)
Record KCLayout := mkKCLayout { kcl_name : string; dbu : Q }.

(** [SymmetricalCrossSection]: nominal width and main layer
    (layer number, datatype). *)
Record SymmetricalCrossSection := mkCrossSection {
  width : Z; main_layer : Z * Z }.

(** [Info]: opaque key/value metadata. *)
Definition Info := list (string * string).

(** [class BasePort(BaseModel)] *)
Record BasePort := mkBasePort {
  name : option string;
  kcl : KCLayout;
  cross_section : SymmetricalCrossSection;
  trans : option Trans;
  dcplx_trans : option DCplxTrans;
  info : Info;
  port_type : string }.

Definition with_trans (b : BasePort) (t : option Trans) : BasePort :=
  mkBasePort (name b) (kcl b) (cross_section b) t (dcplx_trans b)
             (info b) (port_type b).

Definition with_dcplx_trans (b : BasePort) (t : option DCplxTrans)
  : BasePort :=
  mkBasePort (name b) (kcl b) (cross_section b) (trans b) t
             (info b) (port_type b).

(** Structural equality of two models (pydantic's [__eq__]). *)
Definition option_eqb {A} (eqb : A -> A -> bool) (x y : option A) : bool :=
  match x, y with
  | Some a, Some b => eqb a b
  | None, None => true
  | _, _ => false
  end.

Definition KCLayout_eqb (a b : KCLayout) : bool :=
  String.eqb (kcl_name a) (kcl_name b) && Qeq_bool (dbu a) (dbu b).

Definition CrossSection_eqb (a b : SymmetricalCrossSection) : bool :=
  (width a =? width b) && (fst (main_layer a) =? fst (main_layer b))
  && (snd (main_layer a) =? snd (main_layer b)).

Fixpoint Info_eqb (a b : Info) : bool :=
  match a, b with
  | [], [] => true
  | (k, v) :: a', (k', v') :: b' =>
      String.eqb k k' && String.eqb v v' && Info_eqb a' b'
  | _, _ => false
  end.

Definition BasePort_eqb (a b : BasePort) : bool :=
  option_eqb String.eqb (name a) (name b)
  && KCLayout_eqb (kcl a) (kcl b)
  && CrossSection_eqb (cross_section a) (cross_section b)
  && option_eqb Trans_eqb (trans a) (trans b)
  && option_eqb DCplxTrans_eqb (dcplx_trans a) (dcplx_trans b)
  && Info_eqb (info a) (info b)
  && String.eqb (port_type a) (port_type b).

(** [BasePort.__copy__]: [dup()] of a klayout transformation is a copy by
    value, so the record itself is the copy. *)
Definition copy_base (self : BasePort) : BasePort :=
  mkBasePort (name self) (kcl self) (cross_section self)
             (trans self) (dcplx_trans self) (info self) (port_type self).

(** [BasePort.get_trans] and the [ProtoPort.trans] getter:
    [self._base.trans or ICplxTrans(self._base.dcplx_trans, dbu).s_trans()].
    [None] stands for the exception raised when neither is stored. *)
Definition get_trans (b : BasePort) : option Trans :=
  match trans b with
  | Some t => Some t
  | None => s_trans (dbu (kcl b)) <$> dcplx_trans b
  end.

(** [BasePort.get_dcplx_trans] and the [ProtoPort.dcplx_trans] getter:
    [self._base.dcplx_trans or DCplxTrans(self.trans.to_dtype(dbu))]. *)
Definition get_dcplx_trans (b : BasePort) : option DCplxTrans :=
  match dcplx_trans b with
  | Some t => Some t
  | None => of_trans (dbu (kcl b)) <$> get_trans b
  end.

(** The [ProtoPort.trans] setter: [self._base.trans = value.dup()]. *)
Definition set_trans (b : BasePort) (value : Trans) : BasePort :=
  with_trans b (Some value).

(** [kcl.to_um(kcl.to_dbu(v))] *)
Definition snap (d : Q) (v : DVector) : DVector :=
  v_to_dtype d (dv_to_itype d v).

(** The [ProtoPort.dcplx_trans] setter. *)
Definition set_dcplx_trans (b : BasePort) (value : DCplxTrans) : BasePort :=
  if is_complex value
     || negb (DVector_eqb (ddisp value) (snap (dbu (kcl b)) (ddisp value)))
  then with_dcplx_trans b (Some value)
  else with_trans b (Some (s_trans (dbu (kcl b)) value)).

(** The [Port.angle] setter, the one setter of the class that does clear
    the other representation. *)
Definition set_angle (b : BasePort) (value : Z) : option BasePort :=
  t ← get_trans b;
  Some (with_dcplx_trans
          (with_trans b (Some (mkTrans value (mirror t) (disp t)))) None).

(** A transformation argument of type [kdb.Trans | kdb.DCplxTrans]. *)
Inductive AnyTrans :=
| Simple (t : Trans)
| Complex (t : DCplxTrans).

Section Transformed.
(** Composition of two complex transformations ([DCplxTrans.__mul__]). *)
Variable dmul : DCplxTrans -> DCplxTrans -> DCplxTrans.

Definition to_complex (d : Q) (t : AnyTrans) : DCplxTrans :=
  match t with
  | Simple s => of_trans d s
  | Complex c => c
  end.

(** [BasePort.transformed(trans, post_trans)].  [None] stands for the
    exception raised when the port stores no transformation at all. *)
Definition transformed (self : BasePort) (tr post_trans : AnyTrans)
  : option BasePort :=
  let base := copy_base self in
  match trans base, tr, post_trans with
  | Some bt, Simple t1, Simple t2 =>
      Some (with_trans base (Some (tmul (tmul t1 bt) t2)))
  | _, _, _ =>
      let tr' := to_complex (dbu (kcl self)) tr in
      let post' := to_complex (dbu (kcl self)) post_trans in
      match dcplx_trans self with
      | Some d =>
          Some (with_dcplx_trans (with_trans base None)
                  (Some (dmul (dmul tr' d) post')))
      | None =>
          match trans self with
          | Some t =>
              Some (with_dcplx_trans (with_trans base None)
                      (Some (dmul (dmul tr' (of_trans (dbu (kcl self)) t))
                                  post')))
          | None => None
          end
      end
  end.
End Transformed.

(** *** Port objects over a store of bases

    A [Port] or [DPort] is a view on a [BasePort] object; several views
    may share one base ([to_port], [Port(base=...)]).  Bases live in a
    store indexed by their identity. *)

Abbreviation loc := positive.

Inductive ProtoPort :=
| Port (base : loc)
| DPort (base : loc).

Definition base (p : ProtoPort) : loc :=
  match p with Port l => l | DPort l => l end.

Definition isinstance_Port (p : ProtoPort) : bool :=
  match p with Port _ => true | DPort _ => false end.

(** [ProtoPort.__eq__(self, other)] *)
Definition port_eq (h : gmap loc BasePort) (self other : ProtoPort)
  : option bool :=
  if isinstance_Port other then
    a ← h !! base self; b ← h !! base other; Some (BasePort_eqb a b)
  else Some false.

(** The two property setters, as updates of the shared base. *)
Definition assign_trans (h : gmap loc BasePort) (p : ProtoPort)
    (value : Trans) : gmap loc BasePort :=
  alter (fun b => set_trans b value) (base p) h.

Definition assign_dcplx_trans (h : gmap loc BasePort) (p : ProtoPort)
    (value : DCplxTrans) : gmap loc BasePort :=
  alter (fun b => set_dcplx_trans b value) (base p) h.

(** The [trans] property read through a view. *)
Definition read_trans (h : gmap loc BasePort) (p : ProtoPort)
  : option Trans :=
  h !! base p ≫= get_trans.

Definition read_dcplx_trans (h : gmap loc BasePort) (p : ProtoPort)
  : option DCplxTrans :=
  h !! base p ≫= get_dcplx_trans.

(** [Port.copy(trans, post_trans)]:
    [Port(base=self._base.transformed(trans=trans, post_trans=post_trans))].
    The new base is a fresh object of the store. *)
Definition copy (dmul : DCplxTrans -> DCplxTrans -> DCplxTrans)
    (h : gmap loc BasePort) (self : loc) (tr post_trans : AnyTrans)
  : option (ProtoPort * gmap loc BasePort) :=
  b ← h !! self;
  nb ← transformed dmul b tr post_trans;
  let l := fresh (dom h) in
  Some (Port l, <[l := nb]> h).

(** [Port.copy_polar(d, d_orth, angle, mirror)] *)
Definition copy_polar (dmul : DCplxTrans -> DCplxTrans -> DCplxTrans)
    (h : gmap loc BasePort) (self : loc)
    (d d_orth a : Z) (m : bool) :=
  copy dmul h self (Simple R0) (Simple (mkTrans a m (mkVector d d_orth))).

End PortModel.

(** ** Python exceptions and the error-state monad of the effectful code *)

Inductive PyError :=
| ValueError (msg : string)
| NotEnoughSpace (old_pt pt : Kdb.DVector) (needed available : Q)
| TypeError_unexpected_keyword (kw : string)
| TypeError_NoneType
| AttributeError_NoneType
| AssertionError (msg : string)
| KeyError (key : string)
| LockedError.

Module PyM.
(** A computation over a mutable world [W] that either returns or raises;
    the effects made before an exception stay. *)
Definition M (W A : Type) : Type := W -> (PyError + A) * W.

Definition ret {W A} (a : A) : M W A := fun w => (inr a, w).
Definition raise {W A} (e : PyError) : M W A := fun w => (inl e, w).
Definition bind {W A B} (m : M W A) (k : A -> M W B) : M W B :=
  fun w => match m w with
           | (inr a, w') => k a w'
           | (inl e, w') => (inl e, w')
           end.
Definition lift {W A} (r : PyError + A) : M W A := fun w => (r, w).
Definition get {W} : M W W := fun w => (inr w, w).
Definition put {W} (w : W) : M W unit := fun _ => (inr tt, w).
Definition when_ {W} (b : bool) (m : M W unit) : M W unit :=
  if b then m else ret tt.
End PyM.

Notation "x <- m ;; k" := (PyM.bind m (fun x => k))
  (at level 100, m at next level, right associativity).
Notation "m ;;; k" := (PyM.bind m (fun _ => k))
  (at level 100, right associativity).

(** ** The [Port] constructor *)

Module PortCtor.
Import Kdb PortModel.

(** A keyword argument value of a Python call. *)
Inductive PyArg :=
| PyStr (s : string)
| PyInt (z : Z)
| PyFloat (q : Q)
| PyBool (b : bool)
| PyPair (x y : Z)
| PyTrans (t : Trans)
| PyDCplxTrans (t : DCplxTrans)
| PyLayerInfo (l : Z * Z)
| PyKCLayout (k : KCLayout)
| PyCrossSection (cs : SymmetricalCrossSection)
| PyInfo (i : Info)
| PyBasePort (b : BasePort).

(** The keyword-only parameters of [Port.__init__] (it takes no
    catch-all keyword dictionary). *)
Definition Port_parameters : list string :=
  ["name"; "width"; "layer"; "layer_info"; "port_type"; "trans";
   "dcplx_trans"; "angle"; "center"; "mirror_x"; "port"; "kcl"; "info";
   "cross_section"; "base"]%string.

Definition kwarg (key : string) (kwargs : list (string * PyArg))
  : option PyArg :=
  snd <$> List.find (fun kv => String.eqb (fst kv) key) kwargs.

Definition is_parameter (key : string) : bool :=
  existsb (String.eqb key) Port_parameters.

(** Reading a keyword argument at the type of its annotation. *)
Definition as_str (a : option PyArg) : option string :=
  match a with Some (PyStr s) => Some s | _ => None end.
Definition as_int (a : option PyArg) : option Z :=
  match a with Some (PyInt z) => Some z | _ => None end.
Definition as_bool (a : option PyArg) : option bool :=
  match a with Some (PyBool b) => Some b | _ => None end.
Definition as_pair (a : option PyArg) : option (Z * Z) :=
  match a with Some (PyPair x y) => Some (x, y) | _ => None end.
Definition as_trans (a : option PyArg) : option Trans :=
  match a with Some (PyTrans t) => Some t | _ => None end.
Definition as_dcplx_trans (a : option PyArg) : option DCplxTrans :=
  match a with Some (PyDCplxTrans t) => Some t | _ => None end.
Definition as_layer_info (a : option PyArg) : option (Z * Z) :=
  match a with Some (PyLayerInfo l) => Some l | _ => None end.
Definition as_kcl (a : option PyArg) : option KCLayout :=
  match a with Some (PyKCLayout k) => Some k | _ => None end.
Definition as_cross_section (a : option PyArg)
  : option SymmetricalCrossSection :=
  match a with Some (PyCrossSection c) => Some c | _ => None end.
Definition as_info (a : option PyArg) : option Info :=
  match a with Some (PyInfo i) => Some i | _ => None end.
Definition as_base (a : option PyArg) : option BasePort :=
  match a with Some (PyBasePort b) => Some b | _ => None end.

Section Init.
(** [get_default_kcl()] and [kcl.layout.get_info(layer)]. *)
Variable default_kcl : KCLayout.
Variable get_info : Z -> Z * Z.

(** The cross-section chosen by the constructor when none is given. *)
Definition init_cross_section (kwargs : list (string * PyArg))
  : PyError + SymmetricalCrossSection :=
  match as_cross_section (kwarg "cross_section" kwargs) with
  | Some cs => inr cs
  | None =>
    let layer_info :=
      match as_layer_info (kwarg "layer_info" kwargs) with
      | Some li => inr li
      | None =>
        match as_int (kwarg "layer" kwargs) with
        | Some l => inr (get_info l)
        | None =>
            inl (ValueError
                   "layer or layer_info for a port must be defined")
        end
      end in
    match layer_info with
    | inl e => inl e
    | inr li =>
      match as_int (kwarg "width" kwargs) with
      | Some w => inr (mkCrossSection w li)
      | None =>
          inl (ValueError
                 "any width and layer, or a cross_section must be given if the 'port is None'")
      end
    end
  end.

(** The body of [Port.__init__] once the keywords are accepted. *)
Definition init_body (kwargs : list (string * PyArg))
  : PyError + BasePort :=
  match as_base (kwarg "base" kwargs) with
  | Some b => inr b
  | None =>
  match as_base (kwarg "port" kwargs) with
  | Some b => inr (copy_base b)
  | None =>
    let name_ := as_str (kwarg "name" kwargs) in
    let port_type_ :=
      default "optical"%string (as_str (kwarg "port_type" kwargs)) in
    let info_ := default [] (as_info (kwarg "info" kwargs)) in
    let kcl_ := default default_kcl (as_kcl (kwarg "kcl" kwargs)) in
    match init_cross_section kwargs with
    | inl e => inl e
    | inr cs =>
      match as_trans (kwarg "trans" kwargs) with
      | Some t =>
          inr (mkBasePort name_ kcl_ cs (Some t) None info_ port_type_)
      | None =>
      match as_dcplx_trans (kwarg "dcplx_trans" kwargs) with
      | Some t =>
          inr (mkBasePort name_ kcl_ cs None (Some t) info_ port_type_)
      | None =>
      match as_int (kwarg "angle" kwargs) with
      | Some a =>
        match as_pair (kwarg "center" kwargs) with
        | Some (x, y) =>
            let m := default false (as_bool (kwarg "mirror_x" kwargs)) in
            inr (mkBasePort name_ kcl_ cs
                   (Some (mkTrans a m (mkVector x y))) None
                   info_ port_type_)
        | None => inl (AssertionError "center is not None")
        end
      | None => inl (ValueError "Missing port parameters given")
      end end end
    end
  end end.

(** [Port.__init__], called with keyword arguments.  A keyword that is
    no parameter raises [TypeError] before the body runs.  A value of
    another type than the parameter's annotation is treated as not
    given. *)
Definition Port_init (kwargs : list (string * PyArg))
  : PyError + BasePort :=
  match List.find (fun kv => negb (is_parameter (fst kv))) kwargs with
  | Some (kw, _) => inl (TypeError_unexpected_keyword kw)
  | None => init_body kwargs
  end.
End Init.
End PortCtor.

(** ** All-angle routing ([routing/aa/optical.py]) *)

Module Routing.
Import Kdb PortModel PortCtor PyM.

(** [kdb.DEdge] *)
Record DEdge := mkDEdge { p1 : DVector; p2 : DVector }.

(** A port the route continues from: the start port, or the port
    [inst.ports[key]] of an instance placed in the target cell (the
    instance is named by its index in the cell's instance list). *)
Inductive PortRef :=
| FreePort (b : BasePort)
| InstancePort (inst : nat) (key : string).

(** [VKCell], as far as the router reads and writes it, and [VInstance]. *)
Inductive VKCell := mkVKCell {
  vk_name : string;
  vk_kcl : KCLayout;
  locked : bool;
  ports : list BasePort;
  insts : list VInstance }
with VInstance := mkVInstance {
  cell : VKCell;
  connected : option (string * PortRef) }.

(** [cell.ports[key]] *)
Definition port_by_name (c : VKCell) (key : string) : PyError + BasePort :=
  match List.find
          (fun b => option_eqb String.eqb (name b) (Some key)) (ports c) with
  | Some b => inr b
  | None => inl (KeyError key)
  end.


(** One factory invocation, as observed from outside. *)
Inductive Call :=
| BendCall (width angle : Q)
| StraightCall (width length : Q).

(** What a call of [route] can change: the target cell [c] and the record
    of factory invocations. *)
Record World := mkWorld { c : VKCell; calls : list Call }.

Definition set_insts (k : VKCell) (l : list VInstance) : VKCell :=
  mkVKCell (vk_name k) (vk_kcl k) (locked k) (ports k) l.

(** [VKCell.create_inst] through [c << cell]: the new instance is appended
    to [c.insts]; the result is its index. *)
Definition create_inst (k : VKCell) : M World nat :=
  fun w =>
    if locked (c w) then (inl LockedError, w)
    else (inr (length (insts (c w))),
          mkWorld (set_insts (c w)
                     (insts (c w) ++ [mkVInstance k None])) (calls w)).

(** Modelled from the spec: [VInstance.connect(portname, other)] of
    [instance.py].  The element's port [portname] is joined to the port
    [other] (section 4.6: its resolved transform equals the cursor port's
    transform with opposite orientation); the instance keeps which of its
    ports was joined to which port.  A port name the cell does not have is
    a [KeyError]. *)
Definition connect (i : nat) (portname : string) (other : PortRef)
  : M World unit :=
  fun w =>
    match insts (c w) !! i with
    | None => (inl (KeyError portname), w)
    | Some vi =>
      match port_by_name (cell vi) portname with
      | inl e => (inl e, w)
      | inr _ =>
          (inr tt,
           mkWorld (set_insts (c w)
                      (<[i := mkVInstance (cell vi) (Some (portname, other))]>
                         (insts (c w))))
                   (calls w))
      end
    end.

(** Modelled from the spec: [inst.ports[key]] of [instance.py], the port
    of the placed element that the next element is joined to. *)
Definition instance_port (i : nat) (key : string) : M World PortRef :=
  fun w =>
    match insts (c w) !! i with
    | None => (inl (KeyError key), w)
    | Some vi =>
      match port_by_name (cell vi) key with
      | inl e => (inl e, w)
      | inr _ => (inr (InstancePort i key), w)
      end
    end.

(** [OpticalAllAngleRoute] *)
Record OpticalAllAngleRoute := mkRoute {
  backbone : list DVector;
  start_port : BasePort;
  end_port : BasePort;
  instances : list nat }.

(** The local variables of [route] that its loop reads and writes. *)
Record Vars := mkVars {
  old_pt : DVector;
  pt : DVector;
  start_offset : Q;
  effective_radius : Q;
  _port : PortRef;
  insts_ : list nat;
  bends : list (Q * VKCell) }.

(** [_a in bends] and [bends[_a]] on a dict with float keys. *)
Definition bends_get (a : Q) (d : list (Q * VKCell)) : option VKCell :=
  snd <$> List.find (fun kv => Qeq_bool (fst kv) a) d.

(** [backbone[-1]] and [backbone[-2]] *)
Definition from_end (n : nat) (l : list DVector) : DVector :=
  List.nth n (rev l) (mkDVector 0 0).

Definition is_bend_call (k : Call) : bool :=
  match k with BendCall _ _ => true | StraightCall _ _ => false end.

(** The invocations of the bend factory, in order. *)
Definition bend_calls (w : World) : list Call :=
  List.filter is_bend_call (calls w).

Section Route.
(** numpy and klayout primitives on floats. *)
Variable angle_of : DVector -> Q.   (* rad2deg(arctan2(v.y, v.x)) *)
Variable vlength : DVector -> Q.    (* DVector.length() *)
Variable dapply : DCplxTrans -> DVector -> DVector.  (* DCplxTrans * DVector *)
Variable cut_point : DEdge -> DEdge -> option DVector. (* DEdge.cut_point *)
(** The two generators, deterministic functions of their arguments. *)
Variable straight_factory : Q -> Q -> VKCell.
Variable bend_factory : Q -> Q -> VKCell.
(** Collaborators of the [Port] constructor. *)
Variable default_kcl : KCLayout.
Variable get_info : Z -> Z * Z.

Definition call_straight_factory (width length : Q) : M World VKCell :=
  fun w => (inr (straight_factory width length),
            mkWorld (c w) (calls w ++ [StraightCall width length])).

Definition call_bend_factory (width a : Q) : M World VKCell :=
  fun w => (inr (bend_factory width a),
            mkWorld (c w) (calls w ++ [BendCall width a])).

(** [_angle(v)] *)
Definition _angle (v : DVector) : Q := angle_of v.

(** [(e_a - s_a + 180) % 360 - 180] *)
Definition turn_angle (old_pt pt new_pt : DVector) : Q :=
  let s_a := _angle (dv_sub pt old_pt) in
  let e_a := _angle (dv_sub new_pt pt) in
  (Qpymod (e_a - s_a + 180) 360 - 180)%Q.

(** Lines 84-86: fetch the bend of the cache or create it. *)
Definition fetch_bend (width _a : Q) (bends : list (Q * VKCell))
  : M World (VKCell * list (Q * VKCell)) :=
  match bends_get _a bends with
  | Some bend => ret (bend, bends)
  | None =>
      bend <- call_bend_factory width (Qabs _a) ;;
      ret (bend, bends ++ [(_a, bend)])
  end.

(** Lines 88-106: the distance from the first port of the bend to the
    crossing point of the rays of its two ports. *)
Definition bend_radius (bend : VKCell) (bend_ports : string * string)
  : PyError + Q :=
  match port_by_name bend (fst bend_ports),
        port_by_name bend (snd bend_ports) with
  | inl e, _ => inl e
  | _, inl e => inl e
  | inr b1, inr b2 =>
    match get_dcplx_trans b1, get_dcplx_trans b2 with
    | Some dt1, Some dt2 =>
        let v := mkDVector 1 0 in
        let dp11 := ddisp dt1 in
        let dp21 := ddisp dt2 in
        let dp12 := dv_add dp11 (dapply dt1 v) in
        let dp22 := dv_add dp21 (dapply dt2 v) in
        match cut_point (mkDEdge dp11 dp12) (mkDEdge dp21 dp22) with
        | Some cp => inr (vlength (dv_sub cp dp11))
        | None => inl TypeError_NoneType
        end
    | _, _ => inl AttributeError_NoneType
    end
  end.

(** Lines 122-125 and 150-153: place a straight and move on to its
    second port. *)
Definition place_straight (width _l : Q) (straight_ports : string * string)
    (v : Vars) : M World Vars :=
  k <- call_straight_factory width _l ;;
  s <- create_inst k ;;
  connect s (fst straight_ports) (_port v) ;;;
  p <- instance_port s (snd straight_ports) ;;
  ret (mkVars (old_pt v) (pt v) (start_offset v) (effective_radius v)
              p (insts_ v ++ [s]) (bends v)).

(** Lines 128-135: place the bend, entered by its second port on a
    negative turn and by its first port otherwise. *)
Definition place_bend (bend : VKCell) (_a : Q)
    (bend_ports : string * string) (v : Vars) : M World Vars :=
  b <- create_inst bend ;;
  let entry := if Qltb _a 0 then snd bend_ports else fst bend_ports in
  let exit := if Qltb _a 0 then fst bend_ports else snd bend_ports in
  connect b entry (_port v) ;;;
  p <- instance_port b exit ;;
  ret (mkVars (old_pt v) (pt v) (start_offset v) (effective_radius v)
              p (insts_ v ++ [b]) (bends v)).

(** One iteration of [for new_pt in backbone[2:]] (lines 75-138). *)
Definition route_step (width : Q) (bend_ports straight_ports : string * string)
    (new_pt : DVector) (v : Vars) : M World Vars :=
  let _a := turn_angle (old_pt v) (pt v) new_pt in
  let dist := vlength (dv_sub (pt v) (old_pt v)) in
  (* if _a != 0: ... else: effective_radius = 0 *)
  r <- (if negb (Qeq_bool _a 0) then
          bb <- fetch_bend width _a (bends v) ;;
          radius <- lift (bend_radius (fst bb) bend_ports) ;;
          if Qltb (dist - radius - start_offset v) 0 then
            raise (NotEnoughSpace (old_pt v) (pt v)
                     (start_offset v + radius) dist)
          else ret (Some (fst bb), snd bb, radius)
        else ret (None, bends v, 0%Q)) ;;
  let '(bend, bends', radius) := r in
  let v1 := mkVars (old_pt v) (pt v) (start_offset v) radius
                   (_port v) (insts_ v) bends' in
  let _l := (dist - radius - start_offset v)%Q in
  v2 <- (if Qltb 0 _l then place_straight width _l straight_ports v1
         else ret v1) ;;
  v3 <- match bend with
        | Some b => place_bend b _a bend_ports v2
        | None => ret v2
        end ;;
  ret (mkVars (pt v) new_pt radius radius
              (_port v3) (insts_ v3) (bends v3)).

Fixpoint route_loop (width : Q) (bend_ports straight_ports : string * string)
    (pts : list DVector) (v : Vars) : M World Vars :=
  match pts with
  | [] => ret v
  | new_pt :: pts' =>
      v' <- route_step width bend_ports straight_ports new_pt v ;;
      route_loop width bend_ports straight_ports pts' v'
  end.

(** Lines 68-158: the placement, from the start port on. *)
Definition route_body (bb : list DVector) (width : Q)
    (bend_ports straight_ports : string * string)
    (start_port end_port : BasePort) : M World OpticalAllAngleRoute :=
  let v0 := mkVars (List.nth 0 bb (mkDVector 0 0))
                   (List.nth 1 bb (mkDVector 0 0))
                   0 0 (FreePort start_port) [] [] in
  v <- route_loop width bend_ports straight_ports (skipn 2 bb) v0 ;;
  let dist := vlength (dv_sub (pt v) (old_pt v)) in
  let _l := (dist - effective_radius v)%Q in
  if Qltb _l 0 then
    raise (NotEnoughSpace (old_pt v) (pt v) (effective_radius v) dist)
  else
    v' <- (if Qltb 0 _l then place_straight width _l straight_ports v
           else ret v) ;;
    ret (mkRoute bb start_port end_port (insts_ v')).

(** Lines 53-66: the keyword arguments of the two [Port(...)] calls. *)
Definition route_port_kwargs (width : Q) (layer : Z) (a : Q)
    (at_ : DVector) (k : KCLayout) : list (string * PyArg) :=
  [("name", PyStr "o1"); ("dwidth", PyFloat width); ("layer", PyInt layer);
   ("dcplx_trans", PyDCplxTrans (mkDCplxTrans 1 a false at_));
   ("kcl", PyKCLayout k)]%string.

(** [route(c, width, layer, backbone, straight_factory, bend_factory,
    bend_ports, straight_ports)] *)
Definition route (width : Q) (layer : Z) (bb : list DVector)
    (bend_ports straight_ports : string * string)
  : M World OpticalAllAngleRoute :=
  if (length bb <? 3)%nat then
    raise (ValueError
             "All angle routes with less than 3 points are not supported.")
  else
    let start_v := dv_sub (List.nth 1 bb (mkDVector 0 0))
                          (List.nth 0 bb (mkDVector 0 0)) in
    let end_v := dv_sub (from_end 0 bb) (from_end 1 bb) in
    let start_angle := angle_of start_v in
    let end_angle := Qpymod (angle_of end_v + 180) 360 in
    w <- get ;;
    start_port <- lift (Port_init default_kcl get_info
                          (route_port_kwargs width layer start_angle
                             (List.nth 0 bb (mkDVector 0 0))
                             (vk_kcl (c w)))) ;;
    end_port <- lift (Port_init default_kcl get_info
                        (route_port_kwargs width layer end_angle
                           (from_end 0 bb) (vk_kcl (c w)))) ;;
    route_body bb width bend_ports straight_ports start_port end_port.
End Route.
End Routing.

(** ** Python dictionaries in insertion order *)

Module Dict.
Section WithTypes.
Context {K V : Type} (eqb : K -> K -> bool).

Fixpoint get (k : K) (d : list (K * V)) : option V :=
  match d with
  | [] => None
  | (k', v) :: d' => if eqb k' k then Some v else get k d'
  end.

Definition mem (k : K) (d : list (K * V)) : bool :=
  match get k d with Some _ => true | None => false end.

(** [d[k] = v]: an existing key keeps its place, a new key goes last. *)
Fixpoint set (k : K) (v : V) (d : list (K * V)) : list (K * V) :=
  match d with
  | [] => [(k, v)]
  | (k', v') :: d' =>
      if eqb k' k then (k', v) :: d' else (k', v') :: set k v d'
  end.
End WithTypes.

(** [d[h][layer].append(x)], creating the inner dict and the list on
    first use. *)
Definition add2 {K1 K2 V} (eqb1 : K1 -> K1 -> bool) (eqb2 : K2 -> K2 -> bool)
    (h : K1) (layer : K2) (x : V)
    (d : list (K1 * list (K2 * list V))) : list (K1 * list (K2 * list V)) :=
  let inner := default [] (get eqb1 h d) in
  let l := default [] (get eqb2 layer inner) in
  set eqb1 h (set eqb2 layer (l ++ [x]) inner) d.

Definition mem2 {K1 K2 V} (eqb1 : K1 -> K1 -> bool) (eqb2 : K2 -> K2 -> bool)
    (h : K1) (layer : K2) (d : list (K1 * list (K2 * V))) : bool :=
  match get eqb1 h d with
  | Some inner => mem eqb2 layer inner
  | None => false
  end.

Definition get2 {K1 K2 V} (eqb1 : K1 -> K1 -> bool) (eqb2 : K2 -> K2 -> bool)
    (h : K1) (layer : K2) (d : list (K1 * list (K2 * V))) : option V :=
  get eqb1 h d ≫= get eqb2 layer.
End Dict.

(** Python's [x or alt] for an optional string: [None] and the empty string
    are both false. *)
Definition str_or (x : option string) (alt : string) : string :=
  match x with
  | Some s => if String.eqb s "" then alt else s
  | None => alt
  end.

(** [sep.join(l)] *)
Fixpoint join (sep : string) (l : list string) : string :=
  match l with
  | [] => ""
  | [x] => x
  | x :: l' => x +:+ sep +:+ join sep l'
  end.

(** ** Port compatibility ([port.py]) *)

Module PortChecks.
Import Kdb PortModel.

(** [class PortCheck(IntFlag)] *)
Definition opposite : Z := 1.
Definition width_ : Z := 2.
Definition layer_ : Z := 4.
Definition port_type_ : Z := 8.
Definition all_opposite : Z := opposite + width_ + port_type_ + layer_.
Definition all_overlap : Z := width_ + port_type_ + layer_.

Definition flag (checks f : Z) : bool := negb (Z.land checks f =? 0).

Section PortCheck.
(** [kcl.find_layer(layer_info, allow_undefined_layers=True)] *)
Variable find_layer : Z * Z -> Z.

(** The [layer] property of a port. *)
Definition layer (p : BasePort) : Z :=
  find_layer (main_layer (cross_section p)).

Definition assert_ (b : bool) (msg : string) : PyError + unit :=
  if b then inr tt else inl (AssertionError msg).

Definition trans_is (t : option Trans) (u : option Trans) : bool :=
  match t, u with
  | Some a, Some b => Trans_eqb a b
  | _, _ => false
  end.

(** [port_check(p1, p2, checks)] *)
Definition port_check (p1 p2 : BasePort) (checks : Z) : PyError + unit :=
  let t1 := get_trans p1 in
  let t2 := get_trans p2 in
  match t1, t2 with
  | Some _, Some b =>
    match
      (if flag checks opposite then
         assert_ (trans_is t1 (Some (tmul b R180))
                  || trans_is t1 (Some (tmul b M90)))
           "Transformations of ports not matching for opposite check"
       else
         assert_ (trans_is t1 t2 || trans_is t1 (Some (tmul b M0)))
           "Transformations of ports not matching for overlapping check")
    with
    | inl e => inl e
    | inr _ =>
      match (if flag checks width_ then
               assert_ (width (cross_section p1)
                        =? width (cross_section p2)) "Width mismatch"
             else inr tt) with
      | inl e => inl e
      | inr _ =>
        match (if flag checks layer_ then
                 assert_ (layer p1 =? layer p2) "Layer mismatch"
               else inr tt) with
        | inl e => inl e
        | inr _ =>
            if flag checks port_type_ then
              assert_ (String.eqb (port_type p1) (port_type p2))
                "Port type mismatch"
            else inr tt
        end
      end
    end
  | _, _ => inl AttributeError_NoneType
  end.

(** The four conditions of [PortCheck.all_opposite], as one test:
    what [port_check] with [PortCheck.all_opposite] asks of two ports
    that both have a transformation. *)
Definition opposite_compatible (p1 p2 : BasePort) : bool :=
  match get_trans p1, get_trans p2 with
  | Some t1, Some t2 =>
      (Trans_eqb t1 (tmul t2 R180) || Trans_eqb t1 (tmul t2 M90))
      && (width (cross_section p1) =? width (cross_section p2))
      && (layer p1 =? layer p2)
      && String.eqb (port_type p1) (port_type p2)
  | _, _ => false
  end.
End PortCheck.
End PortChecks.

(** ** Netlist extraction ([ProtoTKCell.circuit] of [kcell.py]) *)

Module Netlist.
Import Kdb PortModel PortChecks PyM.

(** An instance of the cell, with its resolved ports ([inst.ports]). *)
Record Instance := mkInstance {
  inst_name : option string;
  inst_cell_name : string;
  inst_cell_index : Z;
  ports_of : list BasePort }.

(** The cell whose circuit is extracted. *)
Record KCell := mkKCell {
  kc_name : string;
  kc_cell_index : Z;
  kc_ports : list BasePort;
  kc_insts : list Instance }.

(** [kdb.Circuit], as the extraction fills it: nets by creation order
    (a net is named by its index), boundary pins with the net they are
    connected to, sub-circuits, and the connections of sub-circuit pins
    to nets. *)
Record Circuit := mkCircuit {
  circ_name : string;
  cell_index : Z;
  nets : list string;
  pins : list (string * nat);
  subcircuits : list (Z * string);
  connections : list (nat * string * nat) }.

(** The circuit with one more net. *)
Definition with_net (k : Circuit) (name : string) : Circuit :=
  mkCircuit (circ_name k) (cell_index k) (nets k ++ [name]) (pins k)
            (subcircuits k) (connections k).

(** The circuit with more connections of sub-circuit pins. *)
Definition with_connections (k : Circuit) (l : list (nat * string * nat))
  : Circuit :=
  mkCircuit (circ_name k) (cell_index k) (nets k) (pins k)
            (subcircuits k) (connections k ++ l).

(** An entry [(i, j, inst, port, subc)] of [inst_ports]. *)
Record InstPort := mkInstPort {
  ip_i : nat; ip_j : nat; ip_inst : Instance;
  ip_port : BasePort; ip_subc : nat }.

Definition create_net (name : string) : M Circuit nat :=
  fun k => (inr (length (nets k)),
            mkCircuit (circ_name k) (cell_index k) (nets k ++ [name])
                      (pins k) (subcircuits k) (connections k)).

(** [pin = circ.create_pin(name); circ.connect_pin(pin, net)] *)
Definition create_connected_pin (name : string) (net : nat)
  : M Circuit unit :=
  fun k => (inr tt,
            mkCircuit (circ_name k) (cell_index k) (nets k)
                      (pins k ++ [(name, net)]) (subcircuits k)
                      (connections k)).

Definition create_subcircuit (ref : Z) (name : string) : M Circuit nat :=
  fun k => (inr (length (subcircuits k)),
            mkCircuit (circ_name k) (cell_index k) (nets k) (pins k)
                      (subcircuits k ++ [(ref, name)]) (connections k)).

(** [subc.connect_pin(subc.circuit_ref().pin_by_name(pin), net)] *)
Definition subc_connect_pin (subc : nat) (pin : string) (net : nat)
  : M Circuit unit :=
  fun k => (inr tt,
            mkCircuit (circ_name k) (cell_index k) (nets k) (pins k)
                      (subcircuits k) (connections k ++ [(subc, pin, net)])).

(** [circ.net_by_name(name)] *)
Fixpoint index_of (name : string) (l : list string) (i : nat) : option nat :=
  match l with
  | [] => None
  | x :: l' => if String.eqb x name then Some i else index_of name l' (S i)
  end.

Definition net_by_name (name : string) : M Circuit nat :=
  fun k => match index_of name (nets k) 0 with
           | Some n => (inr n, k)
           | None => (inl AttributeError_NoneType, k)
           end.

Fixpoint enumerate_from {A} (i : nat) (l : list A) : list (nat * A) :=
  match l with
  | [] => []
  | x :: l' => (i, x) :: enumerate_from (S i) l'
  end.

Fixpoint for_each {W A} (l : list A) (f : A -> M W unit) : M W unit :=
  match l with
  | [] => ret tt
  | x :: l' => f x ;;; for_each l' f
  end.

(** The name of the net of a bucket of instance ports (lines
    1666-1671). *)
Definition instance_net_name (ports : list InstPort) : string :=
  join "-" (map (fun p =>
                   str_or (inst_name (ip_inst p)) (pretty (ip_i p))
                   +:+ "_" +:+ str_or (name (ip_port p))
                                      (pretty (ip_j p))) ports).

(** The pin of its sub-circuit an instance port stands for. *)
Definition pin_name (p : InstPort) : string :=
  str_or (name (ip_port p)) (pretty (ip_j p)).

Section Circuit.
Variable find_layer : Z * Z -> Z.
Variable get_info : Z -> Z * Z.
Variable port_types : list string.

Definition port_filter (num_port : nat * BasePort) : bool :=
  existsb (String.eqb (port_type (snd num_port))) port_types.

(** The bucket keys of a port: [h = f"{v.x}_{v.y}"] for the displacement
    of its simple transformation and [layer = f"{layer}_{datatype}"]. *)
Definition bucket_keys (p : BasePort) : PyError + (string * string) :=
  match get_trans p with
  | None => inl AttributeError_NoneType
  | Some t =>
      let _trans := mkTrans (angle t mod 2) false (disp t) in
      let v := disp _trans in
      let layer_info := get_info (layer find_layer p) in
      inr (pretty (vx v) +:+ "_" +:+ pretty (vy v),
           pretty (fst layer_info) +:+ "_" +:+ pretty (snd layer_info))
  end.

(** Lines 1573-1597: the boundary ports by position and layer. *)
Fixpoint sort_cell_ports (l : list (nat * BasePort))
    (portnames : list string)
    (cell_ports : list (string * list (string * list (nat * BasePort))))
  : PyError + list (string * list (string * list (nat * BasePort))) :=
  match l with
  | [] => inr cell_ports
  | (i, port) :: l' =>
    match bucket_keys port with
    | inl e => inl e
    | inr (h, layer) =>
      if match name port with
         | Some n => existsb (String.eqb n) portnames
         | None => false
         end
      then inl (ValueError
             "Netlist extraction is not possible with colliding port names.")
      else
        sort_cell_ports l'
          (match name port with
           | Some n => if String.eqb n "" then portnames
                       else portnames ++ [n]
           | None => portnames
           end)
          (Dict.add2 String.eqb String.eqb h layer (i, port) cell_ports)
    end
  end.

(** Lines 1600-1607: a net for every boundary bucket, a pin for every
    port of it. *)
Definition create_cell_nets
    (cell_ports : list (string * list (string * list (nat * BasePort))))
  : M Circuit unit :=
  for_each cell_ports (fun hd =>
    for_each (snd hd) (fun ld =>
      net <- create_net
               (join "-" (map (fun ip => str_or (name (snd ip))
                                           (pretty (fst ip))) (snd ld))) ;;
      for_each (snd ld) (fun ip =>
        create_connected_pin (str_or (name (snd ip)) (pretty (fst ip)))
                             net))).

(** Lines 1617-1634: the ports of one instance by position and layer. *)
Fixpoint sort_inst_ports (i : nat) (inst : Instance) (subc : nat)
    (l : list (nat * BasePort))
    (inst_ports : list (string * list (string * list InstPort)))
  : PyError + list (string * list (string * list InstPort)) :=
  match l with
  | [] => inr inst_ports
  | (j, port) :: l' =>
    match bucket_keys port with
    | inl e => inl e
    | inr (h, layer) =>
        sort_inst_ports i inst subc l'
          (Dict.add2 String.eqb String.eqb h layer
             (mkInstPort i j inst port subc) inst_ports)
    end
  end.

(** Lines 1610-1634. *)
Fixpoint sort_insts (l : list (nat * Instance))
    (inst_ports : list (string * list (string * list InstPort)))
  : M Circuit (list (string * list (string * list InstPort))) :=
  match l with
  | [] => ret inst_ports
  | (i, inst) :: l' =>
      subc <- create_subcircuit (inst_cell_index inst)
                (str_or (inst_name inst)
                   (pretty i +:+ "_" +:+ inst_cell_name inst)) ;;
      d <- lift (sort_inst_ports i inst subc
                   (List.filter port_filter
                      (enumerate_from 0 (ports_of inst)))
                   inst_ports) ;;
      sort_insts l' d
  end.

(** Lines 1641-1663: the bucket meets a boundary bucket. *)
Definition connect_to_cell_port (cellports : list (nat * BasePort))
    (ports : list InstPort) : M Circuit unit :=
  match cellports, ports with
  | [cp], [inst_port] =>
      let port := ip_port inst_port in
      lift (port_check find_layer (snd cp) port all_overlap) ;;;
      net <- net_by_name (str_or (name (snd cp)) (pretty (fst cp))) ;;
      subc_connect_pin (ip_subc inst_port)
        (str_or (name port) (pretty (ip_j inst_port))) net
  | [_], _ =>
      raise (AssertionError
               "Multiple instance ports connected to the cell port")
  | _, _ =>
      raise (AssertionError
               "Netlists with directly connect cell ports are currently not supported")
  end.

(** Lines 1665-1683: the bucket meets no boundary bucket. *)
Definition connect_instance_ports (ports : list InstPort)
  : M Circuit unit :=
  net <- create_net (instance_net_name ports) ;;
  if negb (length ports <=? 2)%nat then
    raise (AssertionError
             "Optical connection with more than two ports are not supported")
  else
    match ports with
    | [a; b] =>
        lift (port_check find_layer (ip_port a) (ip_port b)
                all_opposite) ;;;
        for_each ports (fun p =>
          subc_connect_pin (ip_subc p) (pin_name p) net)
    | _ => ret tt
    end.

(** The body of the loop of lines 1638-1683 for one bucket. *)
Definition connect_bucket
    (cell_ports : list (string * list (string * list (nat * BasePort))))
    (h layer : string) (ports : list InstPort) : M Circuit unit :=
  match Dict.get2 String.eqb String.eqb h layer cell_ports with
  | Some cellports => connect_to_cell_port cellports ports
  | None => connect_instance_ports ports
  end.

Definition connect_buckets
    (cell_ports : list (string * list (string * list (nat * BasePort))))
    (inst_ports : list (string * list (string * list InstPort)))
  : M Circuit unit :=
  for_each inst_ports (fun hd =>
    for_each (snd hd) (fun ld =>
      connect_bucket cell_ports (fst hd) (fst ld) (snd ld))).

(** [circuit(self, l2n, port_types)], up to [netlist.add(circ)]: the
    circuit built for the cell, started from the empty circuit. *)
Definition circuit (self : KCell) : (PyError + unit) * Circuit :=
  (cell_ports <- lift (sort_cell_ports
                         (List.filter port_filter
                            (enumerate_from 0 (kc_ports self))) [] []) ;;
   create_cell_nets cell_ports ;;;
   inst_ports <- sort_insts (enumerate_from 0 (kc_insts self)) [] ;;
   connect_buckets cell_ports inst_ports)
    (mkCircuit (kc_name self) (kc_cell_index self) [] [] [] []).
End Circuit.
End Netlist.

(** ** Connectivity diagnostics ([ProtoTKCell.connectivity_check]) *)

Module Checker.
Import Kdb PortModel PyM.

(** A value of a report item: a text, or the marker polygon of a port of
    the given width under a transformation. *)
Inductive RdbValue :=
| Text (s : string)
| Polygon (width : Z) (t : Trans)
| DPolygon (width : Z) (t : DCplxTrans).

Record RdbItem := mkItem {
  item_cell : string; category : string; values : list RdbValue }.

(** [rdb.ReportDatabase]: the category paths and the items. *)
Record ReportDatabase := mkDb {
  categories : list string; items : list RdbItem }.

(** [db.category_by_path(path) or db.create_category(parent, name)] *)
Definition get_category (path : string) : M ReportDatabase string :=
  fun db =>
    if existsb (String.eqb path) (categories db) then (inr path, db)
    else (inr path, mkDb (categories db ++ [path]) (items db)).

(** The categories after [get_category]. *)
Definition with_category (db : ReportDatabase) (path : string)
  : list string :=
  if existsb (String.eqb path) (categories db) then categories db
  else categories db ++ [path].

(** [db.create_item(db_cell, cat)]: the result is the index of the item. *)
Definition create_item (db_cell cat : string) : M ReportDatabase nat :=
  fun db => (inr (length (items db)),
             mkDb (categories db) (items db ++ [mkItem db_cell cat []])).

(** [it.add_value(v)] *)
Definition add_value (it : nat) (v : RdbValue) : M ReportDatabase unit :=
  fun db =>
    (inr tt,
     mkDb (categories db)
          (alter (fun i => mkItem (item_cell i) (category i)
                                  (values i ++ [v])) it (items db))).

Definition Zpair_eqb (a b : Z * Z) : bool :=
  (fst a =? fst b) && (snd a =? snd b).

(** [text[:-1]] *)
Fixpoint drop_last (s : string) : string :=
  match s with
  | EmptyString => EmptyString
  | String _ EmptyString => EmptyString
  | String a s' => String a (drop_last s')
  end.

Fixpoint for_each {W A} (l : list A) (f : A -> M W unit) : M W unit :=
  match l with
  | [] => ret tt
  | x :: l' => f x ;;; for_each l' f
  end.

Section ConnectivityCheck.
(** [check_cell_ports] and [check_inst_ports] of [utilities.py]: a set
    of flags, 1 for width, 2 for angle, 4 for type. *)
Variable check_cell_ports : BasePort -> BasePort -> Z.
Variable check_inst_ports : BasePort -> BasePort -> Z.
(** Name of the category of a layer, [str(port)], [Trans.to_s()]. *)
Variable layer_name : Z -> string.
Variable port_str : BasePort -> string.
Variable trans_to_s : Trans -> string.
(** The name of the checked cell and of its report cell. *)
Variable self_name : string.
Variable db_cell : string.

(** The marker polygon [port_polygon(p.width).transformed(p.trans)]. *)
Definition port_marker (p : BasePort) : PyError + RdbValue :=
  match get_trans p with
  | Some t => inr (Polygon (width (cross_section p)) t)
  | None => inl AttributeError_NoneType
  end.

(** [create_port_error(p1, p2, c1, c2, db, db_cell, cat, dbu)] of
    [port.py]. *)
Definition create_port_error (p1 p2 : BasePort) (c1 c2 : string)
    (cat : string) : M ReportDatabase unit :=
  it <- create_item db_cell cat ;;
  (if negb (String.eqb (str_or (name p1) "") "")
      && negb (String.eqb (str_or (name p2) "") "")
   then add_value it
          (Text ("Port Names: " +:+ c1 +:+ "." +:+ str_or (name p1) ""
                 +:+ "/" +:+ c2 +:+ "." +:+ str_or (name p2) ""))
   else ret tt) ;;;
  m1 <- lift (port_marker p1) ;;
  add_value it m1 ;;;
  m2 <- lift (port_marker p2) ;;
  add_value it m2.

(** The three mismatch reports of a pair, by the flags of the check. *)
Definition report_mismatches (flags : Z) (lc : string)
    (p1 p2 : BasePort) (c1 c2 : string) : M ReportDatabase unit :=
  (if negb (Z.land flags 1 =? 0) then
     subc <- get_category (lc +:+ ".WidthMismatch") ;;
     create_port_error p1 p2 c1 c2 subc
   else ret tt) ;;;
  (if negb (Z.land flags 2 =? 0) then
     subc <- get_category (lc +:+ ".AngleMismatch") ;;
     create_port_error p1 p2 c1 c2 subc
   else ret tt) ;;;
  (if negb (Z.land flags 4 =? 0) then
     subc <- get_category (lc +:+ ".TypeMismatch") ;;
     create_port_error p1 p2 c1 c2 subc
   else ret tt).

(** [f"{cell.name}.{port.name or port.trans.to_s()}/"] *)
Definition port_label (cell_name : string) (p : BasePort)
  : PyError + string :=
  match name p with
  | Some n =>
      if String.eqb n "" then
        match get_trans p with
        | Some t => inr (cell_name +:+ "." +:+ trans_to_s t +:+ "/")
        | None => inl AttributeError_NoneType
        end
      else inr (cell_name +:+ "." +:+ n +:+ "/")
  | None =>
      match get_trans p with
      | Some t => inr (cell_name +:+ "." +:+ trans_to_s t +:+ "/")
      | None => inl AttributeError_NoneType
      end
  end.

(** The loop [for _port in ports] of the overlap reports: the text grows
    by one label and the values by one marker for every port. *)
Fixpoint overlap_entries (ports : list (BasePort * string))
    (text : string) (vals : list RdbValue)
  : PyError + (string * list RdbValue) :=
  match ports with
  | [] => inr (text, vals)
  | (p, k) :: ports' =>
    match port_label k p with
    | inl e => inl e
    | inr l =>
      match port_marker p with
      | inl e => inl e
      | inr m => overlap_entries ports' (text +:+ l) (vals ++ [m])
      end
    end
  end.

(** Lines 1894-1916: one port and no boundary port at its place. [port]
    is the variable the loop over the instance ports has left behind. *)
Definition report_orphan (lc : string) (port : BasePort)
    (p0 : BasePort) (c0 : string) : M ReportDatabase unit :=
  subc <- get_category (lc +:+ ".OrphanPort") ;;
  it <- create_item db_cell subc ;;
  add_value it
    (Text ("Port Name: " +:+ c0 +:+ str_or (name p0) (port_str p0)
           +:+ ")")) ;;;
  match trans p0 with
  | Some t => add_value it (Polygon (width (cross_section p0)) t)
  | None =>
      match get_dcplx_trans port with
      | Some d => add_value it (DPolygon (width (cross_section port)) d)
      | None => raise AttributeError_NoneType
      end
  end.

(** Lines 1963-2010 and 2012-2036: the overlap report, with the
    boundary port first when there is one. *)
Definition report_overlap (lc : string) (cell_port : option BasePort)
    (ports : list (BasePort * string)) : M ReportDatabase unit :=
  subc <- get_category (lc +:+ ".portoverlap") ;;
  it <- create_item db_cell subc ;;
  start <- lift
    (match cell_port with
     | None => inr ("Port Names: "%string, [])
     | Some cp =>
       match port_label self_name cp with
       | inl e => inl e
       | inr l =>
         match trans cp with
         | Some t =>
             inr ("Port Names: " +:+ l,
                  [Polygon (width (cross_section cp)) t])
         | None =>
           match get_dcplx_trans cp with
           | Some d =>
               inr ("Port Names: " +:+ l,
                    [DPolygon (width (cross_section cp)) d])
           | None => inl AttributeError_NoneType
           end
         end
       end
     end) ;;
  tv <- lift (overlap_entries ports (fst start) (snd start)) ;;
  add_value it (Text (drop_last (fst tv))) ;;;
  for_each (snd tv) (add_value it).

(** The [match len(ports)] of lines 1845-2038 for one bucket. *)
Definition check_bucket
    (cell_ports : list (Z * list (Z * Z * list BasePort)))
    (port : BasePort) (layer : Z) (lc : string) (coord : Z * Z)
    (ports : list (BasePort * string)) : M ReportDatabase unit :=
  let at_cell := Dict.get2 Z.eqb Zpair_eqb layer coord cell_ports in
  match ports with
  | [] => raise (ValueError "Unexpected number of ports: 0")
  | [(p0, c0)] =>
      match at_cell with
      | Some cps =>
          match cps with
          | cp :: _ =>
              report_mismatches (check_cell_ports cp p0) lc
                                p0 cp c0 self_name
          | [] => raise (KeyError "0")
          end
      | None => report_orphan lc port p0 c0
      end
  | [(p0, c0); (p1, c1)] =>
      report_mismatches (check_inst_ports p0 p1) lc p0 p1 c0 c1 ;;;
      match at_cell with
      | Some cps =>
          match cps with
          | cp :: _ => report_overlap lc (Some cp) ports
          | [] => raise (KeyError "0")
          end
      | None => ret tt
      end
  | _ => report_overlap lc None ports
  end.

(** [layer_cat(layer)] *)
Definition layer_cat (layer : Z) : M ReportDatabase string :=
  get_category (layer_name layer).

(** Lines 1842-2038, without the layer-overlap pass on klayout regions
    that [check_layer_connectivity] adds after the buckets of a layer. *)
Definition check_buckets
    (cell_ports : list (Z * list (Z * Z * list BasePort)))
    (port : BasePort)
    (inst_ports : list (Z * list (Z * Z * list (BasePort * string))))
  : M ReportDatabase unit :=
  for_each inst_ports (fun lm =>
    lc <- layer_cat (fst lm) ;;
    for_each (snd lm) (fun cp =>
      check_bucket cell_ports port (fst lm) lc (fst cp) (snd cp))).
End ConnectivityCheck.
End Checker.

(** ** Exact instances of the float primitives on axis-parallel data

    On vectors parallel to an axis and on angles that are multiples of 90
    degrees the float primitives are exact, and the functions below give
    their values.  They are the instances at which the general statements
    are tried; off that fragment they are not meant to be used. *)

Module Ortho.
Import Kdb PortModel Routing.

(** [rad2deg(arctan2(y, x))] for a vector on an axis (0 for the null
    vector, as numpy has it) or on a diagonal. *)
Definition angle_of (v : DVector) : Q :=
  let x := dvx v in
  let y := dvy v in
  if Qeq_bool y 0 then (if Qltb x 0 then 180 else 0)
  else if Qeq_bool x 0 then (if Qltb y 0 then -90 else 90)
  else if Qltb 0 x then (if Qltb 0 y then 45 else -45)
  else (if Qltb 0 y then 135 else -135).

(** [v.length()] for a vector on an axis. *)
Definition vlength (v : DVector) : Q := (Qabs (dvx v) + Qabs (dvy v))%Q.

(** [t * v] for a vector [v] and a transformation whose angle is a
    multiple of 90 degrees. *)
Definition dapply (t : DCplxTrans) (v : DVector) : DVector :=
  let y := if dmirror t then (- dvy v)%Q else dvy v in
  let x := dvx v in
  let m := mag t in
  match Qfloor (Qpymod (dangle t) 360 / 90) with
  | 0 => mkDVector (m * x)%Q (m * y)%Q
  | 1 => mkDVector (m * - y)%Q (m * x)%Q
  | 2 => mkDVector (m * - x)%Q (m * - y)%Q
  | _ => mkDVector (m * y)%Q (m * - x)%Q
  end.

(** [e1.cut_point(e2)]: the crossing point of the lines through two
    edges, none for parallel lines. *)
Definition cut_point (e1 e2 : DEdge) : option DVector :=
  let d1 := dv_sub (p2 e1) (p1 e1) in
  let d2 := dv_sub (p2 e2) (p1 e2) in
  let r := dv_sub (p1 e2) (p1 e1) in
  let den := (dvx d1 * dvy d2 - dvy d1 * dvx d2)%Q in
  if Qeq_bool den 0 then None
  else
    let t := ((dvx r * dvy d2 - dvy r * dvx d2) / den)%Q in
    Some (mkDVector (Qred (dvx (p1 e1) + t * dvx d1))
                    (Qred (dvy (p1 e1) + t * dvy d1))).

(** [a * b] for transformations whose angles are multiples of 90
    degrees. *)
Definition dmul (a b : DCplxTrans) : DCplxTrans :=
  mkDCplxTrans
    (mag a * mag b)
    (Qpymod (if dmirror a then dangle a - dangle b
             else dangle a + dangle b) 360)
    (xorb (dmirror a) (dmirror b))
    (dv_add (ddisp a) (dapply a (ddisp b))).

Definition kcl0 : KCLayout := mkKCLayout "DEFAULT" (1 # 1000).
Definition get_info0 (l : Z) : Z * Z := (l, 0).
Definition find_layer0 (li : Z * Z) : Z := fst li.

Definition port_at (n : string) (w : Z) (a : Q) (x y : Q) : BasePort :=
  mkBasePort (Some n) kcl0 (mkCrossSection w (1, 0)) None
             (Some (mkDCplxTrans 1 a false (mkDVector x y))) [] "optical".

(** A straight of the given length along the x axis. *)
Definition straight_factory (width length : Q) : VKCell :=
  mkVKCell "straight" kcl0 false
           [port_at "o1" 1000 180 0 0; port_at "o2" 1000 0 length 0] [].

(** A quarter-circle bend of radius 5, whatever the angle asked for; its
    ports sit at (0,0) facing west and at (5,5) facing north, so their
    rays cross at (5,0), at distance 5 from the first port. *)
Definition bend_factory (width a : Q) : VKCell :=
  mkVKCell "bend" kcl0 false
           [port_at "o1" 1000 180 0 0; port_at "o2" 1000 90 5 5] [].

(** An empty, unlocked target cell and no factory call yet. *)
Definition world0 : World :=
  mkWorld (mkVKCell "route" kcl0 false [] []) [].

Definition pt (x y : Z) : DVector := mkDVector (inject_Z x) (inject_Z y).

Definition o1o2 : string * string := ("o1", "o2")%string.

(** [route_body] and [route] at these instances. *)
Definition run_body (bb : list DVector) :=
  route_body angle_of vlength dapply cut_point straight_factory bend_factory
    bb 1 o1o2 o1o2 (port_at "o1" 1000 0 0 0) (port_at "o1" 1000 0 0 0)
    world0.

Definition run_route (bb : list DVector) :=
  route angle_of vlength dapply cut_point straight_factory bend_factory
    kcl0 get_info0 1 1 bb o1o2 o1o2 world0.



(** The cells of the instances a route lists, in order. *)
Definition placed (r : (PyError + OpticalAllAngleRoute) * World)
  : list (option VKCell) :=
  match fst r with
  | inr rt => map (fun i => cell <$> insts (c (snd r)) !! i) (instances rt)
  | inl _ => []
  end.
End Ortho.

(** ** Sample data *)

Module Samples.
Import Kdb PortModel Netlist.

(** A port of the integer view lying at (1000, 0) dbu, facing north. *)
Definition simple_port : BasePort :=
  mkBasePort (Some "o1") (mkKCLayout "DEFAULT" (1 # 1000))
             (mkCrossSection 500 (1, 0))
             (Some (mkTrans 1 false (mkVector 1000 0))) None [] "optical".

(** A complex value: 45 degrees at (0.5, 0) um. *)
Definition cplx45 : DCplxTrans :=
  mkDCplxTrans 1 45 false (mkDVector (1 # 2) 0).

(** A value that is not complex and lies on the grid: 180 degrees at
    (2, 0) um. *)
Definition ortho180 : DCplxTrans :=
  mkDCplxTrans 1 180 false (mkDVector 2 0).

Definition store1 : gmap positive BasePort := {[ 1%positive := simple_port ]}.

(** Two bases with the same content. *)
Definition store2 : gmap positive BasePort :=
  {[ 1%positive := simple_port; 2%positive := simple_port ]}.

Definition port_named (n : string) (a x y : Z) : BasePort :=
  mkBasePort (Some n) Ortho.kcl0 (mkCrossSection 500 (1, 0))
             (Some (mkTrans a false (mkVector x y))) None [] "optical".

(** A cell with one boundary port and two straights in a row: the first
    starts on the boundary port, the two meet at (1000, 0), and the far
    end of the second, at (9000, 0), meets nothing. *)
Definition s1 : Instance :=
  mkInstance (Some "s1") "straight" 1
             [port_named "o1" 2 0 0; port_named "o2" 0 1000 0].
Definition s2 : Instance :=
  mkInstance None "straight" 1
             [port_named "o1" 2 1000 0; port_named "o2" 0 9000 0].
Definition two_straights : KCell :=
  mkKCell "top" 0 [port_named "o1" 2 0 0] [s1; s2].

(** The two instance ports that meet at (1000, 0), and the one at
    (9000, 0). *)
Definition ip_a : InstPort := mkInstPort 0 1 s1 (port_named "o2" 0 1000 0) 0.
Definition ip_b : InstPort := mkInstPort 1 0 s2 (port_named "o1" 2 1000 0) 1.
Definition ip_c : InstPort := mkInstPort 1 1 s2 (port_named "o2" 0 9000 0) 1.

Definition circuit0 : Circuit := mkCircuit "top" 0 [] [] [] [].

(** Three instance ports at (1000, 0) on layer 1. *)
Definition crowd : list (BasePort * string) :=
  [(port_named "o2" 0 1000 0, "A"); (port_named "o1" 2 1000 0, "B");
   (port_named "o1" 2 1000 0, "C")]%string.

Definition db0 : Checker.ReportDatabase := Checker.mkDb [] [].
End Samples.

(** ** Coordinates of a port ([Port.x], [Port.y] of [port.py]) *)

Module PortOps.
Import Kdb PortModel.

(** The [x] and [y] getters of [Port]: [self.trans.disp.x]. *)
Definition get_x (b : BasePort) : option Z := (fun t => vx (disp t)) <$> get_trans b.
Definition get_y (b : BasePort) : option Z := (fun t => vy (disp t)) <$> get_trans b.

(** The [x] setter of [Port].  On a stored simple transformation it writes
    the coordinate; on a stored complex one it takes the displacement of
    the narrowed transformation, writes the coordinate and stores the whole
    vector back in micrometres; with nothing stored it does nothing. *)
Definition set_x (b : BasePort) (value : Z) : BasePort :=
  match trans b with
  | Some t =>
      with_trans b
        (Some (mkTrans (angle t) (mirror t) (mkVector value (vy (disp t)))))
  | None =>
    match dcplx_trans b with
    | Some d =>
        let vec := disp (s_trans (dbu (kcl b)) d) in
        with_dcplx_trans b
          (Some (mkDCplxTrans (mag d) (dangle d) (dmirror d)
                   (v_to_dtype (dbu (kcl b)) (mkVector value (vy vec)))))
    | None => b
    end
  end.

(** The [y] setter of [Port]. *)
Definition set_y (b : BasePort) (value : Z) : BasePort :=
  match trans b with
  | Some t =>
      with_trans b
        (Some (mkTrans (angle t) (mirror t) (mkVector (vx (disp t)) value)))
  | None =>
    match dcplx_trans b with
    | Some d =>
        let vec := disp (s_trans (dbu (kcl b)) d) in
        with_dcplx_trans b
          (Some (mkDCplxTrans (mag d) (dangle d) (dmirror d)
                   (v_to_dtype (dbu (kcl b)) (mkVector (vx vec) value))))
    | None => b
    end
  end.

(** The [dx] getter and setter of [ProtoPort] (lines 402-414): the setter
    takes the displacement in micrometres, writes the coordinate and stores
    it in the representation the port has, rounded to the grid for a simple
    one. *)
Definition get_dx (b : BasePort) : option Q :=
  (fun t => dvx (ddisp t)) <$> get_dcplx_trans b.

Definition set_dx (b : BasePort) (value : Q) : option BasePort :=
  match get_dcplx_trans b with
  | None => None
  | Some g =>
    let vec := mkDVector value (dvy (ddisp g)) in
    match trans b with
    | Some t =>
        Some (with_trans b
                (Some (mkTrans (angle t) (mirror t)
                         (dv_to_itype (dbu (kcl b)) vec))))
    | None =>
      match dcplx_trans b with
      | Some d =>
          Some (with_dcplx_trans b
                  (Some (mkDCplxTrans (mag d) (dangle d) (dmirror d) vec)))
      | None => Some b
      end
    end
  end.
End PortOps.

(** ** More sample data *)

Module Samples2.
Import Kdb PortModel PortCtor.

(** A port that stores only a complex transformation: 90 degrees at
    (5, 5) um on the layout with 1 nm database unit. *)
Definition complex_port : BasePort := Ortho.port_at "o1" 1000 90 5 5.

(** Keyword arguments that give both a simple and a complex
    transformation. *)
Definition both_kwargs : list (string * PyArg) :=
  [("name", PyStr "o1"); ("width", PyInt 500); ("layer", PyInt 1);
   ("trans", PyTrans R180); ("dcplx_trans", PyDCplxTrans Samples.cplx45)]%string.

(** Keyword arguments without any transformation. *)
Definition bare_kwargs : list (string * PyArg) :=
  [("name", PyStr "o1"); ("width", PyInt 500); ("layer", PyInt 1)]%string.
End Samples2.

(** ** The instance ports of the connectivity check, by layer and place
    (lines 1823-1840 of [kcell.py]) *)

Module CheckerBuild.
Import Kdb PortModel PortChecks PyM Checker.

Section Build.
Variable find_layer : Z * Z -> Z.
Variable port_types : list string.
Variable layers : list Z.

(** [(not port_types or port.port_type in port_types)
     and (not layers or port.layer in layers)] *)
Definition selected (port : BasePort) : bool :=
  (match port_types with
   | [] => true
   | _ => existsb (String.eqb (port_type port)) port_types
   end)
  && (match layers with
      | [] => true
      | _ => existsb (Z.eqb (layer find_layer port)) layers
      end).

(** Lines 1831-1840: the entry goes to [inst_ports[layer][xy]], the dict of
    the layer and the list of the place being created on first use. *)
Definition add_entry (layer_ : Z) (xy : Z * Z) (x : BasePort * string)
    (inst_ports : list (Z * list (Z * Z * list (BasePort * string))))
  : list (Z * list (Z * Z * list (BasePort * string))) :=
  match Dict.get Z.eqb layer_ inst_ports with
  | None => Dict.set Z.eqb layer_ [(xy, [x])] inst_ports
  | Some at_layer =>
    match Dict.get Zpair_eqb xy at_layer with
    | None =>
        Dict.set Z.eqb layer_ (Dict.set Zpair_eqb xy [x] at_layer) inst_ports
    | Some l =>
        Dict.set Z.eqb layer_ (Dict.set Zpair_eqb xy (l ++ [x]) at_layer)
                 inst_ports
    end
  end.

(** The loop over the ports of one instance.  The state is the dict and the
    loop variable [port], which stays bound to the port seen last, selected
    or not. *)
Fixpoint sort_ports (cell_name : string) (l : list BasePort)
    (st : list (Z * list (Z * Z * list (BasePort * string))) * option BasePort)
  : PyError
    + (list (Z * list (Z * Z * list (BasePort * string))) * option BasePort) :=
  match l with
  | [] => inr st
  | port :: l' =>
      if selected port then
        match get_trans port with
        | None => inl AttributeError_NoneType
        | Some t =>
            sort_ports cell_name l'
              (add_entry (layer find_layer port)
                         (vx (disp t), vy (disp t)) (port, cell_name)
                         (fst st),
               Some port)
        end
      else sort_ports cell_name l' (fst st, Some port)
  end.

(** The loop over the instances: each instance gives the name of its cell
    and its ports. *)
Fixpoint sort_insts (insts : list (string * list BasePort))
    (st : list (Z * list (Z * Z * list (BasePort * string))) * option BasePort)
  : PyError
    + (list (Z * list (Z * Z * list (BasePort * string))) * option BasePort) :=
  match insts with
  | [] => inr st
  | (cell_name, l) :: insts' =>
      match sort_ports cell_name l st with
      | inl e => inl e
      | inr st' => sort_insts insts' st'
      end
  end.
End Build.

Section Check.
Variable find_layer : Z * Z -> Z.
Variable port_types : list string.
Variable layers : list Z.
Variable check_cell_ports : BasePort -> BasePort -> Z.
Variable check_inst_ports : BasePort -> BasePort -> Z.
Variable layer_name : Z -> string.
Variable port_str : BasePort -> string.
Variable trans_to_s : Trans -> string.
Variable self_name : string.
Variable db_cell : string.

(** Lines 1823-2038 for the instances of a cell: the ports are sorted into
    the buckets, then every bucket is classified.  When no port was seen
    there is no bucket and nothing to classify. *)
Definition check_instance_ports
    (cell_ports : list (Z * list (Z * Z * list BasePort)))
    (insts : list (string * list BasePort)) : M ReportDatabase unit :=
  fun db =>
    match sort_insts find_layer port_types layers insts ([], None) with
    | inl e => (inl e, db)
    | inr (inst_ports, Some port) =>
        check_buckets check_cell_ports check_inst_ports layer_name port_str
                      trans_to_s self_name db_cell cell_ports port inst_ports db
    | inr (_, None) => (inr tt, db)
    end.
End Check.
End CheckerBuild.

(** ** The items a pair of ports is reported with *)

Module CheckerItems.
Import Kdb PortModel Checker.

(** The values of one mismatch item for the ports [p1], [p2] of the cells
    [c1], [c2] under the transformations [t1], [t2]: the names when both
    ports have one, then the two markers. *)
Definition error_values (p1 p2 : BasePort) (c1 c2 : string) (t1 t2 : Trans)
  : list RdbValue :=
  (if negb (String.eqb (str_or (name p1) "") "")
      && negb (String.eqb (str_or (name p2) "") "")
   then [Text ("Port Names: " +:+ c1 +:+ "." +:+ str_or (name p1) ""
               +:+ "/" +:+ c2 +:+ "." +:+ str_or (name p2) "")]
   else [])
  ++ [Polygon (width (cross_section p1)) t1;
      Polygon (width (cross_section p2)) t2].

(** The categories of the mismatches flagged in [flags], in the order of
    the report: width (1), angle (2), type (4). *)
Definition flagged (flags : Z) : list string :=
  (if negb (Z.land flags 1 =? 0) then ["WidthMismatch"%string] else [])
  ++ (if negb (Z.land flags 2 =? 0) then ["AngleMismatch"%string] else [])
  ++ (if negb (Z.land flags 4 =? 0) then ["TypeMismatch"%string] else []).

(** One item per flagged mismatch, in the category of the mismatch under
    the category [lc] of the layer. *)
Definition mismatch_items (db_cell lc : string) (flags : Z)
    (p1 p2 : BasePort) (c1 c2 : string) (t1 t2 : Trans) : list RdbItem :=
  map (fun cat => mkItem db_cell (lc +:+ "." +:+ cat)
                         (error_values p1 p2 c1 c2 t1 t2))
      (flagged flags).
End CheckerItems.

(** ** What a route may add to its cell *)

Module RoutingSpec.
Import Kdb PortModel PyM Routing.

Section Spec.
Variable straight_factory : Q -> Q -> VKCell.
Variable bend_factory : Q -> Q -> VKCell.
Variable width : Q.

(** An element the two generators make for this width: a straight of
    positive length, or the bend of the absolute value of a turn that is
    not zero. *)
Definition made (k : VKCell) : Prop :=
  (exists l, Qltb 0 l = true /\ k = straight_factory width l)
  \/ (exists a, Qeq_bool a 0 = false /\ k = bend_factory width (Qabs a)).

(** Every bend of the cache is the bend the generator makes for the
    absolute value of its key, and no key is zero. *)
Definition cache_ok (bends : list (Q * VKCell)) : Prop :=
  Forall (fun kv => Qeq_bool (fst kv) 0 = false
                    /\ snd kv = bend_factory width (Qabs (fst kv))) bends.

(** The world [w'] is the world [w] with the instances [new] added at the
    end of the cell, all of made elements, with more factory calls at the
    end of the record, and nothing else changed. *)
Definition grows (w w' : World) (new : list VInstance) : Prop :=
  insts (c w') = insts (c w) ++ new
  /\ Forall (fun vi => made (cell vi)) new
  /\ set_insts (c w') (insts (c w)) = c w
  /\ exists more, calls w' = calls w ++ more.

(** The contract of a piece of the loop that maps the variables: whatever
    the outcome the world grows, and on success the cache is still sound
    and the instances listed are the old ones followed by the indices of
    the instances added. *)
Definition sound (f : Vars -> M World Vars) : Prop :=
  forall v w,
    cache_ok (bends v) ->
    exists new,
      grows w (snd (f v w)) new
      /\ forall v', fst (f v w) = inr v' ->
           cache_ok (bends v')
           /\ insts_ v' = insts_ v ++ seq (length (insts (c w))) (length new).
End Spec.
End RoutingSpec.

(** ** Lanes of a bundle ([backbone2bundle] of [routing/aa/optical.py]) *)

Module Bundle.
Import Kdb Routing.

(** The only exception [backbone2bundle] raises by itself: an index into an
    empty sequence. *)
Inductive BundleError := IndexError.

(** [a // b] on floats. *)
Definition floordiv (a b : Q) : Q := inject_Z (Qfloor (a / b)).

(** [sum(l)] *)
Definition sum (l : list Q) : Q := fold_left Qplus l 0%Q.

(** [zip(a, b)] *)
Fixpoint zip {A B} (a : list A) (b : list B) : list (A * B) :=
  match a, b with
  | x :: a', y :: b' => (x, y) :: zip a' b'
  | _, _ => []
  end.

Section Backbone2Bundle.
(** [e.shifted(d)] and [e.cut_point(f)] of [kdb.DEdge]; a cut point is
    [None] for parallel edges. *)
Variable shifted : DEdge -> Q -> DEdge.
Variable cut_point : DEdge -> DEdge -> option DVector.

(** Lines 283-285: the edges between consecutive points. *)
Fixpoint edges_from (p1 : DVector) (rest : list DVector) : list DEdge :=
  match rest with
  | [] => []
  | p2 :: rest' => mkDEdge p1 p2 :: edges_from p2 rest'
  end.

(** Lines 297-301: the inner loop over [edges[1:]] and the closing point. *)
Fixpoint lane_rest (x : Q) (_e1 : DEdge) (es : list DEdge)
  : list (option DVector) :=
  match es with
  | [] => [Some (p2 _e1)]
  | e :: es' =>
      let _e2 := shifted e (- x) in
      cut_point _e2 _e1 :: lane_rest x _e2 es'
  end.

(** Lines 291-304: the loop over [zip(port_widths, spacings)] with the
    running offset [x]. *)
Fixpoint lanes (edges : list DEdge) (x : Q) (zs : list (Q * Q))
  : BundleError + list (list (option DVector)) :=
  match zs with
  | [] => inr []
  | (pw, spacing) :: zs' =>
      let x1 := (x + (floordiv pw 2 + floordiv spacing 2))%Q in
      match edges with
      | [] => inl IndexError
      | e0 :: es =>
          let _e1 := shifted e0 (- x1) in
          let _pts := Some (p1 _e1) :: lane_rest x1 _e1 es in
          let x2 := (x1 + (spacing - floordiv spacing 2 + pw
                           - floordiv pw 2))%Q in
          match lanes edges x2 zs' with
          | inl e => inl e
          | inr pts => inr (_pts :: pts)
          end
      end
  end.

(** [backbone2bundle(backbone, port_widths, spacings)] *)
Definition backbone2bundle (backbone : list DVector)
    (port_widths spacings : list Q)
  : BundleError + list (list (option DVector)) :=
  match backbone with
  | [] => inl IndexError
  | p1 :: rest =>
      let edges := edges_from p1 rest in
      let width := (sum port_widths + sum spacings)%Q in
      let x := floordiv (- width) 2 in
      lanes edges x (zip port_widths spacings)
  end.
End Backbone2Bundle.
End Bundle.

(** ** Sample edges for the bundle *)

Module Samples3.
Import Kdb Routing.

(** A shift along y, as [DEdge.shifted] does for an edge along x. *)
Definition shift_y (e : DEdge) (d : Q) : DEdge :=
  mkDEdge (mkDVector (dvx (p1 e)) (Qred (dvy (p1 e) + d)))
          (mkDVector (dvx (p2 e)) (Qred (dvy (p2 e) + d))).

(** Three points on the x axis. *)
Definition line3 : list DVector :=
  [Ortho.pt 0 0; Ortho.pt 10 0; Ortho.pt 20 0].
End Samples3.

(** ** Renaming the ports of a cell ([rename_clockwise] and the filters
    of [port.py]) *)

Module Rename.
Import Kdb PortModel PyM.

Definition with_name (b : BasePort) (n : option string) : BasePort :=
  mkBasePort n (kcl b) (cross_section b) (trans b) (dcplx_trans b)
             (info b) (port_type b).

(** The [name] setter of a port: [self._base.name = value], an update of
    the base the view shares. *)
Definition assign_name (p : ProtoPort) (value : string)
  : M (gmap loc BasePort) unit :=
  fun h => (inr tt, alter (fun b => with_name b (Some value)) (base p) h).

(** A test on the base a view reads. *)
Definition reads (h : gmap loc BasePort) (f : BasePort -> bool)
    (p : ProtoPort) : bool :=
  match h !! base p with
  | Some b => f b
  | None => false
  end.

(** [enumerate(l, start=i)] *)
Fixpoint enumerate {A} (i : Z) (l : list A) : list (Z * A) :=
  match l with
  | [] => []
  | x :: l' => (i, x) :: enumerate (i + 1) l'
  end.

Fixpoint for_each {W A} (l : list A) (f : A -> M W unit) : M W unit :=
  match l with
  | [] => ret tt
  | x :: l' => f x ;;; for_each l' f
  end.

(** The order of Python on tuples of three integers. *)
Definition key_lt (a b : Z * Z * Z) : bool :=
  let '(a1, a2, a3) := a in
  let '(b1, b2, b3) := b in
  (a1 <? b1) || ((a1 =? b1) && ((a2 <? b2) || ((a2 =? b2) && (a3 <? b3)))).

(** [sorted(l, key=...)] on elements paired with their keys: the sort of
    Python is stable, so its result is the one list that is ordered by the
    keys and keeps elements of equal keys in the order they came in; the
    insertion below builds that list. *)
Fixpoint insert_by_key {A} (x : (Z * Z * Z) * A) (l : list ((Z * Z * Z) * A))
  : list ((Z * Z * Z) * A) :=
  match l with
  | [] => [x]
  | y :: l' =>
      if key_lt (fst y) (fst x) then y :: insert_by_key x l' else x :: l
  end.

Definition sorted {A} (l : list ((Z * Z * Z) * A)) : list A :=
  map snd (foldr insert_by_key [] l).

Section Rename.
(** [kcl.find_layer(layer_info, allow_undefined_layers=True)],
    [bool(re.compile(regex).match(name))] and the text of a float in an
    f-string. *)
Variable find_layer : Z * Z -> Z.
Variable re_match : string -> string -> bool.
Variable float_str : Q -> string.

(** [filter_layer], [filter_port_type], [filter_regex]: the filters are
    lazy and are consumed, in one go, where the caller sorts. *)
Definition filter_layer (h : gmap loc BasePort) (ports : list ProtoPort)
    (layer : Z) : list ProtoPort :=
  List.filter
    (reads h (fun b => find_layer (main_layer (cross_section b)) =? layer))
    ports.

Definition filter_port_type (h : gmap loc BasePort) (ports : list ProtoPort)
    (port_type_ : string) : list ProtoPort :=
  List.filter (reads h (fun b => String.eqb (port_type b) port_type_)) ports.

Definition filter_regex (h : gmap loc BasePort) (ports : list ProtoPort)
    (regex : string) : list ProtoPort :=
  List.filter
    (reads h (fun b => match name b with
                       | Some n => re_match regex n
                       | None => false
                       end))
    ports.

(** [filter_layer_pt_reg(ports, layer, port_type, regex)] *)
Definition filter_layer_pt_reg (h : gmap loc BasePort)
    (ports : list ProtoPort) (layer : option Z) (port_type_ : option string)
    (regex : option string) : list ProtoPort :=
  let ports1 := match layer with
                | Some l => filter_layer h ports l
                | None => ports
                end in
  let ports2 := match port_type_ with
                | Some t => filter_port_type h ports1 t
                | None => ports1
                end in
  match regex with
  | Some r => filter_regex h ports2 r
  | None => ports2
  end.

(** [sort_key(port)] of [rename_clockwise].  [port.trans] is the getter
    (the stored simple transformation, or the complex one narrowed);
    [port.angle] is the integer angle on a [Port] and the angle in degrees
    of the [dcplx_trans] getter on a [DPort]. *)
Definition sort_key (h : gmap loc BasePort) (port : ProtoPort)
  : PyError + (Z * Z * Z) :=
  match h !! base port ≫= (fun b => pair b <$> get_trans b) with
  | None => inl AttributeError_NoneType
  | Some (b, t) =>
    let d := default (of_trans (dbu (kcl b)) t) (dcplx_trans b) in
    let clockwise :=
      match Kdb.angle t with
      | 2 => Some 0
      | 1 => Some 1
      | 0 => Some 2
      | 3 => Some 3
      | _ => None
      end in
    match clockwise with
    | None =>
        inl (ValueError
               ("Invalid angle: "
                +:+ match port with
                    | Port _ => pretty (Kdb.angle t)
                    | DPort _ => float_str (dangle d)
                    end))
    | Some a =>
        let dir_1 := if a <? 2 then 1 else -1 in
        let dir_2 := if match port with
                        | Port _ => Kdb.angle t <? 2
                        | DPort _ => Qltb (dangle d) 2
                        end
                     then -1 else 1 in
        let odd := negb (a mod 2 =? 0) in
        let key_1 := dir_1 * (if odd then vx (disp t) else vy (disp t)) in
        let key_2 := dir_2 * (if odd then vy (disp t) else vx (disp t)) in
        inr (a, key_1, key_2)
    end
  end.

(** The keys of the ports, computed in order; the first exception ends
    the computation. *)
Fixpoint keyed (h : gmap loc BasePort) (ports : list ProtoPort)
  : PyError + list ((Z * Z * Z) * ProtoPort) :=
  match ports with
  | [] => inr []
  | p :: ports' =>
      match sort_key h p with
      | inl e => inl e
      | inr k =>
          match keyed h ports' with
          | inl e => inl e
          | inr l => inr ((k, p) :: l)
          end
      end
  end.

(** [rename_clockwise(ports, layer, port_type, regex, prefix, start)] *)
Definition rename_clockwise (ports : list ProtoPort) (layer : option Z)
    (port_type_ : option string) (regex : option string)
    (prefix : string) (start : Z) : M (gmap loc BasePort) unit :=
  fun h =>
    let ports_ := filter_layer_pt_reg h ports layer port_type_ regex in
    match keyed h ports_ with
    | inl e => (inl e, h)
    | inr l =>
        for_each (enumerate start (sorted l))
                 (fun ip => assign_name (snd ip) (prefix +:+ pretty (fst ip)))
                 h
    end.
End Rename.
End Rename.

(** ** Renaming: what it means for keyed ports to be in ascending order *)

Module RenameSpec.
Import Rename.

(** No later element has a smaller key than an earlier one. *)
Definition ascending {A} (l : list ((Z * Z * Z) * A)) : Prop :=
  forall (i j : nat) x y,
    (i < j)%nat -> l !! i = Some x -> l !! j = Some y ->
    key_lt (fst y) (fst x) = false.

(** Elements of equal keys stand in the order they have in [l0]. *)
Definition stable {A} (l0 l : list ((Z * Z * Z) * A)) : Prop :=
  forall k, List.filter (fun x => negb (key_lt (fst x) k)
                                  && negb (key_lt k (fst x))) l
            = List.filter (fun x => negb (key_lt (fst x) k)
                                    && negb (key_lt k (fst x))) l0.
End RenameSpec.

(** ** Sample ports for the renaming *)

Module Samples4.
Import Kdb PortModel.

(** Three port objects: two face west at (0, 0) and (0, 5000), one faces
    north at (5000, 10000); the first is listed last. *)
Definition store3 : gmap loc BasePort :=
  {[ 1%positive := Samples.port_named "a" 2 0 5000;
     2%positive := Samples.port_named "b" 1 5000 10000;
     3%positive := Samples.port_named "c" 2 0 0 ]}.

Definition ports3 : list ProtoPort :=
  [Port 1%positive; Port 2%positive; Port 3%positive].

(** A pattern that matches every name, and a float format that is not
    used on these ports. *)
Definition match_all (regex name : string) : bool := true.
Definition no_float (x : Q) : string := EmptyString.
End Samples4.

(** ** Orientation and mirror flag of a port ([orientation], [mirror] of
    [port.py]) *)

Module PortOps2.
Import Kdb PortModel.

(** [value in [0, 90, 180, 270]] *)
Definition right_angle (value : Q) : bool :=
  Qeq_bool value 0 || Qeq_bool value 90 || Qeq_bool value 180
  || Qeq_bool value 270.

(** [int(x)] of a float: rounding towards zero. *)
Definition int_of (x : Q) : Z := if Qltb x 0 then Qceiling x else Qfloor x.

(** The [orientation] getter: [self.dcplx_trans.angle]. *)
Definition get_orientation (b : BasePort) : option Q :=
  dangle <$> get_dcplx_trans b.

(** The [orientation] setter.  In its first branch it assigns the angle to
    the object the [trans] getter returns: the stored simple transformation
    when there is one, and otherwise a temporary that the getter has just
    made from the complex one, so that the base is left as it is.  In its
    second branch it stores what the [dcplx_trans] getter returns and
    assigns the angle to that; the simple field is not written.  [None]
    stands for the exception of a port without any transformation. *)
Definition set_orientation (b : BasePort) (value : Q) : option BasePort :=
  match get_dcplx_trans b with
  | None => None
  | Some d =>
      if negb (is_complex d) && right_angle value then
        match trans b with
        | Some t =>
            Some (with_trans b
                    (Some (mkTrans (int_of (value / 90)) (mirror t) (disp t))))
        | None => Some b
        end
      else
        Some (with_dcplx_trans b
                (Some (mkDCplxTrans (mag d) value (dmirror d) (ddisp d))))
  end.

(** The [mirror] getter: [self.trans.is_mirror()]. *)
Definition get_mirror (b : BasePort) : option bool :=
  mirror <$> get_trans b.

(** The [mirror] setter: the flag of the stored simple transformation, or
    else of the stored complex one; [None] stands for the exception of a
    port without any transformation. *)
Definition set_mirror (b : BasePort) (value : bool) : option BasePort :=
  match trans b with
  | Some t =>
      Some (with_trans b (Some (mkTrans (angle t) value (disp t))))
  | None =>
      match dcplx_trans b with
      | Some d =>
          Some (with_dcplx_trans b
                  (Some (mkDCplxTrans (mag d) (dangle d) value (ddisp d))))
      | None => None
      end
  end.
End PortOps2.

(** * Properties *)

(** ** Ports *)

Module PortFacts.
Import Kdb PortModel Samples.

(** The [trans] setter writes the simple field and nothing else. *)
Lemma set_trans_fields (b : BasePort) (v : Trans) :
  trans (set_trans b v) = Some v /\
  dcplx_trans (set_trans b v) = dcplx_trans b.
Proof. split; reflexivity. Qed.

(** The [dcplx_trans] setter writes exactly one of the two fields and
    leaves the other one as it was. *)
Lemma set_dcplx_trans_fields (b : BasePort) (v : DCplxTrans) :
  (trans (set_dcplx_trans b v) = trans b /\
   dcplx_trans (set_dcplx_trans b v) = Some v) \/
  (trans (set_dcplx_trans b v) = Some (s_trans (dbu (kcl b)) v) /\
   dcplx_trans (set_dcplx_trans b v) = dcplx_trans b).
Proof.
  unfold set_dcplx_trans.
  destruct (is_complex v || _); [left | right]; split; reflexivity.
Qed.

(** The [angle] setter of [Port] does clear the complex field. *)
Lemma set_angle_clears (b b' : BasePort) (a : Z) :
  set_angle b a = Some b' -> dcplx_trans b' = None.
Proof.
  unfold set_angle. destruct (get_trans b); simpl; [|discriminate].
  intros [= <-]. reflexivity.
Qed.

(** C1 (the code departs from the claim).  A port that stores the simple
    transformation [r90 1000,0] is assigned the complex value [cplx45]:
    the simple transformation stays stored beside the complex one, and the
    [trans] getter keeps answering the old value.  Assigning then the
    grid-aligned, non-complex value [ortho180] stores the narrowed simple
    transformation and leaves the complex value of 45 degrees behind, which
    the [dcplx_trans] getter keeps answering.  Assigning [trans] to a port
    that stores a complex transformation leaves the complex one stored as
    well. *)
Theorem setters_keep_the_other_representation :
  let h1 := assign_dcplx_trans store1 (Port 1) cplx45 in
  let h2 := assign_dcplx_trans h1 (Port 1) ortho180 in
  let h3 := assign_trans h1 (Port 1) R180 in
  (trans <$> h1 !! 1%positive
     = Some (Some (mkTrans 1 false (mkVector 1000 0)))
   /\ dcplx_trans <$> h1 !! 1%positive = Some (Some cplx45)
   /\ read_trans h1 (Port 1) = Some (mkTrans 1 false (mkVector 1000 0))
   /\ read_dcplx_trans h1 (Port 1) = Some cplx45)
  /\ (is_complex ortho180 = false
      /\ trans <$> h2 !! 1%positive
           = Some (Some (mkTrans 2 false (mkVector 2000 0)))
      /\ dcplx_trans <$> h2 !! 1%positive = Some (Some cplx45)
      /\ read_dcplx_trans h2 (Port 1) = Some cplx45)
  /\ (trans <$> h3 !! 1%positive = Some (Some R180)
      /\ dcplx_trans <$> h3 !! 1%positive = Some (Some cplx45)).
Proof. vm_compute. repeat split; reflexivity. Qed.

Section Copy.
Variable dmul : DCplxTrans -> DCplxTrans -> DCplxTrans.

(** On a base that stores a simple transformation, [transformed] with
    two simple arguments takes the integer branch. *)
Lemma transformed_simple (b : BasePort) (t T1 T2 : Trans) :
  trans b = Some t ->
  transformed dmul b (Simple T1) (Simple T2)
  = Some (with_trans (copy_base b) (Some (tmul (tmul T1 t) T2))).
Proof. intros Ht. unfold transformed. simpl. rewrite Ht. reflexivity. Qed.

(** C7.  For a port whose base stores the simple transformation [t] and
    simple transformations [T1], [T2]: [port.copy(T1, T2)] is a port on
    a new base, its [trans] reads [T1 * t * T2], and every base of the
    store that existed before the call, the source among them, is what
    it was. *)
Theorem copy_simple_law (h : gmap positive BasePort) (self : positive)
    (b : BasePort) (t T1 T2 : Trans) :
  h !! self = Some b ->
  trans b = Some t ->
  exists q h',
    copy dmul h self (Simple T1) (Simple T2) = Some (q, h')
    /\ read_trans h' q = Some (tmul (tmul T1 t) T2)
    /\ h' !! self = Some b
    /\ base q <> self
    /\ forall l, is_Some (h !! l) -> h' !! l = h !! l.
Proof.
  intros Hb Ht.
  pose proof (is_fresh (dom h)) as Hfresh.
  set (l := fresh (dom h)) in *.
  assert (Hne : forall l', is_Some (h !! l') -> l <> l').
  { intros l' Hl' ->. apply Hfresh. apply elem_of_dom. exact Hl'. }
  exists (Port l),
    (<[l := with_trans (copy_base b) (Some (tmul (tmul T1 t) T2))]> h).
  repeat split.
  - unfold copy. rewrite Hb. simpl.
    rewrite (transformed_simple b t T1 T2 Ht). reflexivity.
  - unfold read_trans. simpl. rewrite lookup_insert_eq. reflexivity.
  - rewrite lookup_insert_ne; [exact Hb | apply Hne; eauto].
  - simpl. apply Hne. eauto.
  - intros l' Hl'. rewrite lookup_insert_ne; [reflexivity | auto].
Qed.
End Copy.

Lemma copy_simple_law_witness :
  exists q h',
    copy Ortho.dmul store1 1%positive (Simple R180) (Simple M0)
    = Some (q, h')
    /\ read_trans h' q
       = Some (tmul (tmul R180 (mkTrans 1 false (mkVector 1000 0))) M0)
    /\ h' !! 1%positive = Some simple_port
    /\ base q <> 1%positive
    /\ forall l, is_Some (store1 !! l) -> h' !! l = store1 !! l.
Proof.
  apply (copy_simple_law Ortho.dmul store1 1%positive simple_port
           (mkTrans 1 false (mkVector 1000 0)) R180 M0);
    reflexivity.
Defined.

(** C10.  For a [DPort] and a [Port] whose bases are structurally equal:
    [d == p] is true and [p == d] is false, since [__eq__] answers false
    as soon as its right operand is no [Port]. *)
Theorem port_eq_not_symmetric (h : gmap positive BasePort)
    (d p : positive) (bd bp : BasePort) :
  h !! d = Some bd ->
  h !! p = Some bp ->
  BasePort_eqb bd bp = true ->
  port_eq h (DPort d) (Port p) = Some true
  /\ port_eq h (Port p) (DPort d) = Some false.
Proof.
  intros Hd Hp Heq. unfold port_eq. simpl.
  rewrite Hd, Hp. simpl. rewrite Heq. split; reflexivity.
Qed.

Lemma port_eq_not_symmetric_witness :
  port_eq store2 (DPort 1) (Port 2) = Some true
  /\ port_eq store2 (Port 2) (DPort 1) = Some false.
Proof.
  apply (port_eq_not_symmetric store2 1%positive 2%positive
           simple_port simple_port); reflexivity.
Defined.
End PortFacts.

(** ** Routing *)

Module RoutingFacts.
Import Kdb PortModel PortCtor PyM Routing.

Lemma lookup_snoc {A} (l : list A) (x : A) :
  (l ++ [x]) !! length l = Some x.
Proof. induction l; simpl; auto. Qed.

Lemma insert_snoc {A} (l : list A) (x y : A) :
  <[length l := y]> (l ++ [x]) = l ++ [y].
Proof. induction l; simpl; [reflexivity | f_equal; assumption]. Qed.







Lemma bend_calls_app (w : World) (l : list Call) :
  List.filter is_bend_call (calls w ++ l)
  = bend_calls w ++ List.filter is_bend_call l.
Proof. unfold bend_calls. apply List.filter_app. Qed.

(** The first keyword that [Port.__init__] does not know is [dwidth]. *)
Lemma route_port_rejected dk gi (width : Q) (layer : Z) (a : Q)
    (p : DVector) (k : KCLayout) :
  Port_init dk gi (route_port_kwargs width layer a p k)
  = inl (TypeError_unexpected_keyword "dwidth").
Proof. reflexivity. Qed.

Section Facts.
Variable angle_of : DVector -> Q.
Variable vlength : DVector -> Q.
Variable dapply : DCplxTrans -> DVector -> DVector.
Variable cut_point : DEdge -> DEdge -> option DVector.
Variable straight_factory : Q -> Q -> VKCell.
Variable bend_factory : Q -> Q -> VKCell.
Variable default_kcl : KCLayout.
Variable get_info : Z -> Z * Z.

Local Abbreviation route :=
  (route angle_of vlength dapply cut_point straight_factory bend_factory
         default_kcl get_info).
Local Abbreviation route_step :=
  (route_step angle_of vlength dapply cut_point straight_factory
              bend_factory).
Local Abbreviation place_straight := (place_straight straight_factory).
Local Abbreviation bend_radius := (bend_radius vlength dapply cut_point).
Local Abbreviation turn_angle := (turn_angle angle_of).

(** With three waypoints or more, [route] stops at the construction of
    its start port: the call passes the keyword [dwidth], which
    [Port.__init__] does not take.  Nothing has been placed. *)
Lemma route_long_backbone (width : Q) (layer : Z) (bb : list DVector)
    (bend_ports straight_ports : string * string) (w : World) :
  (3 <= length bb)%nat ->
  route width layer bb bend_ports straight_ports w
  = (inl (TypeError_unexpected_keyword "dwidth"), w).
Proof.
  intros Hlen. unfold Routing.route.
  destruct (Nat.ltb_spec (length bb) 3) as [Hlt | _]; [lia |].
  unfold bind, get, lift. rewrite route_port_rejected. reflexivity.
Qed.

(** C8.  With fewer than three waypoints [route] raises its
    [ValueError] and leaves the world as it found it: no instance is
    added to the cell and no factory has been called. *)
Theorem route_short_backbone (width : Q) (layer : Z) (bb : list DVector)
    (bend_ports straight_ports : string * string) (w : World) :
  (length bb < 3)%nat ->
  route width layer bb bend_ports straight_ports w
  = (inl (ValueError
            "All angle routes with less than 3 points are not supported."),
     w).
Proof.
  intros Hlen. unfold Routing.route.
  destruct (Nat.ltb_spec (length bb) 3) as [_ | Hge]; [reflexivity | lia].
Qed.

(** C2 (the code departs from the claim).  On the backbone
    [(0,0), (10,0), (10,10)], whatever the factories, [route] raises
    [TypeError] for the keyword [dwidth] and places nothing. *)
Theorem route_scenario_raises_TypeError
    (width : Q) (layer : Z)
    (bend_ports straight_ports : string * string) (w : World) :
  route width layer [Ortho.pt 0 0; Ortho.pt 10 0; Ortho.pt 10 10]
        bend_ports straight_ports w
  = (inl (TypeError_unexpected_keyword "dwidth"), w).
Proof. apply route_long_backbone. simpl. lia. Qed.

(** C3 (the code departs from the claim).  On the backbone
    [(0,0), (3,0), (3,10)] the error [route] raises is the [TypeError]
    for the keyword [dwidth], not the report of missing space. *)
Theorem route_tight_scenario_raises_TypeError
    (width : Q) (layer : Z)
    (bend_ports straight_ports : string * string) (w : World) :
  route width layer [Ortho.pt 0 0; Ortho.pt 3 0; Ortho.pt 3 10]
        bend_ports straight_ports w
  = (inl (TypeError_unexpected_keyword "dwidth"), w).
Proof. apply route_long_backbone. simpl. lia. Qed.







End Facts.

(** *** The statements at the axis-parallel instances *)

Lemma route_short_backbone_witness :
  (length [Ortho.pt 0 0; Ortho.pt 10 0] < 3)%nat
  /\ Ortho.run_route [Ortho.pt 0 0; Ortho.pt 10 0]
     = (inl (ValueError
               "All angle routes with less than 3 points are not supported."),
        Ortho.world0).
Proof.
  split; [simpl; lia |].
  apply (route_short_backbone Ortho.angle_of Ortho.vlength Ortho.dapply
           Ortho.cut_point Ortho.straight_factory Ortho.bend_factory
           Ortho.kcl0 Ortho.get_info0).
  simpl; lia.
Defined.

(** The placement code of [route], started behind the construction of the
    two ports, does on the backbone [(0,0), (10,0), (10,10)] what the
    route scenario expects: a straight of length 5, the bend, a straight
    of length 5. *)
Example route_body_scenario :
  Ortho.placed
    (Ortho.run_body [Ortho.pt 0 0; Ortho.pt 10 0; Ortho.pt 10 10])
  = [Some (Ortho.straight_factory 1 5); Some (Ortho.bend_factory 1 90);
     Some (Ortho.straight_factory 1 5)].
Proof. vm_compute. reflexivity. Qed.

(** Started the same way on [(0,0), (3,0), (3,10)] it reports the missing
    space between (0,0) and (3,0): 5 needed, 3 available. *)
Example route_body_tight_scenario :
  Ortho.run_body [Ortho.pt 0 0; Ortho.pt 3 0; Ortho.pt 3 10]
  = (inl (NotEnoughSpace (Ortho.pt 0 0) (Ortho.pt 3 0) 5 3),
     mkWorld (c Ortho.world0) [BendCall 1 90]).
Proof. vm_compute. reflexivity. Qed.

(** A waypoint without a turn is not checked: on
    [(0,0), (10,0), (10,3), (10,20)] the run of length 3 that follows the
    bend of radius 5 is 2 short, no error is raised, the straight is
    left out and the closing straight of length 17 starts at the end of
    the bend. *)
Example route_body_zero_turn_unchecked :
  let bb := [Ortho.pt 0 0; Ortho.pt 10 0; Ortho.pt 10 3; Ortho.pt 10 20] in
  Qeq_bool (turn_angle Ortho.angle_of (Ortho.pt 10 0) (Ortho.pt 10 3)
              (Ortho.pt 10 20)) 0 = true
  /\ Qltb (Ortho.vlength (dv_sub (Ortho.pt 10 3) (Ortho.pt 10 0)) - 0 - 5)
          0 = true
  /\ Ortho.placed (Ortho.run_body bb)
     = [Some (Ortho.straight_factory 1 5); Some (Ortho.bend_factory 1 90);
        Some (Ortho.straight_factory 1 17)].
Proof. vm_compute. repeat split; reflexivity. Qed.




End RoutingFacts.

(** ** Netlist extraction *)

Module NetlistFacts.
Import Kdb PortModel PortChecks PyM Netlist.

Section Facts.
Variable find_layer : Z * Z -> Z.

Local Abbreviation connect_bucket := (connect_bucket find_layer).
Local Abbreviation port_check := (port_check find_layer).
Local Abbreviation opposite_compatible :=
  (opposite_compatible find_layer).

Lemma port_check_all_opposite (p1 p2 : BasePort) :
  port_check p1 p2 all_opposite = inr tt
  <-> opposite_compatible p1 p2 = true.
Proof.
  unfold PortChecks.port_check, PortChecks.opposite_compatible.
  destruct (get_trans p1) as [t1 |]; [| split; discriminate].
  destruct (get_trans p2) as [t2 |]; [| split; discriminate].
  change (flag all_opposite opposite) with true.
  change (flag all_opposite width_) with true.
  change (flag all_opposite layer_) with true.
  change (flag all_opposite port_type_) with true.
  cbn [trans_is].
  destruct (Trans_eqb t1 (tmul t2 R180) || Trans_eqb t1 (tmul t2 M90));
    cbn; [| split; discriminate].
  destruct (width (cross_section p1) =? width (cross_section p2));
    cbn; [| split; discriminate].
  destruct (layer find_layer p1 =? layer find_layer p2);
    cbn; [| split; discriminate].
  destruct (String.eqb (port_type p1) (port_type p2));
    cbn; split; (reflexivity || discriminate).
Qed.

(** C5.  A bucket of instance ports at a position and layer where the
    cell has no boundary bucket gets a net of its own.  With more than
    two ports the extraction stops with an assertion error.  With
    exactly two, the pair goes through [port_check] with
    [all_opposite] (opposite transformations, equal width, layer and
    type): when it passes, the pins of both ports are connected to the
    new net, and when it fails, its error is raised and nothing is
    connected.  With exactly one port no error is raised and no pin is
    connected: the port stays dangling. *)
Theorem unmatched_instance_bucket
    (cell_ports : list (string * list (string * list (nat * BasePort))))
    (h layer_ : string) (ports : list InstPort) (k : Circuit) :
  Dict.get2 String.eqb String.eqb h layer_ cell_ports = None ->
  match ports with
  | [] => connect_bucket cell_ports h layer_ ports k
          = (inr tt, with_net k (instance_net_name ports))
  | [a] => connect_bucket cell_ports h layer_ ports k
           = (inr tt, with_net k (instance_net_name ports))
  | [a; b] =>
      (opposite_compatible (ip_port a) (ip_port b) = true ->
       connect_bucket cell_ports h layer_ ports k
       = (inr tt,
          with_connections (with_net k (instance_net_name ports))
            [(ip_subc a, pin_name a, length (nets k));
             (ip_subc b, pin_name b, length (nets k))]))
      /\ (opposite_compatible (ip_port a) (ip_port b) = false ->
          exists e,
            port_check (ip_port a) (ip_port b) all_opposite = inl e
            /\ connect_bucket cell_ports h layer_ ports k
               = (inl e, with_net k (instance_net_name ports)))
  | _ => connect_bucket cell_ports h layer_ ports k
         = (inl (AssertionError
                   "Optical connection with more than two ports are not supported"),
            with_net k (instance_net_name ports))
  end.
Proof.
  intros Hnone. unfold Netlist.connect_bucket. rewrite Hnone.
  unfold connect_instance_ports.
  destruct ports as [| a [| b [| x rest]]]; try reflexivity.
  split.
  - intros Hok. apply port_check_all_opposite in Hok.
    unfold bind, create_net, lift. cbn [length Nat.leb negb].
    rewrite Hok. cbn. unfold bind, subc_connect_pin, ret. cbn.
    unfold with_connections, with_net. cbn.
    rewrite <- app_assoc. reflexivity.
  - intros Hbad.
    destruct (port_check (ip_port a) (ip_port b) all_opposite)
      as [e | []] eqn:Hpc.
    + exists e. split; [reflexivity |].
      unfold bind, create_net, lift. reflexivity.
    + apply port_check_all_opposite in Hpc. congruence.
Qed.
End Facts.

(** *** The statements on the sample cell *)

Lemma unmatched_instance_bucket_witness :
  Dict.get2 String.eqb String.eqb "1000_0" "1_0"
    ([] : list (string * list (string * list (nat * BasePort)))) = None
  /\ PortChecks.opposite_compatible Ortho.find_layer0
       (ip_port Samples.ip_a) (ip_port Samples.ip_b) = true
  /\ Netlist.connect_bucket Ortho.find_layer0 [] "1000_0" "1_0"
       [Samples.ip_a; Samples.ip_b] Samples.circuit0
     = (inr tt,
        mkCircuit "top" 0 ["s1_o2-1_o1"] [] []
                  [(0%nat, "o2", 0%nat); (1%nat, "o1", 0%nat)]%string).
Proof.
  split; [reflexivity |]. split; [reflexivity |].
  apply (proj1 (unmatched_instance_bucket Ortho.find_layer0 []
                  "1000_0" "1_0" [Samples.ip_a; Samples.ip_b]
                  Samples.circuit0 eq_refl)).
  reflexivity.
Defined.

(** The whole extraction on the sample cell: the boundary port gets the
    net [o1] and the first straight is connected to it, the two ports
    that meet at (1000, 0) share a net, and the far port of the second
    straight only gets a net that nothing is connected to. *)
Example circuit_two_straights :
  circuit Ortho.find_layer0 Ortho.get_info0 ["optical"%string]
          Samples.two_straights
  = (inr tt,
     mkCircuit "top" 0 ["o1"; "s1_o2-1_o1"; "1_o2"] [("o1", 0%nat)]
               [(1, "s1"); (1, "1_straight")]
               [(0%nat, "o1", 0%nat); (0%nat, "o2", 1%nat);
                (1%nat, "o1", 1%nat)])%string.
Proof. vm_compute. reflexivity. Qed.

(** A third port at the meeting point stops the extraction. *)
Example three_ports_stop_the_extraction :
  fst (Netlist.connect_bucket Ortho.find_layer0 [] "1000_0" "1_0"
         [Samples.ip_a; Samples.ip_b; Samples.ip_a] Samples.circuit0)
  = inl (AssertionError
           "Optical connection with more than two ports are not supported").
Proof. vm_compute. reflexivity. Qed.
End NetlistFacts.

(** ** Connectivity diagnostics *)

Module CheckerFacts.
Import Kdb PortModel PyM Checker.

Lemma alter_snoc {A} (f : A -> A) (l : list A) (x : A) :
  alter f (length l) (l ++ [x]) = l ++ [f x].
Proof. induction l; simpl; [reflexivity | f_equal; assumption]. Qed.

Lemma get_category_run (path : string) (db : ReportDatabase) :
  get_category path db = (inr path, mkDb (with_category db path) (items db)).
Proof.
  unfold get_category, with_category.
  destruct (existsb _ _); [destruct db |]; reflexivity.
Qed.


Section Facts.
Variable check_cell_ports : BasePort -> BasePort -> Z.
Variable check_inst_ports : BasePort -> BasePort -> Z.
Variable layer_name : Z -> string.
Variable port_str : BasePort -> string.
Variable trans_to_s : Trans -> string.
Variable self_name : string.
Variable db_cell : string.

Local Abbreviation check_bucket :=
  (check_bucket check_cell_ports check_inst_ports port_str trans_to_s
                self_name db_cell).
Local Abbreviation port_label := (port_label trans_to_s).
Local Abbreviation overlap_entries := (overlap_entries trans_to_s).


End Facts.

(** *** The statements on the sample ports *)


(** The buckets of the checker on the sample ports: the three ports at
    (1000, 0) give one overlap item that names all three, the single port
    at (9000, 0) gives one orphan item, and no mismatch item appears. *)
Example check_buckets_sample :
  check_buckets (fun _ _ => 7) (fun _ _ => 7) (fun l => pretty l)
    (fun _ => "port"%string) (fun _ => "r0"%string) "top" "top"
    [] (Samples.port_named "o2" 0 9000 0)
    [(1, [((1000, 0), Samples.crowd);
          ((9000, 0), [(Samples.port_named "o2" 0 9000 0, "B"%string)])])]
    Samples.db0
  = (inr tt,
     mkDb ["1"; "1.portoverlap"; "1.OrphanPort"]%string
       [mkItem "top" "1.portoverlap"
          [Text "Port Names: A.o2/B.o1/C.o1";
           Polygon 500 (mkTrans 0 false (mkVector 1000 0));
           Polygon 500 (mkTrans 2 false (mkVector 1000 0));
           Polygon 500 (mkTrans 2 false (mkVector 1000 0))];
        mkItem "top" "1.OrphanPort"
          [Text "Port Name: Bo2)";
           Polygon 500 (mkTrans 0 false (mkVector 9000 0))]]).
Proof. vm_compute. reflexivity. Qed.
End CheckerFacts.

(** * Further properties of the modelled code *)

(** ** Grid arithmetic *)

Module GridFacts.
Import Kdb.

Lemma Qround_coord_comp (x y : Q) : (x == y)%Q -> Qround_coord x = Qround_coord y.
Proof.
  intros E. unfold Qround_coord.
  assert (Hle : Qle_bool 0 x = Qle_bool 0 y).
  { destruct (Qle_bool 0 x) eqn:Hx, (Qle_bool 0 y) eqn:Hy; try reflexivity.
    - apply Qle_bool_iff in Hx. rewrite E in Hx. apply Qle_bool_iff in Hx.
      congruence.
    - apply Qle_bool_iff in Hy. rewrite <- E in Hy. apply Qle_bool_iff in Hy.
      congruence. }
  rewrite Hle. destruct (Qle_bool 0 y).
  - apply Qfloor_comp. rewrite E. reflexivity.
  - f_equal. apply Qfloor_comp. rewrite E. reflexivity.
Qed.

Lemma Qfloor_half (z : Z) : Qfloor (inject_Z z + (1 # 2)) = z.
Proof.
  unfold Qfloor, inject_Z, Qplus. cbn.
  symmetry. apply (Z.div_unique (z * 2 + 1) 2 z 1); lia.
Qed.

(** An integer is its own rounding. *)
Lemma Qround_coord_inject (z : Z) : Qround_coord (inject_Z z) = z.
Proof.
  unfold Qround_coord. destruct (Qle_bool 0 (inject_Z z)).
  - apply Qfloor_half.
  - rewrite <- inject_Z_opp, Qfloor_half. lia.
Qed.

(** Going to micrometres and back gives the integer, whatever the positive
    database unit. *)
Lemma round_trip_coord (d : Q) (z : Z) :
  (0 < d)%Q -> Qround_coord (inject_Z z * d / d) = z.
Proof.
  intros Hd. rewrite (Qround_coord_comp _ (inject_Z z)).
  - apply Qround_coord_inject.
  - field. intros E. rewrite E in Hd. apply (Qlt_irrefl 0). exact Hd.
Qed.

Lemma round_trip_vector (d : Q) (v : Vector) :
  (0 < d)%Q -> dv_to_itype d (v_to_dtype d v) = v.
Proof.
  intros Hd. destruct v as [x y]. unfold dv_to_itype, v_to_dtype. cbn.
  rewrite !round_trip_coord by exact Hd. reflexivity.
Qed.

Lemma DVector_eqb_refl (v : DVector) : DVector_eqb v v = true.
Proof. unfold DVector_eqb. rewrite !Qeq_bool_refl. reflexivity. Qed.

(** The complex image of a simple transformation is not complex. *)
Lemma of_trans_not_complex (d : Q) (t : Trans) : is_complex (of_trans d t) = false.
Proof.
  unfold is_complex, of_trans. cbn [mag dangle].
  assert (H : Qeq_bool (Qpymod (inject_Z (90 * (angle t mod 4))) 90) 0 = true).
  { apply Qeq_bool_iff. unfold Qpymod.
    assert (F : Qfloor (inject_Z (90 * (angle t mod 4)) / 90) = angle t mod 4).
    { rewrite (Qfloor_comp _ (inject_Z (angle t mod 4))).
      - apply Qfloor_Z.
      - rewrite inject_Z_mult. field. }
    rewrite F, inject_Z_mult. ring. }
  rewrite H. reflexivity.
Qed.

(** Narrowing the complex image of a simple transformation whose angle is
    one of 0..3 gives the transformation back. *)
Lemma s_trans_of_trans (d : Q) (t : Trans) :
  (0 < d)%Q -> 0 <= angle t < 4 -> s_trans d (of_trans d t) = t.
Proof.
  intros Hd Ha. destruct t as [a m v]. cbn in Ha.
  unfold s_trans, of_trans. cbn [dangle dmirror ddisp angle mirror disp].
  rewrite round_trip_vector by exact Hd.
  f_equal.
  assert (C : a = 0 \/ a = 1 \/ a = 2 \/ a = 3) by lia.
  destruct C as [-> | [-> | [-> | ->]]]; reflexivity.
Qed.
End GridFacts.

(** ** Ports: setters, constructor, copies and checks *)

Module PortLaws.
Import Kdb PortModel PortCtor PortChecks PortOps GridFacts.

(** Assigning to [dcplx_trans] the complex image of a simple transformation
    stores that simple transformation again: on a layout with a positive
    database unit and for an angle among 0..3 the narrowing of the setter
    undoes the widening, the [trans] getter answers the transformation, and
    the complex field is not written. *)
Theorem narrowing_round_trip (b : BasePort) (t : Trans) :
  (0 < dbu (kcl b))%Q ->
  0 <= angle t < 4 ->
  trans (set_dcplx_trans b (of_trans (dbu (kcl b)) t)) = Some t
  /\ get_trans (set_dcplx_trans b (of_trans (dbu (kcl b)) t)) = Some t
  /\ dcplx_trans (set_dcplx_trans b (of_trans (dbu (kcl b)) t))
     = dcplx_trans b.
Proof.
  intros Hd Ha. unfold set_dcplx_trans.
  rewrite of_trans_not_complex. cbn [orb].
  assert (Hs : DVector_eqb (ddisp (of_trans (dbu (kcl b)) t))
                 (snap (dbu (kcl b)) (ddisp (of_trans (dbu (kcl b)) t)))
               = true).
  { unfold snap, of_trans. cbn [ddisp].
    rewrite round_trip_vector by exact Hd. apply DVector_eqb_refl. }
  rewrite Hs. cbn [negb].
  rewrite s_trans_of_trans by assumption.
  unfold get_trans. cbn. repeat split; reflexivity.
Qed.

(** Writing [x] and reading it back gives the value, and [y] reads as
    before; the same for [y].  This holds for a port that stores a simple
    transformation and for one that stores only a complex one, on a layout
    with a positive database unit. *)
Theorem coordinate_setters_round_trip (b : BasePort) (value : Z) :
  (0 < dbu (kcl b))%Q ->
  is_Some (get_trans b) ->
  get_x (set_x b value) = Some value
  /\ get_y (set_x b value) = get_y b
  /\ get_y (set_y b value) = Some value
  /\ get_x (set_y b value) = get_x b.
Proof.
  intros Hd [t Ht]. unfold get_x, get_y, set_x, set_y, get_trans in *.
  destruct (trans b) as [t0 |] eqn:Et.
  - cbn. repeat split; reflexivity.
  - destruct (dcplx_trans b) as [d |] eqn:Ed; [| discriminate].
    cbn [with_dcplx_trans trans dcplx_trans kcl]. rewrite !Et.
    cbn [fmap option_fmap option_map]. unfold s_trans. cbn [ddisp disp vx vy].
    rewrite !round_trip_vector by exact Hd. cbn.
    repeat split; reflexivity.
Qed.

Section Transformed.
Variable dmul : DCplxTrans -> DCplxTrans -> DCplxTrans.

(** [transformed] fails exactly on a port that stores no transformation at
    all. *)
Theorem transformed_fails_iff_empty (b : BasePort) (tr post : AnyTrans) :
  transformed dmul b tr post = None
  <-> trans b = None /\ dcplx_trans b = None.
Proof.
  unfold transformed. cbn [copy_base trans dcplx_trans].
  destruct (trans b) as [t |], (dcplx_trans b) as [d |], tr, post;
    cbn; split; try discriminate; try (intros [? ?]; discriminate); auto.
Qed.

(** A transformed copy keeps the name, the layout, the cross-section, the
    info and the port type of the port and stores a transformation; when one
    of the two arguments is complex, or the port stores no simple
    transformation, the copy stores a complex transformation and no simple
    one. *)
Theorem transformed_result (b b' : BasePort) (tr post : AnyTrans) :
  transformed dmul b tr post = Some b' ->
  name b' = name b /\ kcl b' = kcl b /\ cross_section b' = cross_section b
  /\ info b' = info b /\ port_type b' = port_type b
  /\ (is_Some (trans b') \/ is_Some (dcplx_trans b'))
  /\ (match trans b, tr, post with
      | Some _, Simple _, Simple _ => is_Some (trans b')
      | _, _, _ => trans b' = None /\ is_Some (dcplx_trans b')
      end).
Proof.
  unfold transformed. cbn [copy_base trans dcplx_trans].
  destruct (trans b) as [t |], (dcplx_trans b) as [d |], tr, post;
    cbn; intros [= <-]; cbn; repeat split; eauto.
Qed.
End Transformed.

Lemma tmul_R0_l (t : Trans) : 0 <= angle t < 4 -> tmul R0 t = t.
Proof.
  intros Ha. destruct t as [a m [x y]]. cbn in Ha. unfold tmul, R0, fp_apply.
  cbn. f_equal. apply Z.mod_small. lia.
Qed.

Lemma rot_vec_zero (a : Z) : rot_vec a (mkVector 0 0) = mkVector 0 0.
Proof.
  unfold rot_vec.
  repeat match goal with
         | |- context [match ?x with _ => _ end] => destruct x
         end; reflexivity.
Qed.

Lemma tmul_R0_r (t : Trans) : 0 <= angle t < 4 -> tmul t R0 = t.
Proof.
  intros Ha. destruct t as [a m [x y]]. cbn in Ha. unfold tmul, R0, fp_apply.
  cbn [angle mirror disp vx vy].
  destruct m; change (- 0) with 0; rewrite rot_vec_zero; cbn [vx vy xorb];
    rewrite ?Z.add_0_r, ?Z.sub_0_r, Z.mod_small by lia; reflexivity.
Qed.

(** Turning by 180 degrees on the spot. *)
Lemma tmul_flip (t : Trans) :
  0 <= angle t < 4 ->
  tmul t (mkTrans 2 false (mkVector 0 0))
  = mkTrans ((angle t + 2) mod 4) (mirror t) (disp t).
Proof.
  intros Ha. destruct t as [a m [x y]]. cbn in Ha. unfold tmul, fp_apply.
  cbn [angle mirror disp vx vy].
  assert (C : a = 0 \/ a = 1 \/ a = 2 \/ a = 3) by lia.
  destruct m; change (- 0) with 0; rewrite rot_vec_zero; cbn [vx vy xorb];
    rewrite ?Z.add_0_r; f_equal;
    destruct C as [-> | [-> | [-> | ->]]]; reflexivity.
Qed.

(** [port.copy()] with its default arguments reads the transformation of
    the port, and [port.copy_polar()] with its default arguments reads the
    same position and mirror flag with the angle turned by 180 degrees; the
    source is a port that stores a simple transformation with an angle among
    0..3. *)
Theorem default_copies (dmul : DCplxTrans -> DCplxTrans -> DCplxTrans)
    (h : gmap positive BasePort) (self : positive) (b : BasePort) (t : Trans) :
  h !! self = Some b ->
  trans b = Some t ->
  0 <= angle t < 4 ->
  (exists q h', copy dmul h self (Simple R0) (Simple R0) = Some (q, h')
                /\ read_trans h' q = Some t)
  /\ (exists q h', copy_polar dmul h self 0 0 2 false = Some (q, h')
                   /\ read_trans h' q
                      = Some (mkTrans ((angle t + 2) mod 4) (mirror t) (disp t))).
Proof.
  intros Hb Ht Ha. unfold copy_polar, copy. rewrite Hb. cbn.
  unfold transformed. cbn [copy_base trans]. rewrite Ht.
  split; eexists; eexists; (split; [reflexivity |]);
    unfold read_trans; cbn [base]; rewrite lookup_insert_eq; cbn;
    unfold get_trans; cbn; f_equal.
  - rewrite tmul_R0_l, tmul_R0_r by assumption. reflexivity.
  - rewrite tmul_R0_l by assumption. apply tmul_flip. assumption.
Qed.
End PortLaws.

Module PortLawsWitnesses.
Import Kdb PortModel PortCtor PortOps.

Lemma narrowing_round_trip_witness :
  get_trans (set_dcplx_trans Samples2.complex_port
               (of_trans (1 # 1000) (mkTrans 3 true (mkVector 7 (-2)))))
  = Some (mkTrans 3 true (mkVector 7 (-2))).
Proof.
  apply (PortLaws.narrowing_round_trip Samples2.complex_port
           (mkTrans 3 true (mkVector 7 (-2)))).
  - reflexivity.
  - cbn. lia.
Defined.

Lemma coordinate_setters_round_trip_witness :
  get_x (set_x Samples2.complex_port 7) = Some 7
  /\ get_y (set_x Samples2.complex_port 7) = get_y Samples2.complex_port
  /\ get_y (set_y Samples2.complex_port 7) = Some 7
  /\ get_x (set_y Samples2.complex_port 7) = get_x Samples2.complex_port.
Proof.
  apply (PortLaws.coordinate_setters_round_trip Samples2.complex_port 7).
  - reflexivity.
  - eexists. reflexivity.
Defined.

Lemma transformed_result_witness :
  exists b',
    transformed Ortho.dmul Samples.simple_port (Simple R180)
                (Complex Samples.cplx45) = Some b'
    /\ name b' = Some "o1"%string
    /\ trans b' = None /\ is_Some (dcplx_trans b').
Proof.
  eexists. split; [reflexivity |].
  destruct (PortLaws.transformed_result Ortho.dmul Samples.simple_port _
              (Simple R180) (Complex Samples.cplx45) eq_refl)
    as (Hn & _ & _ & _ & _ & _ & Hc).
  split; [exact Hn | exact Hc].
Defined.

Lemma default_copies_witness :
  (exists q h', copy Ortho.dmul Samples.store1 1%positive (Simple R0) (Simple R0)
                = Some (q, h')
                /\ read_trans h' q = Some (mkTrans 1 false (mkVector 1000 0)))
  /\ (exists q h', copy_polar Ortho.dmul Samples.store1 1%positive 0 0 2 false
                   = Some (q, h')
                   /\ read_trans h' q
                      = Some (mkTrans ((1 + 2) mod 4) false (mkVector 1000 0))).
Proof.
  apply (PortLaws.default_copies Ortho.dmul Samples.store1 1%positive
           Samples.simple_port (mkTrans 1 false (mkVector 1000 0))).
  - reflexivity.
  - reflexivity.
  - cbn. lia.
Defined.
End PortLawsWitnesses.

(** ** The constructor and the compatibility check *)

Module CtorLaws.
Import Kdb PortModel PortCtor PortChecks.

Lemma find_none_of_forallb {A} (f : A -> bool) (l : list A) :
  forallb f l = true -> List.find (fun x => negb (f x)) l = None.
Proof.
  induction l as [| x l IH]; cbn; [reflexivity |].
  destruct (f x); cbn; [exact IH | discriminate].
Qed.

Section Init.
Variable default_kcl : KCLayout.
Variable get_info : Z -> Z * Z.

Local Abbreviation Port_init := (Port_init default_kcl get_info).
Local Abbreviation init_cross_section := (init_cross_section get_info).

(** A port built by the constructor from keyword arguments, without [base]
    and without [port], stores exactly one of the two representations: the
    simple one when [trans] or [angle] is given, the complex one when only
    [dcplx_trans] is; [trans] wins over [dcplx_trans].  It carries the given
    name and layout, the default layout when none is given, and the port
    type [optical] when none is given. *)
Theorem constructor_stores_one_representation
    (kwargs : list (string * PyArg)) (b : BasePort) :
  as_base (kwarg "base" kwargs) = None ->
  as_base (kwarg "port" kwargs) = None ->
  Port_init kwargs = inr b ->
  ((is_Some (trans b) /\ dcplx_trans b = None
    /\ (is_Some (as_trans (kwarg "trans" kwargs))
        \/ is_Some (as_int (kwarg "angle" kwargs))))
   \/ (trans b = None /\ dcplx_trans b = as_dcplx_trans (kwarg "dcplx_trans" kwargs)
       /\ is_Some (dcplx_trans b)
       /\ as_trans (kwarg "trans" kwargs) = None))
  /\ name b = as_str (kwarg "name" kwargs)
  /\ kcl b = default default_kcl (as_kcl (kwarg "kcl" kwargs))
  /\ port_type b = default "optical"%string (as_str (kwarg "port_type" kwargs)).
Proof.
  intros Hbase Hport. unfold PortCtor.Port_init.
  destruct (List.find _ kwargs) as [[kw a] |]; [discriminate |].
  unfold init_body. rewrite Hbase, Hport.
  destruct (PortCtor.init_cross_section get_info kwargs) as [e | cs];
    [discriminate |].
  destruct (as_trans (kwarg "trans" kwargs)) as [t |].
  { intros [= <-]. cbn. split; [left |]; repeat split; eauto. }
  destruct (as_dcplx_trans (kwarg "dcplx_trans" kwargs)) as [d |].
  { intros [= <-]. cbn. split; [right |]; repeat split; eauto. }
  destruct (as_int (kwarg "angle" kwargs)) as [a |]; [| discriminate].
  destruct (as_pair (kwarg "center" kwargs)) as [[x y] |]; [| discriminate].
  intros [= <-]. cbn. split; [left |]; repeat split; eauto.
Qed.

(** The errors of the constructor on keyword arguments it knows, without
    [base] and [port]: no cross-section, layer info or layer is a
    [ValueError]; a layer without a width is a [ValueError]; a resolved
    cross-section without [trans], [dcplx_trans] and [angle] is a
    [ValueError]; an [angle] without [center] is an assertion error. *)
Theorem constructor_errors (kwargs : list (string * PyArg)) :
  forallb (fun kv => is_parameter (fst kv)) kwargs = true ->
  as_base (kwarg "base" kwargs) = None ->
  as_base (kwarg "port" kwargs) = None ->
  as_cross_section (kwarg "cross_section" kwargs) = None ->
  match as_layer_info (kwarg "layer_info" kwargs),
        as_int (kwarg "layer" kwargs), as_int (kwarg "width" kwargs) with
  | None, None, _ =>
      Port_init kwargs
      = inl (ValueError "layer or layer_info for a port must be defined")
  | _, _, None =>
      Port_init kwargs
      = inl (ValueError
               "any width and layer, or a cross_section must be given if the 'port is None'")
  | _, _, Some _ =>
      match as_trans (kwarg "trans" kwargs),
            as_dcplx_trans (kwarg "dcplx_trans" kwargs),
            as_int (kwarg "angle" kwargs), as_pair (kwarg "center" kwargs) with
      | None, None, None, _ =>
          Port_init kwargs = inl (ValueError "Missing port parameters given")
      | None, None, Some _, None =>
          exists msg, Port_init kwargs = inl (AssertionError msg)
      | _, _, _, _ => exists b, Port_init kwargs = inr b
      end
  end.
Proof.
  intros Hk Hbase Hport Hcs. unfold PortCtor.Port_init.
  rewrite (find_none_of_forallb _ _ Hk).
  unfold init_body, PortCtor.init_cross_section. rewrite Hbase, Hport, Hcs.
  destruct (as_layer_info (kwarg "layer_info" kwargs)) as [li |],
           (as_int (kwarg "layer" kwargs)) as [l |],
           (as_int (kwarg "width" kwargs)) as [w |];
    try reflexivity;
    destruct (as_trans (kwarg "trans" kwargs)) as [t |],
             (as_dcplx_trans (kwarg "dcplx_trans" kwargs)) as [d |],
             (as_int (kwarg "angle" kwargs)) as [a |],
             (as_pair (kwarg "center" kwargs)) as [[x y] |];
    try reflexivity; eexists; reflexivity.
Qed.
End Init.

Lemma constructor_stores_one_representation_witness :
  exists b,
    PortCtor.Port_init Ortho.kcl0 Ortho.get_info0 Samples2.both_kwargs = inr b
    /\ trans b = Some R180 /\ dcplx_trans b = None.
Proof.
  eexists. split; [reflexivity |].
  destruct (constructor_stores_one_representation Ortho.kcl0 Ortho.get_info0
              Samples2.both_kwargs _ eq_refl eq_refl eq_refl)
    as [[(_ & Hd & _) | (Ht & _)] _].
  - split; [reflexivity | exact Hd].
  - discriminate Ht.
Defined.

Lemma constructor_errors_witness :
  PortCtor.Port_init Ortho.kcl0 Ortho.get_info0 Samples2.bare_kwargs
  = inl (ValueError "Missing port parameters given").
Proof.
  exact (constructor_errors Ortho.kcl0 Ortho.get_info0 Samples2.bare_kwargs
           eq_refl eq_refl eq_refl eq_refl).
Defined.

Section Check.
Variable find_layer : Z * Z -> Z.

(** [port_check] passes exactly when both ports have a transformation, the
    transformations are opposite (with the flag [opposite]) or overlapping
    (without it), and every further property whose flag is set agrees.  No
    choice of flags skips the comparison of the transformations. *)
Theorem port_check_passes_iff (p1 p2 : BasePort) (checks : Z) :
  port_check find_layer p1 p2 checks = inr tt
  <-> exists t1 t2,
        get_trans p1 = Some t1 /\ get_trans p2 = Some t2
        /\ (if flag checks opposite
            then Trans_eqb t1 (tmul t2 R180) || Trans_eqb t1 (tmul t2 M90)
            else Trans_eqb t1 t2 || Trans_eqb t1 (tmul t2 M0)) = true
        /\ implb (flag checks width_)
                 (width (cross_section p1) =? width (cross_section p2)) = true
        /\ implb (flag checks layer_)
                 (layer find_layer p1 =? layer find_layer p2) = true
        /\ implb (flag checks port_type_)
                 (String.eqb (port_type p1) (port_type p2)) = true.
Proof.
  unfold port_check.
  destruct (get_trans p1) as [t1 |];
    [| split; [discriminate | intros (? & ? & [=] & _)]].
  destruct (get_trans p2) as [t2 |];
    [| split; [discriminate | intros (? & ? & _ & [=] & _)]].
  cbn [trans_is].
  split.
  - intros H. exists t1, t2. split; [reflexivity |]. split; [reflexivity |].
    destruct (flag checks opposite);
      [destruct (Trans_eqb t1 (tmul t2 R180) || Trans_eqb t1 (tmul t2 M90))
      | destruct (Trans_eqb t1 t2 || Trans_eqb t1 (tmul t2 M0))];
      cbn in H; try discriminate;
      (split; [reflexivity |]);
      destruct (flag checks width_);
      try (destruct (width (cross_section p1) =? width (cross_section p2));
           cbn in H; try discriminate);
      (split; [reflexivity |]);
      destruct (flag checks layer_);
      try (destruct (layer find_layer p1 =? layer find_layer p2);
           cbn in H; try discriminate);
      (split; [reflexivity |]);
      destruct (flag checks port_type_);
      try (destruct (String.eqb (port_type p1) (port_type p2));
           cbn in H; try discriminate);
      reflexivity.
  - intros (u1 & u2 & [= <-] & [= <-] & Ht & Hw & Hl & Hp).
    destruct (flag checks opposite); rewrite Ht; cbn;
      destruct (flag checks width_); cbn in Hw; rewrite ?Hw; cbn;
      destruct (flag checks layer_); cbn in Hl; rewrite ?Hl; cbn;
      destruct (flag checks port_type_); cbn in Hp; rewrite ?Hp; cbn;
      reflexivity.
Qed.
End Check.
End CtorLaws.

(** ** Buckets *)

Module DictLaws.
Section WithKeys.
Context {K V : Type} (eqb : K -> K -> bool).
Hypothesis eqb_eq : forall a b, eqb a b = true <-> a = b.

Lemma eqb_refl (k : K) : eqb k k = true.
Proof. apply eqb_eq. reflexivity. Qed.

Lemma eqb_ne (a b : K) : a <> b -> eqb a b = false.
Proof.
  intros H. destruct (eqb a b) eqn:E; [| reflexivity].
  apply eqb_eq in E. contradiction.
Qed.

Lemma get_set_eq (k : K) (v : V) (d : list (K * V)) :
  Dict.get eqb k (Dict.set eqb k v d) = Some v.
Proof.
  induction d as [| [k' v'] d IH]; cbn.
  - rewrite eqb_refl. reflexivity.
  - destruct (eqb k' k) eqn:E; cbn; rewrite E; [reflexivity | exact IH].
Qed.

Lemma get_set_ne (k k' : K) (v : V) (d : list (K * V)) :
  k <> k' -> Dict.get eqb k' (Dict.set eqb k v d) = Dict.get eqb k' d.
Proof.
  intros Hne. induction d as [| [k0 v0] d IH]; cbn.
  - rewrite eqb_ne by exact Hne. reflexivity.
  - destruct (eqb k0 k) eqn:E; cbn.
    + apply eqb_eq in E. subst k0. rewrite eqb_ne by exact Hne. reflexivity.
    + destruct (eqb k0 k'); [reflexivity | exact IH].
Qed.
End WithKeys.

Section TwoLevels.
Context {K1 K2 V : Type} (eqb1 : K1 -> K1 -> bool) (eqb2 : K2 -> K2 -> bool).
Hypothesis eqb1_eq : forall a b, eqb1 a b = true <-> a = b.
Hypothesis eqb2_eq : forall a b, eqb2 a b = true <-> a = b.

(** After [d[h][layer].append(x)] the bucket at [(h, layer)] is the old
    bucket, empty when there was none, with [x] at its end. *)
Lemma get2_add2_eq (h : K1) (layer : K2) (x : V)
    (d : list (K1 * list (K2 * list V))) :
  Dict.get2 eqb1 eqb2 h layer (Dict.add2 eqb1 eqb2 h layer x d)
  = Some (default [] (Dict.get2 eqb1 eqb2 h layer d) ++ [x]).
Proof.
  unfold Dict.get2, Dict.add2.
  rewrite (get_set_eq eqb1 eqb1_eq). cbn.
  rewrite (get_set_eq eqb2 eqb2_eq).
  destruct (Dict.get eqb1 h d); reflexivity.
Qed.

(** Every other bucket is as before. *)
Lemma get2_add2_ne (h h' : K1) (layer layer' : K2) (x : V)
    (d : list (K1 * list (K2 * list V))) :
  (h, layer) <> (h', layer') ->
  Dict.get2 eqb1 eqb2 h' layer' (Dict.add2 eqb1 eqb2 h layer x d)
  = Dict.get2 eqb1 eqb2 h' layer' d.
Proof.
  intros Hne. unfold Dict.get2, Dict.add2.
  destruct (eqb1 h h') eqn:E1.
  - apply eqb1_eq in E1. subst h'.
    rewrite (get_set_eq eqb1 eqb1_eq). cbn.
    assert (Hl : layer <> layer') by congruence.
    rewrite (get_set_ne eqb2 eqb2_eq) by exact Hl.
    destruct (Dict.get eqb1 h d); reflexivity.
  - assert (Hh : h <> h').
    { intros ->. rewrite (eqb_refl eqb1 eqb1_eq) in E1. discriminate. }
    rewrite (get_set_ne eqb1 eqb1_eq) by exact Hh. reflexivity.
Qed.
End TwoLevels.
End DictLaws.

(** ** Netlist extraction: buckets, name collisions, boundary ports *)

Module NetlistLaws.
Import Kdb PortModel PortChecks PyM Netlist.

Lemma string_eqb_eq (a b : string) : String.eqb a b = true <-> a = b.
Proof. apply String.eqb_eq. Qed.

Section Laws.
Variable find_layer : Z * Z -> Z.
Variable get_info : Z -> Z * Z.
Variable port_types : list string.

Local Abbreviation bucket_keys := (bucket_keys find_layer get_info).
Local Abbreviation sort_inst_ports := (sort_inst_ports find_layer get_info).
Local Abbreviation sort_cell_ports := (sort_cell_ports find_layer get_info).
Local Abbreviation connect_bucket := (connect_bucket find_layer).

(** The test "this numbered port belongs to the bucket [(h, layer)]". *)
Local Abbreviation in_bucket := (fun (h layer : string) (jp : nat * BasePort) =>
  match Netlist.bucket_keys find_layer get_info (snd jp) with
  | inr (h', layer') => String.eqb h' h && String.eqb layer' layer
  | inl _ => false
  end).

(** Sorting the ports of an instance into the buckets puts every port at
    the end of the bucket of its position and layer and nowhere else: after
    it, each bucket holds what it held before followed by the ports of the
    instance with that position and layer, in the order of the instance. *)
Theorem sort_inst_ports_buckets (i : nat) (inst : Instance) (subc : nat)
    (l : list (nat * BasePort))
    (d d' : list (string * list (string * list InstPort))) :
  sort_inst_ports i inst subc l d = inr d' ->
  forall h layer,
    default [] (Dict.get2 String.eqb String.eqb h layer d')
    = default [] (Dict.get2 String.eqb String.eqb h layer d)
      ++ map (fun jp => mkInstPort i (fst jp) inst (snd jp) subc)
             (List.filter (in_bucket h layer) l).
Proof.
  revert d. induction l as [| [j p] l IH]; intros d Hrun h layer.
  - cbn in Hrun. injection Hrun as <-. cbn. rewrite app_nil_r. reflexivity.
  - cbn [Netlist.sort_inst_ports] in Hrun. cbn [List.filter snd].
    destruct (Netlist.bucket_keys find_layer get_info p) as [e | [h0 l0]] eqn:Ek;
      [discriminate |].
    rewrite (IH _ Hrun h layer).
    destruct (String.eqb h0 h && String.eqb l0 layer) eqn:E.
    + apply andb_prop in E as [E1 E2].
      apply String.eqb_eq in E1, E2. subst h0 l0.
      rewrite (DictLaws.get2_add2_eq String.eqb String.eqb
                 string_eqb_eq string_eqb_eq).
      cbn. rewrite <- app_assoc. reflexivity.
    + rewrite (DictLaws.get2_add2_ne String.eqb String.eqb
                 string_eqb_eq string_eqb_eq); [reflexivity |].
      intros [= -> ->]. rewrite !String.eqb_refl in E. discriminate.
Qed.

(** No bucket that the sorting makes is empty. *)
Theorem sort_inst_ports_nonempty (i : nat) (inst : Instance) (subc : nat)
    (l : list (nat * BasePort))
    (d d' : list (string * list (string * list InstPort))) :
  sort_inst_ports i inst subc l d = inr d' ->
  (forall h layer, Dict.get2 String.eqb String.eqb h layer d <> Some []) ->
  forall h layer, Dict.get2 String.eqb String.eqb h layer d' <> Some [].
Proof.
  revert d. induction l as [| [j p] l IH]; intros d Hrun Hd h layer.
  - cbn in Hrun. injection Hrun as <-. apply Hd.
  - cbn [Netlist.sort_inst_ports] in Hrun.
    destruct (Netlist.bucket_keys find_layer get_info p) as [e | [h0 l0]];
      [discriminate |].
    apply (IH _ Hrun). intros h1 l1.
    destruct (String.eqb h0 h1 && String.eqb l0 l1) eqn:E.
    + apply andb_prop in E as [E1 E2].
      apply String.eqb_eq in E1, E2. subst h0 l0.
      rewrite (DictLaws.get2_add2_eq String.eqb String.eqb
                 string_eqb_eq string_eqb_eq).
      intros [= H]. destruct (default [] _); discriminate.
    + rewrite (DictLaws.get2_add2_ne String.eqb String.eqb
                 string_eqb_eq string_eqb_eq); [apply Hd |].
      intros [= -> ->]. rewrite !String.eqb_refl in E. discriminate.
Qed.

Lemma bucket_keys_ok (p : BasePort) :
  is_Some (get_trans p) -> exists hl, bucket_keys p = inr hl.
Proof.
  intros [t Ht]. unfold Netlist.bucket_keys. rewrite Ht. eauto.
Qed.

Local Abbreviation collision :=
  (ValueError "Netlist extraction is not possible with colliding port names.").

(** A port whose name is already taken stops the sorting of the boundary
    ports. *)
Lemma sort_cell_ports_taken (l : list (nat * BasePort)) :
  Forall (fun ip => is_Some (get_trans (snd ip))) l ->
  forall (names : list string)
         (d : list (string * list (string * list (nat * BasePort)))) (n : string),
  In n names ->
  Exists (fun ip => name (snd ip) = Some n) l ->
  sort_cell_ports l names d = inl collision.
Proof.
  induction 1 as [| [i p] l Hp _ IH]; intros names d n Hn Hex.
  - inversion Hex.
  - cbn [Netlist.sort_cell_ports].
    destruct (bucket_keys_ok p Hp) as [[h layer] ->].
    destruct (match name p with
              | Some n0 => existsb (String.eqb n0) names
              | None => false
              end) eqn:Etaken; [reflexivity |].
    apply (IH _ _ n).
    + destruct (name p) as [n0 |]; [| exact Hn].
      destruct (String.eqb n0 ""); [exact Hn |].
      apply in_or_app. left. exact Hn.
    + inversion Hex as [? ? Hhead | ? ? Htail]; subst; [| exact Htail].
      cbn in Hhead. rewrite Hhead in Etaken.
      assert (Ht : existsb (String.eqb n) names = true).
      { apply existsb_exists. exists n. split; [exact Hn |].
        apply String.eqb_refl. }
      congruence.
Qed.

(** Two boundary ports of the selected types that carry the same name, not
    empty, make the extraction fail with a [ValueError], provided every
    selected boundary port has a transformation. *)
Theorem colliding_port_names (l1 l2 : list (nat * BasePort))
    (i : nat) (p : BasePort) (n : string) (names : list string)
    (d : list (string * list (string * list (nat * BasePort)))) :
  Forall (fun ip => is_Some (get_trans (snd ip))) (l1 ++ (i, p) :: l2) ->
  name p = Some n ->
  n <> ""%string ->
  Exists (fun ip => name (snd ip) = Some n) l2 ->
  exists msg,
    sort_cell_ports (l1 ++ (i, p) :: l2) names d = inl (ValueError msg).
Proof.
  intros Hall Hp Hne Hex.
  exists "Netlist extraction is not possible with colliding port names."%string.
  revert names d.
  induction l1 as [| [j q] l1 IH]; intros names d.
  - cbn [app Netlist.sort_cell_ports].
    apply Forall_cons_iff in Hall as [Hp0 Hl2]. cbn in Hp0.
    destruct (bucket_keys_ok p Hp0) as [[h layer] ->].
    rewrite Hp.
    destruct (existsb (String.eqb n) names); [reflexivity |].
    apply String.eqb_neq in Hne. rewrite Hne.
    apply (sort_cell_ports_taken l2 Hl2 _ _ n); [| exact Hex].
    apply in_or_app. right. left. reflexivity.
  - cbn [app Netlist.sort_cell_ports].
    apply Forall_cons_iff in Hall as [Hq Hrest]. cbn in Hq.
    destruct (bucket_keys_ok q Hq) as [[h layer] ->].
    destruct (match name q with
              | Some n0 => existsb (String.eqb n0) names
              | None => false
              end); [reflexivity |].
    apply (IH Hrest).
Qed.

(** An instance bucket at a position and layer where the cell has a
    boundary bucket: two or more boundary ports there, or a number of
    instance ports other than one, stop the extraction with an assertion
    error and leave the circuit as it is; one boundary port and one instance
    port go through [port_check] with [all_overlap], and when it passes the
    pin of the instance port is connected to the net that carries the name
    of the boundary port, no net being created. *)
Theorem matched_instance_bucket
    (cell_ports : list (string * list (string * list (nat * BasePort))))
    (h layer_ : string) (cellports : list (nat * BasePort))
    (ports : list InstPort) (k : Circuit) :
  Dict.get2 String.eqb String.eqb h layer_ cell_ports = Some cellports ->
  match cellports, ports with
  | [cp], [ip] =>
      (forall e, port_check find_layer (snd cp) (ip_port ip) all_overlap = inl e ->
                 connect_bucket cell_ports h layer_ ports k = (inl e, k))
      /\ (forall n,
            port_check find_layer (snd cp) (ip_port ip) all_overlap = inr tt ->
            index_of (str_or (name (snd cp)) (pretty (fst cp))) (nets k) 0
            = Some n ->
            connect_bucket cell_ports h layer_ ports k
            = (inr tt, with_connections k [(ip_subc ip, pin_name ip, n)]))
  | [cp], _ =>
      exists msg,
        connect_bucket cell_ports h layer_ ports k
        = (inl (AssertionError msg), k)
  | _, _ =>
      connect_bucket cell_ports h layer_ ports k
      = (inl (AssertionError
                "Netlists with directly connect cell ports are currently not supported"),
         k)
  end.
Proof.
  intros Hget. unfold Netlist.connect_bucket. rewrite Hget.
  unfold connect_to_cell_port.
  destruct cellports as [| cp [| cp' cps]]; [reflexivity | | reflexivity].
  destruct ports as [| ip [| ip' ips]];
    [eexists; reflexivity | | eexists; reflexivity].
  split.
  - intros e He. unfold bind, lift. rewrite He. reflexivity.
  - intros n Hok Hn. unfold bind, lift, net_by_name. rewrite Hok, Hn.
    reflexivity.
Qed.
End Laws.
End NetlistLaws.

Module NetlistLawsWitnesses.
Import Kdb PortModel PortChecks PyM Netlist.

Lemma sort_inst_ports_buckets_witness :
  exists d',
    sort_inst_ports Ortho.find_layer0 Ortho.get_info0 0 Samples.s1 0
      (enumerate_from 0 (ports_of Samples.s1)) [] = inr d'
    /\ default [] (Dict.get2 String.eqb String.eqb "1000_0" "1_0" d')
       = [Samples.ip_a].
Proof.
  eexists. split; [reflexivity |].
  exact (NetlistLaws.sort_inst_ports_buckets Ortho.find_layer0 Ortho.get_info0
           0 Samples.s1 0 (enumerate_from 0 (ports_of Samples.s1)) [] _
           eq_refl "1000_0" "1_0").
Defined.

Lemma sort_inst_ports_nonempty_witness :
  exists d',
    sort_inst_ports Ortho.find_layer0 Ortho.get_info0 0 Samples.s1 0
      (enumerate_from 0 (ports_of Samples.s1)) [] = inr d'
    /\ Dict.get2 String.eqb String.eqb "0_0" "1_0" d' <> Some [].
Proof.
  eexists. split; [reflexivity |].
  apply (NetlistLaws.sort_inst_ports_nonempty Ortho.find_layer0
           Ortho.get_info0 0 Samples.s1 0
           (enumerate_from 0 (ports_of Samples.s1)) [] _ eq_refl).
  intros h layer. cbn. discriminate.
Defined.

Lemma colliding_port_names_witness :
  exists msg,
    sort_cell_ports Ortho.find_layer0 Ortho.get_info0
      [(0%nat, Samples.port_named "o1" 2 0 0);
       (1%nat, Samples.port_named "o2" 0 5 0);
       (2%nat, Samples.port_named "o1" 0 9 0)] [] []
    = inl (ValueError msg).
Proof.
  apply (NetlistLaws.colliding_port_names Ortho.find_layer0 Ortho.get_info0
           [] [(1%nat, Samples.port_named "o2" 0 5 0);
               (2%nat, Samples.port_named "o1" 0 9 0)]
           0%nat (Samples.port_named "o1" 2 0 0) "o1" [] []).
  - repeat constructor; eexists; reflexivity.
  - reflexivity.
  - discriminate.
  - apply Exists_cons_tl, Exists_cons_hd. reflexivity.
Defined.

Lemma matched_instance_bucket_witness :
  exists msg,
    connect_bucket Ortho.find_layer0
      [("0_0", [("1_0", [(0%nat, Samples.port_named "o1" 2 0 0)])])]%string
      "0_0" "1_0"
      [mkInstPort 0 0 Samples.s1 (Samples.port_named "o1" 2 0 0) 0;
       mkInstPort 1 0 Samples.s2 (Samples.port_named "o1" 2 0 0) 1]
      (with_net Samples.circuit0 "o1")
    = (inl (AssertionError msg), with_net Samples.circuit0 "o1").
Proof.
  exact (NetlistLaws.matched_instance_bucket Ortho.find_layer0
           [("0_0", [("1_0", [(0%nat, Samples.port_named "o1" 2 0 0)])])]%string
           "0_0" "1_0" [(0%nat, Samples.port_named "o1" 2 0 0)]
           [mkInstPort 0 0 Samples.s1 (Samples.port_named "o1" 2 0 0) 0;
            mkInstPort 1 0 Samples.s2 (Samples.port_named "o1" 2 0 0) 1]
           (with_net Samples.circuit0 "o1") eq_refl).
Defined.
End NetlistLawsWitnesses.

(** ** Connectivity check: mismatch reports and buckets *)

Module CheckerLaws.
Import Kdb PortModel PortChecks PyM Checker CheckerBuild CheckerItems.

Lemma Zpair_eqb_eq (a b : Z * Z) : Zpair_eqb a b = true <-> a = b.
Proof.
  destruct a as [a1 a2], b as [b1 b2]. unfold Zpair_eqb. cbn.
  rewrite andb_true_iff, !Z.eqb_eq. split; [intros [-> ->] | intros [= -> ->]]; auto.
Qed.

Lemma Z_eqb_eq (a b : Z) : Z.eqb a b = true <-> a = b.
Proof. apply Z.eqb_eq. Qed.

(** The three branches of the bucket update are the one update
    [d[layer][xy].append(x)] of a dict of dicts of lists. *)
Lemma add_entry_add2 (layer_ : Z) (xy : Z * Z) (x : BasePort * string)
    (d : list (Z * list (Z * Z * list (BasePort * string)))) :
  add_entry layer_ xy x d = Dict.add2 Z.eqb Zpair_eqb layer_ xy x d.
Proof.
  unfold add_entry, Dict.add2.
  destruct (Dict.get Z.eqb layer_ d) as [at_layer |]; cbn; [| reflexivity].
  destruct (Dict.get Zpair_eqb xy at_layer); reflexivity.
Qed.

Section Laws.
Variable check_cell_ports : BasePort -> BasePort -> Z.
Variable check_inst_ports : BasePort -> BasePort -> Z.
Variable layer_name : Z -> string.
Variable port_str : BasePort -> string.
Variable trans_to_s : Trans -> string.
Variable self_name : string.
Variable db_cell : string.

Local Abbreviation check_bucket :=
  (check_bucket check_cell_ports check_inst_ports port_str trans_to_s
                self_name db_cell).
Local Abbreviation create_port_error := (create_port_error db_cell).
Local Abbreviation report_mismatches := (report_mismatches db_cell).

(** One mismatch item for two ports that have a transformation. *)
Lemma create_port_error_run (p1 p2 : BasePort) (c1 c2 cat : string)
    (t1 t2 : Trans) (db : ReportDatabase) :
  get_trans p1 = Some t1 ->
  get_trans p2 = Some t2 ->
  create_port_error p1 p2 c1 c2 cat db
  = (inr tt,
     mkDb (categories db)
          (items db ++ [mkItem db_cell cat (error_values p1 p2 c1 c2 t1 t2)])).
Proof.
  intros H1 H2. unfold Checker.create_port_error, bind, error_values.
  unfold create_item at 1. cbn [items categories].
  unfold port_marker. rewrite H1, H2. unfold lift.
  destruct (negb (String.eqb (str_or (name p1) "") "")
            && negb (String.eqb (str_or (name p2) "") ""));
    unfold add_value, ret; cbn [items categories];
    rewrite !CheckerFacts.alter_snoc; cbn [item_cell category values app];
    reflexivity.
Qed.

(** One stage of the mismatch report. *)
Lemma mismatch_stage (b : bool) (path : string) (p1 p2 : BasePort)
    (c1 c2 : string) (t1 t2 : Trans) (db : ReportDatabase) :
  get_trans p1 = Some t1 ->
  get_trans p2 = Some t2 ->
  exists cats,
    (if b then
       subc <- get_category path ;;
       create_port_error p1 p2 c1 c2 subc
     else ret tt) db
    = (inr tt,
       mkDb cats
            (items db
             ++ (if b
                 then [mkItem db_cell path (error_values p1 p2 c1 c2 t1 t2)]
                 else []))).
Proof.
  intros H1 H2. destruct b.
  - unfold bind. rewrite CheckerFacts.get_category_run.
    rewrite (create_port_error_run _ _ _ _ _ t1 t2) by assumption.
    cbn [items categories]. eexists. reflexivity.
  - exists (categories db). rewrite app_nil_r. destruct db. reflexivity.
Qed.

(** The mismatch reports of a pair: one item per flag, in order. *)
Lemma report_mismatches_run (flags : Z) (lc : string) (p1 p2 : BasePort)
    (c1 c2 : string) (t1 t2 : Trans) (db : ReportDatabase) :
  get_trans p1 = Some t1 ->
  get_trans p2 = Some t2 ->
  exists cats,
    report_mismatches flags lc p1 p2 c1 c2 db
    = (inr tt,
       mkDb cats
            (items db ++ mismatch_items db_cell lc flags p1 p2 c1 c2 t1 t2)).
Proof.
  intros H1 H2.
  unfold Checker.report_mismatches, mismatch_items, flagged.
  destruct (mismatch_stage (negb (Z.land flags 1 =? 0))
              (lc +:+ ".WidthMismatch") p1 p2 c1 c2 t1 t2 db H1 H2)
    as [cats1 E1].
  unfold bind at 1. rewrite E1. set (db1 := mkDb cats1 _).
  destruct (mismatch_stage (negb (Z.land flags 2 =? 0))
              (lc +:+ ".AngleMismatch") p1 p2 c1 c2 t1 t2 db1 H1 H2)
    as [cats2 E2].
  unfold bind at 1. rewrite E2. set (db2 := mkDb cats2 _).
  destruct (mismatch_stage (negb (Z.land flags 4 =? 0))
              (lc +:+ ".TypeMismatch") p1 p2 c1 c2 t1 t2 db2 H1 H2)
    as [cats3 E3].
  rewrite E3. exists cats3. subst db2 db1. cbn [items]. f_equal. f_equal.
  rewrite <- !app_assoc, !map_app. f_equal.
  destruct (negb (Z.land flags 1 =? 0)), (negb (Z.land flags 2 =? 0)),
           (negb (Z.land flags 4 =? 0)); reflexivity.
Qed.

(** Without any flag nothing is written, whether or not the ports have a
    transformation. *)
Lemma report_mismatches_none (lc : string) (p1 p2 : BasePort)
    (c1 c2 : string) (db : ReportDatabase) :
  report_mismatches 0 lc p1 p2 c1 c2 db = (inr tt, db).
Proof. reflexivity. Qed.

(** Two instance ports at a place without boundary port, both with a
    transformation: the check returns, and what it adds to the report is one
    item for every mismatch that [check_inst_ports] flags, in the order
    width, angle, type, each in its own category under the layer and each
    with the markers of both ports.  When nothing is flagged the database is
    exactly as before. *)
Theorem pair_reports_flagged_mismatches
    (cell_ports : list (Z * list (Z * Z * list BasePort)))
    (port : BasePort) (layer : Z) (lc : string) (coord : Z * Z)
    (p0 p1 : BasePort) (c0 c1 : string) (t0 t1 : Trans)
    (db : ReportDatabase) :
  Dict.get2 Z.eqb Zpair_eqb layer coord cell_ports = None ->
  get_trans p0 = Some t0 ->
  get_trans p1 = Some t1 ->
  (exists cats,
     check_bucket cell_ports port layer lc coord [(p0, c0); (p1, c1)] db
     = (inr tt,
        mkDb cats
             (items db
              ++ mismatch_items db_cell lc (check_inst_ports p0 p1)
                                p0 p1 c0 c1 t0 t1)))
  /\ (check_inst_ports p0 p1 = 0 ->
      check_bucket cell_ports port layer lc coord [(p0, c0); (p1, c1)] db
      = (inr tt, db)).
Proof.
  intros Hnone H0 H1. unfold Checker.check_bucket. rewrite Hnone.
  split.
  - destruct (report_mismatches_run (check_inst_ports p0 p1) lc p0 p1 c0 c1
                t0 t1 db H0 H1) as [cats Hrun].
    exists cats. unfold bind. rewrite Hrun. reflexivity.
  - intros ->. unfold bind. rewrite report_mismatches_none. reflexivity.
Qed.

(** One instance port at the place of a boundary port, both with a
    transformation: the check returns and adds one item for every mismatch
    that [check_cell_ports] flags between the boundary port and the instance
    port, and nothing when none is flagged; it never reports the port as an
    orphan. *)
Theorem port_at_boundary_reports_flagged_mismatches
    (cell_ports : list (Z * list (Z * Z * list BasePort)))
    (port : BasePort) (layer : Z) (lc : string) (coord : Z * Z)
    (p0 cp : BasePort) (cps : list BasePort) (c0 : string) (t0 tc : Trans)
    (db : ReportDatabase) :
  Dict.get2 Z.eqb Zpair_eqb layer coord cell_ports = Some (cp :: cps) ->
  get_trans p0 = Some t0 ->
  get_trans cp = Some tc ->
  (exists cats,
     check_bucket cell_ports port layer lc coord [(p0, c0)] db
     = (inr tt,
        mkDb cats
             (items db
              ++ mismatch_items db_cell lc (check_cell_ports cp p0)
                                p0 cp c0 self_name t0 tc)))
  /\ (check_cell_ports cp p0 = 0 ->
      check_bucket cell_ports port layer lc coord [(p0, c0)] db
      = (inr tt, db)).
Proof.
  intros Hget H0 Hc. unfold Checker.check_bucket. rewrite Hget.
  split.
  - apply report_mismatches_run; assumption.
  - intros ->. apply report_mismatches_none.
Qed.

(** *** What the check never raises *)

Local Abbreviation no_value_error r :=
  (forall msg : string, r <> inl (ValueError msg)).

Lemma nve_inl {A B} (e : PyError) :
  no_value_error (@inl PyError A e) -> no_value_error (@inl PyError B e).
Proof. intros H msg [= ->]. apply (H msg). reflexivity. Qed.

Lemma nve_bind {A B} (m : M ReportDatabase A) (k : A -> M ReportDatabase B) :
  (forall w, no_value_error (fst (m w))) ->
  (forall a w, no_value_error (fst (k a w))) ->
  forall w, no_value_error (fst (bind m k w)).
Proof.
  intros Hm Hk w. unfold bind.
  specialize (Hm w). destruct (m w) as [[e | a] w'].
  - cbn in *. exact (nve_inl e Hm).
  - apply Hk.
Qed.

Lemma nve_for_each {A} (l : list A) (f : A -> M ReportDatabase unit) :
  (forall x, In x l -> forall w, no_value_error (fst (f x w))) ->
  forall w, no_value_error (fst (Checker.for_each l f w)).
Proof.
  induction l as [| x l IH]; intros Hf w.
  - cbn. discriminate.
  - cbn [Checker.for_each]. apply nve_bind.
    + apply Hf. left. reflexivity.
    + intros _ w'. apply IH. intros y Hy. apply Hf. right. exact Hy.
Qed.

Lemma nve_lift {A} (r : PyError + A) :
  no_value_error r -> forall w : ReportDatabase, no_value_error (fst (lift r w)).
Proof. intros H w. exact H. Qed.

Lemma nve_port_marker (p : BasePort) : no_value_error (port_marker p).
Proof. unfold port_marker. destruct (get_trans p); discriminate. Qed.

Lemma nve_port_label (k : string) (p : BasePort) :
  no_value_error (port_label trans_to_s k p).
Proof.
  unfold port_label.
  destruct (name p) as [n |]; [destruct (String.eqb n "") |];
    destruct (get_trans p); discriminate.
Qed.

Lemma nve_overlap_entries (ports : list (BasePort * string)) :
  forall text vals,
    no_value_error (overlap_entries trans_to_s ports text vals).
Proof.
  induction ports as [| [p k] ports IH]; intros text vals; cbn.
  - discriminate.
  - pose proof (nve_port_label k p) as Hl.
    destruct (port_label trans_to_s k p) as [e | l]; [exact (nve_inl e Hl) |].
    pose proof (nve_port_marker p) as Hm.
    destruct (port_marker p) as [e | m]; [exact (nve_inl e Hm) |].
    apply IH.
Qed.

Lemma nve_get_category (path : string) (w : ReportDatabase) :
  no_value_error (fst (get_category path w)).
Proof. rewrite CheckerFacts.get_category_run. discriminate. Qed.

Lemma nve_add_value (it : nat) (v : RdbValue) (w : ReportDatabase) :
  no_value_error (fst (add_value it v w)).
Proof. discriminate. Qed.

Lemma nve_create_port_error (p1 p2 : BasePort) (c1 c2 cat : string)
    (w : ReportDatabase) :
  no_value_error (fst (create_port_error p1 p2 c1 c2 cat w)).
Proof.
  revert w. unfold Checker.create_port_error.
  apply nve_bind; [discriminate |]. intros it.
  apply nve_bind.
  { intros w. destruct (_ && _); [apply nve_add_value | discriminate]. }
  intros _. apply nve_bind; [apply nve_lift, nve_port_marker |].
  intros m1. apply nve_bind; [apply nve_add_value |].
  intros _. apply nve_bind; [apply nve_lift, nve_port_marker |].
  intros m2. apply nve_add_value.
Qed.

Lemma nve_report_mismatches (flags : Z) (lc : string) (p1 p2 : BasePort)
    (c1 c2 : string) (w : ReportDatabase) :
  no_value_error (fst (report_mismatches flags lc p1 p2 c1 c2 w)).
Proof.
  revert w. unfold Checker.report_mismatches.
  repeat (apply nve_bind; [| intros _]);
    intros w; destruct (negb _);
    try discriminate;
    revert w; (apply nve_bind; [apply nve_get_category |]);
    intros subc w; apply nve_create_port_error.
Qed.

Lemma nve_report_orphan (lc : string) (port p0 : BasePort) (c0 : string)
    (w : ReportDatabase) :
  no_value_error
    (fst (report_orphan port_str db_cell lc port p0 c0 w)).
Proof.
  revert w. unfold report_orphan.
  apply nve_bind; [apply nve_get_category |]. intros subc.
  apply nve_bind; [discriminate |]. intros it.
  apply nve_bind; [apply nve_add_value |]. intros _ w.
  destruct (trans p0); [apply nve_add_value |].
  destruct (get_dcplx_trans port); [apply nve_add_value | discriminate].
Qed.

Lemma nve_report_overlap (lc : string) (cp : option BasePort)
    (ports : list (BasePort * string)) (w : ReportDatabase) :
  no_value_error
    (fst (report_overlap trans_to_s self_name db_cell lc cp ports w)).
Proof.
  revert w. unfold report_overlap.
  apply nve_bind; [apply nve_get_category |]. intros subc.
  apply nve_bind; [discriminate |]. intros it.
  apply nve_bind.
  { apply nve_lift. destruct cp as [c |]; [| discriminate].
    pose proof (nve_port_label self_name c) as Hl.
    destruct (port_label trans_to_s self_name c) as [e | l];
      [exact (nve_inl e Hl) |].
    destruct (trans c); [discriminate |].
    destruct (get_dcplx_trans c); discriminate. }
  intros start. apply nve_bind; [apply nve_lift, nve_overlap_entries |].
  intros tv. apply nve_bind; [apply nve_add_value |].
  intros _. apply nve_for_each. intros v _. apply nve_add_value.
Qed.

(** A bucket with at least one port never makes the check raise a
    [ValueError]. *)
Lemma nve_check_bucket
    (cell_ports : list (Z * list (Z * Z * list BasePort)))
    (port : BasePort) (layer : Z) (lc : string) (coord : Z * Z)
    (ports : list (BasePort * string)) (w : ReportDatabase) :
  ports <> [] ->
  no_value_error (fst (check_bucket cell_ports port layer lc coord ports w)).
Proof.
  intros Hne. unfold Checker.check_bucket.
  destruct ports as [| [p0 c0] [| [p1 c1] [| x rest]]]; [contradiction | | |].
  - destruct (Dict.get2 _ _ _ _ _) as [[| cp cps] |].
    + discriminate.
    + apply nve_report_mismatches.
    + apply nve_report_orphan.
  - revert w. apply nve_bind; [apply nve_report_mismatches |].
    intros _ w. destruct (Dict.get2 _ _ _ _ _) as [[| cp cps] |].
    + discriminate.
    + apply nve_report_overlap.
    + discriminate.
  - apply nve_report_overlap.
Qed.

Lemma nve_check_buckets
    (cell_ports : list (Z * list (Z * Z * list BasePort)))
    (port : BasePort)
    (inst_ports : list (Z * list (Z * Z * list (BasePort * string))))
    (w : ReportDatabase) :
  Forall (fun lm => Forall (fun cp => snd cp <> []) (snd lm)) inst_ports ->
  no_value_error
    (fst (check_buckets check_cell_ports check_inst_ports layer_name port_str
            trans_to_s self_name db_cell cell_ports port inst_ports w)).
Proof.
  intros Hall. revert w. unfold check_buckets.
  apply nve_for_each. intros [layer m] Hin.
  apply nve_bind; [intros w; apply nve_get_category |].
  intros lc. apply nve_for_each. intros [coord ports] Hin2 w.
  apply nve_check_bucket.
  pose proof (proj1 (List.Forall_forall _ _) Hall _ Hin) as Hm.
  exact (proj1 (List.Forall_forall _ _) Hm _ Hin2).
Qed.
End Laws.

(** *** The buckets the check builds *)

Lemma Forall_set {K V} (eqb : K -> K -> bool) (P : V -> Prop)
    (k : K) (v : V) (d : list (K * V)) :
  Forall (fun kv => P (snd kv)) d -> P v ->
  Forall (fun kv => P (snd kv)) (Dict.set eqb k v d).
Proof.
  intros Hd Hv. induction d as [| [k' v'] d IH]; cbn.
  - constructor; [exact Hv | constructor].
  - apply Forall_cons_iff in Hd as [Hh Ht].
    destruct (eqb k' k); constructor; auto.
Qed.

Lemma Forall_get {K V} (eqb : K -> K -> bool) (P : V -> Prop)
    (k : K) (v : V) (d : list (K * V)) :
  Forall (fun kv => P (snd kv)) d -> Dict.get eqb k d = Some v -> P v.
Proof.
  intros Hd. induction d as [| [k' v'] d IH]; cbn; [discriminate |].
  apply Forall_cons_iff in Hd as [Hh Ht].
  destruct (eqb k' k); [intros [= <-]; exact Hh | auto].
Qed.

Local Abbreviation nonempty_buckets d :=
  (Forall (fun lm : Z * list (Z * Z * list (BasePort * string)) =>
             Forall (fun cp => snd cp <> []) (snd lm)) d).

Lemma add_entry_nonempty (layer_ : Z) (xy : Z * Z) (x : BasePort * string)
    (d : list (Z * list (Z * Z * list (BasePort * string)))) :
  nonempty_buckets d -> nonempty_buckets (add_entry layer_ xy x d).
Proof.
  intros Hd. unfold add_entry.
  destruct (Dict.get Z.eqb layer_ d) as [at_layer |] eqn:El.
  - pose proof (Forall_get Z.eqb
                  (fun m => Forall (fun cp : Z * Z * list (BasePort * string) =>
                                      snd cp <> []) m)
                  layer_ at_layer d Hd El) as Hl.
    destruct (Dict.get Zpair_eqb xy at_layer) as [l |];
      apply (Forall_set Z.eqb
               (fun m => Forall (fun cp : Z * Z * list (BasePort * string) =>
                                   snd cp <> []) m)); try exact Hd;
      apply (Forall_set Zpair_eqb (fun l0 : list (BasePort * string) => l0 <> []));
      try exact Hl.
    + destruct l; discriminate.
    + discriminate.
  - apply (Forall_set Z.eqb
             (fun m => Forall (fun cp : Z * Z * list (BasePort * string) =>
                                 snd cp <> []) m)); [exact Hd |].
    constructor; [discriminate | constructor].
Qed.

Section Build.
Variable find_layer : Z * Z -> Z.
Variable port_types : list string.
Variable layers : list Z.

Lemma sort_ports_nonempty (cell_name : string) (l : list BasePort) :
  forall st st',
    sort_ports find_layer port_types layers cell_name l st = inr st' ->
    nonempty_buckets (fst st) -> nonempty_buckets (fst st').
Proof.
  induction l as [| p l IH]; intros st st' Hrun Hst.
  - cbn in Hrun. injection Hrun as <-. exact Hst.
  - cbn [sort_ports] in Hrun.
    destruct (selected find_layer port_types layers p).
    + destruct (get_trans p) as [t |]; [| discriminate].
      apply (IH _ _ Hrun). cbn. apply add_entry_nonempty. exact Hst.
    + apply (IH _ _ Hrun). exact Hst.
Qed.

Lemma sort_insts_nonempty (insts : list (string * list BasePort)) :
  forall st st',
    sort_insts find_layer port_types layers insts st = inr st' ->
    nonempty_buckets (fst st) -> nonempty_buckets (fst st').
Proof.
  induction insts as [| [n l] insts IH]; intros st st' Hrun Hst.
  - cbn in Hrun. injection Hrun as <-. exact Hst.
  - cbn [sort_insts] in Hrun.
    destruct (sort_ports find_layer port_types layers n l st) as [e | st1] eqn:E;
      [discriminate |].
    apply (IH _ _ Hrun). apply (sort_ports_nonempty _ _ _ _ E). exact Hst.
Qed.

(** The sorting fails only on a selected port without transformation. *)
Lemma sort_ports_error (cell_name : string) (l : list BasePort) :
  forall st e,
    sort_ports find_layer port_types layers cell_name l st = inl e ->
    e = AttributeError_NoneType.
Proof.
  induction l as [| p l IH]; intros st e Hrun; [discriminate |].
  cbn [sort_ports] in Hrun.
  destruct (selected find_layer port_types layers p);
    [destruct (get_trans p); [| congruence] |]; eapply IH; exact Hrun.
Qed.

Lemma sort_insts_error (insts : list (string * list BasePort)) :
  forall st e,
    sort_insts find_layer port_types layers insts st = inl e ->
    e = AttributeError_NoneType.
Proof.
  induction insts as [| [n l] insts IH]; intros st e Hrun; [discriminate |].
  cbn [sort_insts] in Hrun.
  destruct (sort_ports find_layer port_types layers n l st) as [e' | st1] eqn:E.
  - injection Hrun as <-. eapply sort_ports_error. exact E.
  - eapply IH. exact Hrun.
Qed.

(** Sorting the instance ports and classifying the buckets never ends in
    the [ValueError] for an unexpected number of ports, nor in any other
    [ValueError]: every bucket the sorting makes holds at least one port. *)
Theorem check_never_raises_ValueError
    (check_cell_ports check_inst_ports : BasePort -> BasePort -> Z)
    (layer_name : Z -> string) (port_str : BasePort -> string)
    (trans_to_s : Trans -> string) (self_name db_cell : string)
    (cell_ports : list (Z * list (Z * Z * list BasePort)))
    (insts : list (string * list BasePort)) (db : ReportDatabase)
    (msg : string) :
  fst (check_instance_ports find_layer port_types layers check_cell_ports
         check_inst_ports layer_name port_str trans_to_s self_name db_cell
         cell_ports insts db)
  <> inl (ValueError msg).
Proof.
  unfold check_instance_ports.
  destruct (sort_insts find_layer port_types layers insts ([], None))
    as [e | [d [port |]]] eqn:E.
  - apply sort_insts_error in E. subst e. cbn. discriminate.
  - apply nve_check_buckets.
    apply (sort_insts_nonempty _ _ _ E). constructor.
  - cbn. discriminate.
Qed.
End Build.
End CheckerLaws.

Module CheckerLawsWitnesses.
Import Kdb PortModel Checker CheckerItems.

Lemma pair_reports_flagged_mismatches_witness :
  (exists cats,
     check_bucket (fun _ _ => 0) (fun _ _ => 5) (fun _ => "port"%string)
       (fun _ => "r0"%string) "top" "top" []
       (Samples.port_named "o2" 0 9000 0) 1 "1" (1000, 0)
       [(Samples.port_named "o2" 0 1000 0, "A"%string);
        (Samples.port_named "o1" 2 1000 0, "B"%string)] Samples.db0
     = (inr tt,
        mkDb cats
          [mkItem "top" "1.WidthMismatch"
             [Text "Port Names: A.o2/B.o1";
              Polygon 500 (mkTrans 0 false (mkVector 1000 0));
              Polygon 500 (mkTrans 2 false (mkVector 1000 0))];
           mkItem "top" "1.TypeMismatch"
             [Text "Port Names: A.o2/B.o1";
              Polygon 500 (mkTrans 0 false (mkVector 1000 0));
              Polygon 500 (mkTrans 2 false (mkVector 1000 0))]])).
Proof.
  exact (proj1 (CheckerLaws.pair_reports_flagged_mismatches
                  (fun _ _ => 0) (fun _ _ => 5) (fun _ => "port"%string)
                  (fun _ => "r0"%string) "top" "top" []
                  (Samples.port_named "o2" 0 9000 0) 1 "1" (1000, 0)
                  (Samples.port_named "o2" 0 1000 0)
                  (Samples.port_named "o1" 2 1000 0) "A" "B"
                  (mkTrans 0 false (mkVector 1000 0))
                  (mkTrans 2 false (mkVector 1000 0))
                  Samples.db0 eq_refl eq_refl eq_refl)).
Defined.

Lemma port_at_boundary_reports_flagged_mismatches_witness :
  check_bucket (fun _ _ => 0) (fun _ _ => 5) (fun _ => "port"%string)
    (fun _ => "r0"%string) "top" "top"
    [(1, [((1000, 0), [Samples.port_named "o1" 2 1000 0])])]
    (Samples.port_named "o2" 0 9000 0) 1 "1" (1000, 0)
    [(Samples.port_named "o2" 0 1000 0, "A"%string)] Samples.db0
  = (inr tt, Samples.db0).
Proof.
  apply (proj2 (CheckerLaws.port_at_boundary_reports_flagged_mismatches
                  (fun _ _ => 0) (fun _ _ => 5) (fun _ => "port"%string)
                  (fun _ => "r0"%string) "top" "top"
                  [(1, [((1000, 0), [Samples.port_named "o1" 2 1000 0])])]
                  (Samples.port_named "o2" 0 9000 0) 1 "1" (1000, 0)
                  (Samples.port_named "o2" 0 1000 0)
                  (Samples.port_named "o1" 2 1000 0) [] "A"
                  (mkTrans 0 false (mkVector 1000 0))
                  (mkTrans 2 false (mkVector 1000 0))
                  Samples.db0 eq_refl eq_refl eq_refl)).
  reflexivity.
Defined.
End CheckerLawsWitnesses.

(** ** Routing: what the placement adds and what it leaves alone *)

Module RoutingLaws.
Import Kdb PortModel PyM Routing RoutingSpec.

Lemma set_insts_same (k : VKCell) : set_insts k (insts k) = k.
Proof. destruct k. reflexivity. Qed.

Lemma set_insts_set (k : VKCell) (l l' : list VInstance) :
  set_insts (set_insts k l) l' = set_insts k l'.
Proof. reflexivity. Qed.

Section Laws.
Variable angle_of : DVector -> Q.
Variable vlength : DVector -> Q.
Variable dapply : DCplxTrans -> DVector -> DVector.
Variable cut_point : DEdge -> DEdge -> option DVector.
Variable straight_factory : Q -> Q -> VKCell.
Variable bend_factory : Q -> Q -> VKCell.
Variable width : Q.

Local Abbreviation made := (made straight_factory bend_factory width).
Local Abbreviation cache_ok := (cache_ok bend_factory width).
Local Abbreviation grows := (grows straight_factory bend_factory width).
Local Abbreviation sound := (sound straight_factory bend_factory width).
Local Abbreviation place_straight := (place_straight straight_factory width).
Local Abbreviation route_step :=
  (route_step angle_of vlength dapply cut_point straight_factory bend_factory
              width).
Local Abbreviation route_loop :=
  (route_loop angle_of vlength dapply cut_point straight_factory bend_factory
              width).
Local Abbreviation route_body bb :=
  (route_body angle_of vlength dapply cut_point straight_factory
              bend_factory bb width).

Lemma grows_refl (w : World) : grows w w [].
Proof.
  unfold RoutingSpec.grows. rewrite app_nil_r.
  repeat split; [constructor | apply set_insts_same |].
  exists []. rewrite app_nil_r. reflexivity.
Qed.

Lemma grows_trans (w w1 w2 : World) (n1 n2 : list VInstance) :
  grows w w1 n1 -> grows w1 w2 n2 -> grows w w2 (n1 ++ n2).
Proof.
  intros (I1 & F1 & S1 & m1 & C1) (I2 & F2 & S2 & m2 & C2).
  unfold RoutingSpec.grows. repeat split.
  - rewrite I2, I1, app_assoc. reflexivity.
  - apply Forall_app. split; assumption.
  - rewrite <- S1, <- S2. reflexivity.
  - exists (m1 ++ m2). rewrite C2, C1, app_assoc. reflexivity.
Qed.

(** More calls and nothing else. *)
Lemma grows_calls (w : World) (more : list Call) :
  grows w (mkWorld (c w) (calls w ++ more)) [].
Proof.
  unfold RoutingSpec.grows. cbn [c calls]. rewrite app_nil_r.
  repeat split; [constructor | apply set_insts_same |].
  exists more. reflexivity.
Qed.

(** One more instance of a made element, connected or not. *)
Lemma grows_one (w : World) (k : VKCell) (conn : option (string * PortRef))
    (more : list Call) :
  made k ->
  grows w (mkWorld (set_insts (c w) (insts (c w) ++ [mkVInstance k conn]))
                   (calls w ++ more))
        [mkVInstance k conn].
Proof.
  intros Hk. unfold RoutingSpec.grows. cbn [c calls insts set_insts].
  repeat split.
  - constructor; [exact Hk | constructor].
  - destruct (c w). reflexivity.
  - exists more. reflexivity.
Qed.

Lemma sound_ret : sound ret.
Proof.
  intros v w Hc. exists []. split; [apply grows_refl |].
  intros v' [= <-]. cbn. rewrite app_nil_r. auto.
Qed.

Lemma sound_bind (f g : Vars -> M World Vars) :
  sound f -> sound g -> sound (fun v => bind (f v) g).
Proof.
  intros Hf Hg v w Hc. unfold bind.
  destruct (Hf v w Hc) as (n1 & G1 & S1).
  destruct (f v w) as [[e | v1] w1]; cbn [fst snd] in *.
  - exists n1. split; [exact G1 | discriminate].
  - destruct (S1 v1 eq_refl) as [Hc1 Hi1].
    destruct (Hg v1 w1 Hc1) as (n2 & G2 & S2).
    exists (n1 ++ n2). split; [exact (grows_trans _ _ _ _ _ G1 G2) |].
    intros v' Hv'. destruct (S2 v' Hv') as [Hc2 Hi2].
    split; [exact Hc2 |].
    rewrite Hi2, Hi1, <- app_assoc. f_equal.
    destruct G1 as (I1 & _). rewrite I1, !length_app, seq_app. reflexivity.
Qed.

Lemma sound_place_straight (l : Q) (sp : string * string) :
  Qltb 0 l = true -> sound (place_straight l sp).
Proof.
  intros Hl v w Hc.
  assert (Hk : made (straight_factory width l)) by (left; eauto).
  unfold Routing.place_straight, bind, call_straight_factory, create_inst,
    connect, instance_port, ret.
  cbn [c calls]. destruct (locked (c w)) eqn:El.
  - exists []. split; [apply grows_calls | discriminate].
  - cbn [c calls insts set_insts fst snd].
    rewrite RoutingFacts.lookup_snoc. cbn [cell].
    destruct (port_by_name (straight_factory width l) (fst sp)) as [e | b1].
    + eexists. split; [apply grows_one; exact Hk | discriminate].
    + cbn [c calls insts set_insts fst snd].
      rewrite RoutingFacts.insert_snoc, RoutingFacts.lookup_snoc. cbn [cell].
      destruct (port_by_name (straight_factory width l) (snd sp)) as [e | b2].
      * eexists. split; [| discriminate].
        exact (grows_one w _ (Some (fst sp, _port v)) _ Hk).
      * eexists. split.
        -- exact (grows_one w _ (Some (fst sp, _port v)) _ Hk).
        -- intros v' [= <-]. cbn. auto.
Qed.

Lemma sound_place_bend (bend : VKCell) (a : Q) (bp : string * string) :
  made bend -> sound (place_bend bend a bp).
Proof.
  intros Hk v w Hc.
  unfold place_bend, bind, create_inst, connect, instance_port, ret.
  destruct (locked (c w)) eqn:El.
  - exists []. split; [apply grows_refl | discriminate].
  - cbn [c calls insts set_insts fst snd].
    rewrite RoutingFacts.lookup_snoc. cbn [cell].
    assert (G0 : grows w
              (mkWorld (set_insts (c w) (insts (c w) ++ [mkVInstance bend None]))
                       (calls w)) [mkVInstance bend None]).
    { pose proof (grows_one w bend None [] Hk) as G.
      rewrite app_nil_r in G. exact G. }
    assert (G1 : forall conn,
              grows w
                (mkWorld (set_insts (c w)
                            (insts (c w) ++ [mkVInstance bend conn]))
                         (calls w)) [mkVInstance bend conn]).
    { intros conn. pose proof (grows_one w bend conn [] Hk) as G.
      rewrite app_nil_r in G. exact G. }
    destruct (port_by_name bend (if Qltb a 0 then snd bp else fst bp))
      as [e | b1].
    + eexists. split; [exact G0 | discriminate].
    + cbn [c calls insts set_insts fst snd].
      rewrite RoutingFacts.insert_snoc, RoutingFacts.lookup_snoc. cbn [cell].
      destruct (port_by_name bend (if Qltb a 0 then fst bp else snd bp))
        as [e | b2].
      * eexists. split; [exact (G1 _) | discriminate].
      * eexists. split; [exact (G1 _) |].
        intros v' [= <-]. cbn. auto.
Qed.

Lemma cache_hit_made (a : Q) (bends : list (Q * VKCell)) (b : VKCell) :
  cache_ok bends -> bends_get a bends = Some b -> made b.
Proof.
  intros Hc Hget. unfold bends_get in Hget.
  destruct (List.find (fun kv => Qeq_bool (fst kv) a) bends) as [kv |] eqn:E;
    [| discriminate].
  cbn in Hget. injection Hget as <-.
  apply List.find_some in E as [Hin _].
  pose proof (proj1 (List.Forall_forall _ _) Hc _ Hin) as [Hz Hb].
  right. exists (fst kv). split; assumption.
Qed.

(** The part of an iteration at a turn that comes before the placement:
    it may call the bend factory and nothing else, and what it hands on is
    a made bend and a sound cache. *)
Lemma head_sound (bp : string * string) (a dist : Q) (v : Vars) (w : World)
    (old_pt pt : DVector) :
  cache_ok (bends v) ->
  Qeq_bool a 0 = false ->
  forall r w1,
    (bb <- fetch_bend bend_factory width a (bends v) ;;
     radius <- lift (bend_radius vlength dapply cut_point (fst bb) bp) ;;
     if Qltb (dist - radius - start_offset v) 0 then
       raise (NotEnoughSpace old_pt pt (start_offset v + radius) dist)
     else ret (Some (fst bb), snd bb, radius)) w = (r, w1) ->
    grows w w1 []
    /\ forall bend bends' radius,
         r = inr (bend, bends', radius) ->
         cache_ok bends' /\ exists b, bend = Some b /\ made b.
Proof.
  intros Hc Ha r w1. unfold bind, fetch_bend.
  destruct (bends_get a (bends v)) as [b |] eqn:Hget.
  - unfold ret at 1. cbn [fst snd]. unfold lift.
    destruct (bend_radius vlength dapply cut_point b bp) as [e | radius].
    + intros [= <- <-]. split; [apply grows_refl | discriminate].
    + destruct (Qltb (dist - radius - start_offset v) 0).
      * intros [= <- <-]. split; [apply grows_refl | discriminate].
      * intros [= <- <-]. split; [apply grows_refl |].
        intros bend bends' radius' [= <- <- <-].
        split; [exact Hc |]. exists b. split; [reflexivity |].
        exact (cache_hit_made a _ _ Hc Hget).
  - unfold bind, call_bend_factory, ret at 1. cbn [fst snd]. unfold lift.
    assert (Hmade : made (bend_factory width (Qabs a))).
    { right. exists a. split; [exact Ha | reflexivity]. }
    destruct (bend_radius vlength dapply cut_point
                (bend_factory width (Qabs a)) bp) as [e | radius].
    + intros [= <- <-]. split; [apply grows_calls | discriminate].
    + destruct (Qltb (dist - radius - start_offset v) 0).
      * intros [= <- <-]. split; [apply grows_calls | discriminate].
      * intros [= <- <-]. split; [apply grows_calls |].
        intros bend bends' radius' [= <- <- <-].
        split; [| eauto].
        apply Forall_app. split; [exact Hc |].
        constructor; [split; [exact Ha | reflexivity] | constructor].
Qed.

(** The part of an iteration that places the elements. *)
Lemma tail_sound (bp sp : string * string) (l a radius : Q)
    (bend : option VKCell) (p new_pt : DVector) :
  (forall b, bend = Some b -> made b) ->
  sound (fun v1 =>
           v2 <- (if Qltb 0 l then place_straight l sp v1 else ret v1) ;;
           v3 <- match bend with
                 | Some b => place_bend b a bp v2
                 | None => ret v2
                 end ;;
           ret (mkVars p new_pt radius radius
                       (_port v3) (insts_ v3) (bends v3))).
Proof.
  intros Hb.
  apply (sound_bind
           (fun v1 => if Qltb 0 l then place_straight l sp v1 else ret v1)).
  { destruct (Qltb 0 l) eqn:El.
    - apply sound_place_straight. exact El.
    - apply sound_ret. }
  apply (sound_bind
           (fun v2 => match bend with
                      | Some b => place_bend b a bp v2
                      | None => ret v2
                      end)).
  { destruct bend as [b |].
    - apply sound_place_bend. apply Hb. reflexivity.
    - apply sound_ret. }
  intros v w Hc. exists []. split; [apply grows_refl |].
  intros v' [= <-]. cbn. rewrite app_nil_r. auto.
Qed.

(** One iteration of the loop keeps the contract. *)
Lemma sound_route_step (bp sp : string * string) (new_pt : DVector) :
  sound (route_step bp sp new_pt).
Proof.
  intros v w Hc.
  destruct (route_step bp sp new_pt v w) as [res w2] eqn:Er.
  cbn [fst snd].
  unfold Routing.route_step in Er.
  set (a := turn_angle angle_of (old_pt v) (pt v) new_pt) in Er.
  set (dist := vlength (dv_sub (pt v) (old_pt v))) in Er.
  destruct (negb (Qeq_bool a 0)) eqn:Ea.
  - apply negb_true_iff in Ea. unfold bind at 1 in Er.
    match type of Er with
    | context [let (s, w') := ?m w in _] =>
        destruct (m w) as [r w1] eqn:Eh
    end.
    destruct (head_sound bp a dist v w (old_pt v) (pt v) Hc Ea r w1 Eh)
      as [G1 Hr].
    destruct r as [e | [[bend bends'] radius]].
    + injection Er as <- <-.
      exists []. split; [exact G1 | discriminate].
    + destruct (Hr _ _ _ eq_refl) as [Hc' [b [-> Hb]]].
      pose proof (tail_sound bp sp (dist - radius - start_offset v) a radius
                    (Some b) (pt v) new_pt
                    (fun b0 (E : Some b = Some b0) =>
                       eq_ind b made Hb b0 (Some_inj _ _ E))
                    (mkVars (old_pt v) (pt v) (start_offset v) radius
                            (_port v) (insts_ v) bends')
                    w1 Hc') as (new & G2 & S2).
      cbv beta in G2, S2. rewrite Er in G2, S2. cbn [fst snd] in G2, S2.
      exists new. split.
      * pose proof (grows_trans _ _ _ _ _ G1 G2) as G. exact G.
      * intros v' Hv'. destruct (S2 v' Hv') as [Hc2 Hi2].
        split; [exact Hc2 |]. cbn [insts_] in Hi2. rewrite Hi2.
        destruct G1 as (I1 & _). rewrite I1, app_nil_r. reflexivity.
  - unfold bind at 1 in Er. unfold ret at 1 in Er. cbn beta iota in Er.
    pose proof (tail_sound bp sp (dist - 0 - start_offset v) a 0
                  None (pt v) new_pt
                  (fun b0 (E : None = Some b0) =>
                     match E in _ = o return
                       match o with Some _ => made b0 | None => True end
                     with eq_refl => I end)
                  (mkVars (old_pt v) (pt v) (start_offset v) 0
                          (_port v) (insts_ v) (bends v))
                  w Hc) as (new & G2 & S2).
    cbv beta in G2, S2. rewrite Er in G2, S2. cbn [fst snd] in G2, S2.
    exists new. split; [exact G2 |].
    intros v' Hv'. exact (S2 v' Hv').
Qed.

Lemma sound_route_loop (bp sp : string * string) (pts : list DVector) :
  sound (route_loop bp sp pts).
Proof.
  induction pts as [| new_pt pts IH].
  - exact sound_ret.
  - exact (sound_bind _ _ (sound_route_step bp sp new_pt) IH).
Qed.

(** The whole placement, whatever its outcome. *)
Lemma route_body_sound (bb : list DVector) (bp sp : string * string)
    (start_port end_port : BasePort) (w : World) :
  exists new,
    grows w (snd (route_body bb bp sp start_port end_port w)) new
    /\ forall rt,
         fst (route_body bb bp sp start_port end_port w) = inr rt ->
         instances rt = seq (length (insts (c w))) (length new).
Proof.
  destruct (route_body bb bp sp start_port end_port w) as [res w3] eqn:Er.
  cbn [fst snd].
  unfold Routing.route_body in Er. cbv zeta in Er.
  set (v0 := mkVars _ _ 0 0 (FreePort start_port) [] []) in Er.
  assert (Hc0 : cache_ok (bends v0)) by constructor.
  unfold bind at 1 in Er.
  destruct (sound_route_loop bp sp (skipn 2 bb) v0 w Hc0) as (n1 & G1 & S1).
  destruct (route_loop bp sp (skipn 2 bb) v0 w) as [[e | v] w1];
    cbn [fst snd] in *.
  - injection Er as <- <-.
    exists n1. split; [exact G1 | discriminate].
  - destruct (S1 v eq_refl) as [Hc Hi].
    set (l := (vlength (dv_sub (pt v) (old_pt v)) - effective_radius v)%Q)
      in Er.
    destruct (Qltb l 0).
    + injection Er as <- <-.
      exists n1. split; [exact G1 | discriminate].
    + assert (Hs : sound (fun v1 => if Qltb 0 l then place_straight l sp v1
                                    else ret v1)).
      { destruct (Qltb 0 l) eqn:El.
        - apply sound_place_straight. exact El.
        - apply sound_ret. }
      destruct (Hs v w1 Hc) as (n2 & G2 & S2).
      unfold bind in Er.
      destruct ((if Qltb 0 l then place_straight l sp v else ret v) w1)
        as [[e | v'] w2]; cbn [fst snd] in *.
      * injection Er as <- <-.
        exists (n1 ++ n2). split; [| discriminate].
        exact (grows_trans _ _ _ _ _ G1 G2).
      * unfold ret in Er. injection Er as <- <-.
        exists (n1 ++ n2). split; [exact (grows_trans _ _ _ _ _ G1 G2) |].
        intros rt [= <-]. cbn [instances].
        destruct (S2 v' eq_refl) as [_ Hi2]. rewrite Hi2, Hi.
        destruct G1 as (I1 & _). rewrite I1.
        cbn [insts_ v0 app]. rewrite !length_app, seq_app. reflexivity.
Qed.

(** The placement part of [route] only ever appends to the target cell:
    whatever the outcome, error or not, the instances the cell had are
    still there, unchanged and in front, every other field of the cell is
    as before, and the record of factory calls has only grown. *)
Theorem route_body_only_appends (bb : list DVector) (bp sp : string * string)
    (start_port end_port : BasePort) (w : World) :
  let w' := snd (route_body bb bp sp start_port end_port w) in
  (exists new, insts (c w') = insts (c w) ++ new)
  /\ set_insts (c w') (insts (c w)) = c w
  /\ (exists more, calls w' = calls w ++ more).
Proof.
  destruct (route_body_sound bb bp sp start_port end_port w)
    as (new & (Hi & _ & Hk & Hm) & _).
  cbv zeta. split; [exists new; exact Hi | split; [exact Hk | exact Hm]].
Qed.

(** Every instance the placement part of [route] adds to the cell, also on
    the way to an error, is of a cell one of the two factories returned for
    the route's width: a straight of a length greater than zero, or a bend
    of the absolute value of a turn that is not zero. *)
Theorem route_body_places_factory_cells (bb : list DVector)
    (bp sp : string * string) (start_port end_port : BasePort) (w : World) :
  let w' := snd (route_body bb bp sp start_port end_port w) in
  Forall (fun vi =>
            (exists l, Qltb 0 l = true /\ cell vi = straight_factory width l)
            \/ (exists a, Qeq_bool a 0 = false
                          /\ cell vi = bend_factory width (Qabs a)))
         (skipn (length (insts (c w))) (insts (c w'))).
Proof.
  destruct (route_body_sound bb bp sp start_port end_port w)
    as (new & (Hi & Hf & _) & _).
  cbv zeta. rewrite Hi.
  rewrite skipn_app, Nat.sub_diag, skipn_all. exact Hf.
Qed.

(** When the placement part of [route] returns a route, the route's
    [instances] are exactly the instances the call added to the cell, each
    once and in the order of placement. *)
Theorem route_body_instances (bb : list DVector) (bp sp : string * string)
    (start_port end_port : BasePort) (w : World) (rt : OpticalAllAngleRoute) :
  let r := route_body bb bp sp start_port end_port w in
  fst r = inr rt ->
  instances rt
  = seq (length (insts (c w)))
        (length (insts (c (snd r))) - length (insts (c w))).
Proof.
  cbv zeta. intros Hr.
  destruct (route_body_sound bb bp sp start_port end_port w)
    as (new & (Hi & _) & Hrt).
  rewrite (Hrt rt Hr), Hi, length_app.
  f_equal. lia.
Qed.

End Laws.

Section Whole.
Variable angle_of : DVector -> Q.
Variable vlength : DVector -> Q.
Variable dapply : DCplxTrans -> DVector -> DVector.
Variable cut_point : DEdge -> DEdge -> option DVector.
Variable straight_factory : Q -> Q -> VKCell.
Variable bend_factory : Q -> Q -> VKCell.
Variable default_kcl : KCLayout.
Variable get_info : Z -> Z * Z.

(** Whatever its arguments, [route] ends in an exception before anything
    is placed: the [ValueError] of a backbone of fewer than three points,
    and for every longer backbone the [TypeError] of the keyword [dwidth]
    that [Port.__init__] does not take.  The cell and the record of
    factory calls are as they were. *)
Theorem route_always_raises (width : Q) (layer : Z) (bb : list DVector)
    (bend_ports straight_ports : string * string) (w : World) :
  route angle_of vlength dapply cut_point straight_factory bend_factory
        default_kcl get_info width layer bb bend_ports straight_ports w
  = (inl (if (length bb <? 3)%nat
          then ValueError
                 "All angle routes with less than 3 points are not supported."
          else TypeError_unexpected_keyword "dwidth"),
     w).
Proof.
  unfold Routing.route.
  destruct (length bb <? 3)%nat; [reflexivity |].
  unfold bind, get, lift.
  rewrite RoutingFacts.route_port_rejected. reflexivity.
Qed.
End Whole.
End RoutingLaws.

Module RoutingLawsWitnesses.
Import Kdb PortModel PyM Routing.

Lemma route_body_instances_witness :
  instances (mkRoute [Ortho.pt 0 0; Ortho.pt 10 0; Ortho.pt 10 10]
               (Ortho.port_at "o1" 1000 0 0 0) (Ortho.port_at "o1" 1000 0 0 0)
               [0; 1; 2]%nat)
  = seq (length (insts (c Ortho.world0)))
        (length (insts (c (snd (Ortho.run_body
                                  [Ortho.pt 0 0; Ortho.pt 10 0;
                                   Ortho.pt 10 10]))))
         - length (insts (c Ortho.world0))).
Proof.
  apply (RoutingLaws.route_body_instances
           Ortho.angle_of Ortho.vlength Ortho.dapply Ortho.cut_point
           Ortho.straight_factory Ortho.bend_factory 1
           [Ortho.pt 0 0; Ortho.pt 10 0; Ortho.pt 10 10]
           Ortho.o1o2 Ortho.o1o2
           (Ortho.port_at "o1" 1000 0 0 0) (Ortho.port_at "o1" 1000 0 0 0)
           Ortho.world0).
  vm_compute. reflexivity.
Defined.
End RoutingLawsWitnesses.


(** ** Bundles: the shape of the lanes and the index errors *)

Module BundleLaws.
Import Kdb Routing Bundle.

Lemma zip_length {A B} (a : list A) (b : list B) :
  length (zip a b) = Nat.min (length a) (length b).
Proof.
  revert b. induction a as [| x a IH]; intros [| y b]; cbn; auto.
Qed.

Section Laws.
Variable shifted : DEdge -> Q -> DEdge.
Variable cut_point : DEdge -> DEdge -> option DVector.

Local Abbreviation lane_rest := (lane_rest shifted cut_point).
Local Abbreviation lanes := (lanes shifted cut_point).
Local Abbreviation backbone2bundle := (backbone2bundle shifted cut_point).

Lemma edges_from_length (p : DVector) (rest : list DVector) :
  length (edges_from p rest) = length rest.
Proof.
  revert p. induction rest as [| q rest IH]; intros p; cbn; auto.
Qed.

Lemma lane_rest_length (x : Q) (e : DEdge) (es : list DEdge) :
  length (lane_rest x e es) = S (length es).
Proof.
  revert e. induction es as [| e' es IH]; intros e; cbn; auto.
Qed.

Lemma lanes_shape (edges : list DEdge) (zs : list (Q * Q)) (x : Q)
    (pts : list (list (option DVector))) :
  lanes edges x zs = inr pts ->
  length pts = length zs
  /\ Forall (fun lane => length lane = S (length edges)) pts.
Proof.
  revert x pts. induction zs as [| [pw spacing] zs IH]; intros x pts.
  - intros [= <-]. split; [reflexivity | constructor].
  - destruct edges as [| e0 es]; [discriminate |].
    cbn [Bundle.lanes].
    match goal with
    | |- context [lanes (e0 :: es) ?y zs] =>
        destruct (lanes (e0 :: es) y zs) as [e | r] eqn:Er
    end; [discriminate |].
    intros [= <-]. destruct (IH _ _ Er) as [Hl Hf].
    split; [cbn; congruence |].
    constructor; [| exact Hf].
    cbn. rewrite lane_rest_length. reflexivity.
Qed.

Lemma lanes_ok (e0 : DEdge) (es : list DEdge) (zs : list (Q * Q)) (x : Q) :
  exists pts, lanes (e0 :: es) x zs = inr pts.
Proof.
  revert x. induction zs as [| [pw spacing] zs IH]; intros x; cbn.
  - eexists. reflexivity.
  - match goal with
    | |- context [lanes (e0 :: es) ?y zs] => destruct (IH y) as [r ->]
    end.
    eexists. reflexivity.
Qed.

(** When [backbone2bundle] returns, it returns one lane for each pair of
    [zip(port_widths, spacings)], that is as many lanes as the shorter of
    the two lists has entries, and every lane has as many entries as the
    backbone has points. *)
Theorem bundle_shape (backbone : list DVector) (port_widths spacings : list Q)
    (pts : list (list (option DVector))) :
  backbone2bundle backbone port_widths spacings = inr pts ->
  length pts = Nat.min (length port_widths) (length spacings)
  /\ Forall (fun lane => length lane = length backbone) pts.
Proof.
  unfold Bundle.backbone2bundle.
  destruct backbone as [| p rest]; [discriminate |].
  intros H. apply lanes_shape in H as [Hl Hf].
  rewrite zip_length in Hl. split; [exact Hl |].
  rewrite edges_from_length in Hf. exact Hf.
Qed.

(** [backbone2bundle] raises, an [IndexError], in exactly two cases: the
    backbone is empty, or the backbone is a single point while both
    [port_widths] and [spacings] have an entry.  A backbone of one point
    with no lane to make gives the empty list. *)
Theorem bundle_raises_iff (backbone : list DVector)
    (port_widths spacings : list Q) :
  backbone2bundle backbone port_widths spacings = inl IndexError
  <-> backbone = []
      \/ (length backbone = 1%nat /\ port_widths <> [] /\ spacings <> []).
Proof.
  unfold Bundle.backbone2bundle.
  destruct backbone as [| p [| q rest]].
  - split; auto.
  - cbn [edges_from].
    destruct port_widths as [| pw ws], spacings as [| sp ss]; cbn;
      (split; [try discriminate | intros [? | (_ & ? & ?)];
                                  try discriminate; try congruence]).
    intros _. right. repeat split; discriminate.
  - cbn [edges_from].
    destruct (lanes_ok (mkDEdge p q) (edges_from q rest)
                (zip port_widths spacings)
                (floordiv (- (sum port_widths + sum spacings)) 2))
      as [r Hr].
    rewrite Hr.
    split; [discriminate | intros [? | (? & _)]; discriminate].
Qed.
End Laws.
End BundleLaws.

Module BundleLawsWitnesses.
Import Kdb Routing Bundle.

(** Three points in a line, two widths and three spacings: two lanes of
    three entries each, the middle entry [None] because the shifted edges
    are parallel. *)
Lemma bundle_shape_witness :
  backbone2bundle Samples3.shift_y Ortho.cut_point Samples3.line3
    [1; 1]%Q [2; 2; 2]%Q
  = inr [[Some (mkDVector 0 3); None; Some (mkDVector 20 3)];
         [Some (mkDVector 0 0); None; Some (mkDVector 20 0)]]
  /\ (length [[Some (mkDVector 0 3); None; Some (mkDVector 20 3)];
              [Some (mkDVector 0 0); None; Some (mkDVector 20 0)]]
      = Nat.min 2 3
      /\ Forall (fun lane => length lane = length Samples3.line3)
           [[Some (mkDVector 0 3); None; Some (mkDVector 20 3)];
            [Some (mkDVector 0 0); None; Some (mkDVector 20 0)]]).
Proof.
  split; [vm_compute; reflexivity |].
  apply (BundleLaws.bundle_shape Samples3.shift_y Ortho.cut_point
           Samples3.line3 [1; 1]%Q [2; 2; 2]%Q).
  vm_compute. reflexivity.
Defined.
End BundleLawsWitnesses.


(** ** Renaming: which names change, and to what *)

Module RenameLaws.
Import Kdb PortModel PyM Rename RenameSpec.

Lemma key_lt_true (a b : Z * Z * Z) :
  key_lt a b = true
  <-> a.1.1 < b.1.1
      \/ (a.1.1 = b.1.1
          /\ (a.1.2 < b.1.2 \/ (a.1.2 = b.1.2 /\ a.2 < b.2))).
Proof.
  destruct a as [[a1 a2] a3], b as [[b1 b2] b3]. unfold key_lt. cbn [fst snd].
  rewrite !orb_true_iff, !andb_true_iff, !orb_true_iff, !andb_true_iff,
    !Z.ltb_lt, !Z.eqb_eq.
  reflexivity.
Qed.

Lemma key_lt_false (a b : Z * Z * Z) :
  key_lt a b = false
  <-> ~ (a.1.1 < b.1.1
         \/ (a.1.1 = b.1.1
             /\ (a.1.2 < b.1.2 \/ (a.1.2 = b.1.2 /\ a.2 < b.2)))).
Proof. rewrite <- key_lt_true. symmetry. apply not_true_iff_false. Qed.

Ltac key_cases :=
  rewrite ?key_lt_true, ?key_lt_false in *; lia.

Lemma key_lt_asym (a b : Z * Z * Z) : key_lt a b = true -> key_lt b a = false.
Proof. intros H. key_cases. Qed.

Lemma key_le_trans (a b c : Z * Z * Z) :
  key_lt b a = false -> key_lt c b = false -> key_lt c a = false.
Proof. intros H1 H2. key_cases. Qed.

Section Sorting.
Context {A : Type}.
Implicit Types (x y : (Z * Z * Z) * A) (l : list ((Z * Z * Z) * A)).

Lemma insert_by_key_perm x l : insert_by_key x l ≡ₚ x :: l.
Proof.
  induction l as [| y l IH]; cbn; [reflexivity |].
  destruct (key_lt (fst y) (fst x)); [| reflexivity].
  rewrite IH. apply Permutation_swap.
Qed.

Lemma sort_perm l : foldr insert_by_key [] l ≡ₚ l.
Proof.
  induction l as [| x l IH]; cbn; [reflexivity |].
  rewrite insert_by_key_perm, IH. reflexivity.
Qed.

Lemma ascending_nil : ascending (@nil ((Z * Z * Z) * A)).
Proof. intros i j x y _ H. destruct i; discriminate H. Qed.

Lemma ascending_cons x l :
  ascending (x :: l)
  <-> Forall (fun y => key_lt (fst y) (fst x) = false) l /\ ascending l.
Proof.
  split.
  - intros H. split.
    + apply Forall_forall. intros y Hy.
      apply list_elem_of_lookup in Hy as [j Hj].
      apply (H 0%nat (S j) x y); [lia | reflexivity | exact Hj].
    + intros i j a b Hij Ha Hb.
      apply (H (S i) (S j) a b); [lia | exact Ha | exact Hb].
  - intros [Hf Ha] i j a b Hij Hi Hj.
    destruct j as [| j]; [lia |]. cbn in Hj.
    destruct i as [| i].
    + cbn in Hi. injection Hi as <-.
      apply (proj1 (Forall_forall _ _) Hf).
      apply list_elem_of_lookup. eauto.
    + cbn in Hi. apply (Ha i j a b); [lia | exact Hi | exact Hj].
Qed.

Lemma insert_by_key_ascending x l :
  ascending l -> ascending (insert_by_key x l).
Proof.
  induction l as [| y l IH]; intros Hl; cbn.
  - apply ascending_cons. split; [constructor | apply ascending_nil].
  - apply ascending_cons in Hl as [Hf Hl].
    destruct (key_lt (fst y) (fst x)) eqn:E.
    + apply ascending_cons. split; [| apply IH, Hl].
      rewrite insert_by_key_perm. constructor; [| exact Hf].
      apply key_lt_asym, E.
    + apply ascending_cons. split.
      * constructor; [exact E |].
        eapply List.Forall_impl; [| exact Hf].
        intros z Hz. cbv beta in Hz. exact (key_le_trans _ _ _ E Hz).
      * apply ascending_cons. split; assumption.
Qed.

Lemma sort_ascending l : ascending (foldr insert_by_key [] l).
Proof.
  induction l as [| x l IH]; cbn;
    [apply ascending_nil | apply insert_by_key_ascending, IH].
Qed.

Lemma insert_by_key_stable x l k :
  List.filter (fun z => negb (key_lt (fst z) k) && negb (key_lt k (fst z)))
              (insert_by_key x l)
  = List.filter (fun z => negb (key_lt (fst z) k) && negb (key_lt k (fst z)))
                (x :: l).
Proof.
  induction l as [| y l IH]; [reflexivity |].
  cbn [insert_by_key].
  destruct (key_lt (fst y) (fst x)) eqn:E; [| reflexivity].
  cbn [List.filter]. rewrite IH. cbn [List.filter].
  destruct (negb (key_lt (fst y) k) && negb (key_lt k (fst y))) eqn:Ey;
    destruct (negb (key_lt (fst x) k) && negb (key_lt k (fst x))) eqn:Ex;
    try reflexivity.
  exfalso. destruct x as [kx ax], y as [ky ay]. cbn [fst] in *.
  apply andb_prop in Ey as [Ey1 Ey2]. apply andb_prop in Ex as [Ex1 Ex2].
  apply negb_true_iff in Ey1, Ey2, Ex1, Ex2.
  clear IH. key_cases.
Qed.

Lemma sort_stable l : stable l (foldr insert_by_key [] l).
Proof.
  intros k. induction l as [| x l IH]; [reflexivity |].
  cbn [foldr]. rewrite insert_by_key_stable. cbn [List.filter].
  rewrite IH. reflexivity.
Qed.
End Sorting.


(** The store after the names [f i] have been assigned along [l]. *)
Local Abbreviation renamed f l h :=
  (fold_left (fun (h0 : gmap loc BasePort) (ip : Z * ProtoPort) =>
                alter (fun b => with_name b (Some (f (fst ip))))
                      (base (snd ip)) h0) l h).

Lemma for_each_assign (f : Z -> string) (l : list (Z * ProtoPort))
    (h : gmap loc BasePort) :
  for_each l (fun ip => assign_name (snd ip) (f (fst ip))) h
  = (inr tt, renamed f l h).
Proof.
  revert h. induction l as [| ip l IH]; intros h; [reflexivity |].
  cbn [for_each fold_left]. unfold bind, assign_name at 1. apply IH.
Qed.

Lemma enumerate_snd {A} (i : Z) (l : list A) : map snd (enumerate i l) = l.
Proof.
  revert i. induction l as [| x l IH]; intros i; cbn; [| rewrite IH];
    reflexivity.
Qed.

Lemma renamed_other (f : Z -> string) (l : list (Z * ProtoPort))
    (h : gmap loc BasePort) (a : loc) :
  a ∉ map base (map snd l) -> renamed f l h !! a = h !! a.
Proof.
  revert h. induction l as [| ip l IH]; intros h Ha; [reflexivity |].
  cbn [fold_left]. cbn [map] in Ha.
  apply not_elem_of_cons in Ha as [Hne Ha].
  rewrite IH by exact Ha. apply lookup_alter_ne. congruence.
Qed.

Lemma renamed_erase (f : Z -> string) (l : list (Z * ProtoPort))
    (h : gmap loc BasePort) (a : loc) :
  (fun b => with_name b None) <$> renamed f l h !! a
  = (fun b => with_name b None) <$> h !! a.
Proof.
  revert h. induction l as [| ip l IH]; intros h; [reflexivity |].
  cbn [fold_left]. rewrite IH.
  destruct (decide (base (snd ip) = a)) as [<- | Hne].
  - rewrite lookup_alter_eq. destruct (h !! base (snd ip)); reflexivity.
  - rewrite lookup_alter_ne by exact Hne. reflexivity.
Qed.

Lemma renamed_at (f : Z -> string) (ps : list ProtoPort) (start : Z)
    (h : gmap loc BasePort) :
  NoDup (map base ps) ->
  forall (i : nat) p, ps !! i = Some p ->
    renamed f (enumerate start ps) h !! base p
    = (fun b => with_name b (Some (f (start + Z.of_nat i)))) <$> h !! base p.
Proof.
  revert start h. induction ps as [| q ps IH]; intros start h Hnd i p Hi;
    [destruct i; discriminate Hi |].
  cbn [map] in Hnd. apply NoDup_cons in Hnd as [Hq Hnd].
  cbn [enumerate fold_left fst snd].
  destruct i as [| i]; cbn in Hi.
  - injection Hi as <-.
    rewrite renamed_other by (rewrite enumerate_snd; exact Hq).
    rewrite lookup_alter_eq, Z.add_0_r. reflexivity.
  - rewrite (IH (start + 1) _ Hnd i p Hi).
    rewrite lookup_alter_ne.
    + replace (start + 1 + Z.of_nat i) with (start + Z.of_nat (S i)) by lia.
      reflexivity.
    + intros E. apply Hq. rewrite E.
      apply list_elem_of_fmap_2, (list_elem_of_lookup_2 _ i), Hi.
Qed.

Section Laws.
Variable find_layer : Z * Z -> Z.
Variable re_match : string -> string -> bool.
Variable float_str : Q -> string.

Local Abbreviation filter_layer_pt_reg :=
  (filter_layer_pt_reg find_layer re_match).
Local Abbreviation sort_key := (sort_key float_str).
Local Abbreviation keyed := (keyed float_str).
Local Abbreviation rename_clockwise :=
  (rename_clockwise find_layer re_match float_str).

Lemma keyed_snd (h : gmap loc BasePort) (ports : list ProtoPort)
    (l : list ((Z * Z * Z) * ProtoPort)) :
  keyed h ports = inr l ->
  map snd l = ports
  /\ Forall (fun kp => sort_key h (snd kp) = inr (fst kp)) l.
Proof.
  revert l. induction ports as [| p ports IH]; intros l; cbn.
  - intros [= <-]. split; [reflexivity | constructor].
  - destruct (sort_key h p) as [e | k] eqn:Ek; [discriminate |].
    destruct (keyed h ports) as [e | l'] eqn:El; [discriminate |].
    intros [= <-]. destruct (IH l' eq_refl) as [Hm Hf].
    split; [cbn; rewrite Hm; reflexivity |].
    constructor; [exact Ek | exact Hf].
Qed.

Lemma sort_key_present (h : gmap loc BasePort) (p : ProtoPort)
    (k : Z * Z * Z) :
  sort_key h p = inr k -> is_Some (h !! base p).
Proof.
  unfold Rename.sort_key. destruct (h !! base p) as [b |]; [eauto |].
  discriminate.
Qed.

(** [rename_clockwise] writes names and nothing else, and only on the
    ports its filters select: every other port of the store reads as
    before, and a selected port differs from before in its name at most.
    When it raises, which it does while the sort keys are computed, no
    port has been renamed. *)
Theorem rename_clockwise_frame (ports : list ProtoPort) (layer : option Z)
    (port_type_ regex : option string) (prefix : string) (start : Z)
    (h : gmap loc BasePort) :
  let r := rename_clockwise ports layer port_type_ regex prefix start h in
  (forall e, fst r = inl e -> snd r = h)
  /\ (forall a,
        a ∉ map base (filter_layer_pt_reg h ports layer port_type_ regex) ->
        snd r !! a = h !! a)
  /\ (forall a,
        (fun b => with_name b None) <$> snd r !! a
        = (fun b => with_name b None) <$> h !! a).
Proof.
  cbv zeta. unfold Rename.rename_clockwise.
  destruct (keyed h (filter_layer_pt_reg h ports layer port_type_ regex))
    as [e | l] eqn:Ek.
  - cbn. repeat split; reflexivity.
  - rewrite (for_each_assign (fun i => prefix +:+ pretty i)). cbn [fst snd].
    destruct (keyed_snd _ _ _ Ek) as [Hm _].
    split; [discriminate |]. split.
    + intros a Ha. apply (renamed_other (fun i => prefix +:+ pretty i)).
      rewrite enumerate_snd. unfold sorted.
      rewrite sort_perm, Hm. exact Ha.
    + intros a. apply (renamed_erase (fun i => prefix +:+ pretty i)).
Qed.

(** When the selected ports are distinct objects and [rename_clockwise]
    returns, the selected ports, put in ascending order of their sort keys
    with ports of equal keys in the order they came in, are named
    [prefix] followed by [start], [start + 1], and so on. *)
Theorem rename_clockwise_numbers (ports : list ProtoPort) (layer : option Z)
    (port_type_ regex : option string) (prefix : string) (start : Z)
    (h h' : gmap loc BasePort) :
  NoDup (map base (filter_layer_pt_reg h ports layer port_type_ regex)) ->
  rename_clockwise ports layer port_type_ regex prefix start h
  = (inr tt, h') ->
  exists l0 order,
    keyed h (filter_layer_pt_reg h ports layer port_type_ regex) = inr l0
    /\ order ≡ₚ l0
    /\ ascending order
    /\ stable l0 order
    /\ forall (i : nat) kp,
         order !! i = Some kp ->
         name <$> h' !! base (snd kp)
         = Some (Some (prefix +:+ pretty (start + Z.of_nat i))).
Proof.
  intros Hnd. unfold Rename.rename_clockwise.
  destruct (keyed h (filter_layer_pt_reg h ports layer port_type_ regex))
    as [e | l] eqn:Ek; [discriminate |].
  rewrite (for_each_assign (fun i => prefix +:+ pretty i)).
  intros [= <-].
  destruct (keyed_snd _ _ _ Ek) as [Hm Hk].
  exists l, (foldr insert_by_key [] l).
  split; [reflexivity |]. split; [apply sort_perm |].
  split; [apply sort_ascending |]. split; [apply sort_stable |].
  intros i kp Hi. unfold sorted.
  assert (Hnd' : NoDup (map base (map snd (foldr insert_by_key [] l)))).
  { rewrite sort_perm, Hm. exact Hnd. }
  rewrite (renamed_at (fun i => prefix +:+ pretty i) _ start h Hnd' i (snd kp)).
  - assert (Hin : kp ∈ l).
    { rewrite <- (sort_perm l). apply (list_elem_of_lookup_2 _ i), Hi. }
    pose proof (proj1 (Forall_forall _ _) Hk kp Hin) as Hkey.
    destruct (sort_key_present _ _ _ Hkey) as [b ->]. reflexivity.
  - rewrite list_lookup_fmap, Hi. reflexivity.
Qed.
End Laws.
End RenameLaws.

Module RenameLawsWitnesses.
Import Kdb PortModel PyM Rename RenameSpec.

(** Three ports, unfiltered: the west-facing ports come first, from the
    lower to the upper one, then the north-facing port. *)
Lemma rename_clockwise_numbers_witness :
  exists l0 order,
    keyed Samples4.no_float Samples4.store3
      (filter_layer_pt_reg Ortho.find_layer0 Samples4.match_all
         Samples4.store3 Samples4.ports3 None None None) = inr l0
    /\ order ≡ₚ l0
    /\ ascending order
    /\ stable l0 order
    /\ forall (i : nat) kp,
         order !! i = Some kp ->
         name <$> snd (rename_clockwise Ortho.find_layer0 Samples4.match_all
                         Samples4.no_float Samples4.ports3 None None None
                         "o" 1 Samples4.store3) !! base (snd kp)
         = Some (Some ("o" +:+ pretty (1 + Z.of_nat i))).
Proof.
  apply (RenameLaws.rename_clockwise_numbers
           Ortho.find_layer0 Samples4.match_all Samples4.no_float
           Samples4.ports3 None None None "o" 1 Samples4.store3).
  - apply (bool_decide_unpack _). vm_compute. reflexivity.
  - vm_compute. reflexivity.
Defined.

(** The names that come out on the three ports. *)
Example rename_clockwise_three_ports :
  (fun h => (name <$> h !! 1%positive, name <$> h !! 2%positive,
             name <$> h !! 3%positive))
    (snd (rename_clockwise Ortho.find_layer0 Samples4.match_all
            Samples4.no_float Samples4.ports3 None None None
            "o" 1 Samples4.store3))
  = (Some (Some "o2"), Some (Some "o3"), Some (Some "o1")).
Proof. vm_compute. reflexivity. Qed.
End RenameLawsWitnesses.
